(** * AIDEV-Hub: session lifecycle, crash recovery and the action log

    A shallow embedding of [Core/SessionManager.py], [Core/ActionTracker.py]
    and the part of [Core/DatabaseManager.py] they call, followed by the
    properties of the session state machine and of the action log.

    Conventions of the embedding.
    - A method of a Python class is a computation in the monad [M]: it takes
      the world (the manager's [SessionId], the SQLite tables, the session
      directories and the lock file, the clock and the uuid source) and
      returns either a value or a raised exception, with the new world.
      Side effects made before an exception is raised remain, as in Python.
    - A [string] holds text as its UTF-8 bytes.
    - Values that Python leaves untyped (the session state document, action
      parameters) are JSON values [JValue], with integers for numbers; the
      operations the code applies to them raise [TypeError], [KeyError] or
      [AttributeError] where Python does.  A value that a caller hands to
      [CompleteAction], or that a supervised function returns, is any
      Python value [PyValue]: a JSON value, or one that [json.dumps] writes
      as another value or rejects.
    - A TEXT cell that holds [json.dumps v], and a file written by
      [json.dump v], is represented by [v]: [json.loads] inverts
      [json.dumps] on JSON values.  A state file can also hold text that is
      not JSON ([Corrupt]).
    - The three session partitions are finite maps from a directory entry
      name (a session id) to a directory.  The configured partition paths
      are taken to be distinct.  A lookup in a partition is
      [os.path.exists] for a name that is a single path component (not
      empty, not a dot name, without a slash): for other strings the path
      the code builds names another file, the partition itself for the
      empty string.  The ids that the managers make are such names; where a
      statement is about a name that comes from elsewhere (the content of
      the lock file, the argument of [ResumeSession]) and about the branch
      taken when the path does not exist, [path_component] is a hypothesis.
    - [Invocations] is a trace kept by the model only: it records each call
      of a supervised function, so that statements can say whether and how
      often the function was called.
    - [datetime.now()] and [uuid.uuid4()] read an environment [Env]: the
      n-th call returns the n-th reading.  Nothing is assumed about the
      readings: two instants may render to the same string.
    - The store is SQLite with [PRAGMA foreign_keys = ON]: an insert raises
      [IntegrityError] on a duplicate primary key or a dangling foreign key.
      Other store failures (I/O errors, locked database) are not modelled.
    - Calls to [self.Logger] write to the process log only and are left out.

    The second part of the file covers the rest of the two managers (the
    queries, [RetryAction], the statistics, the snapshots), the facade
    [Core/StateManager.py] and the transactions of the database manager.
    - An integer bound to a [LIMIT ?] is a [Z]; SQLite takes a negative
      limit as no limit, and the binding raises outside of 64 bits.
    - The table [Conversations] is kept beside the world, in
      [Messages.Store]: only [RecordMessage], [GetSessionMessages] and
      [GetSessionInfo] use it.
    - [Connection.t] tells the committed rows from those a connection sees
      inside a transaction; the managers never open one. *)

From stdpp Require Import gmap strings list fin_maps sorting pretty.
From Stdlib Require Import OrderedTypeEx.

Set Warnings "-register-all".

(** ** Python values and exceptions *)

Inductive JValue : Type :=
| JNull
| JBool (b : bool)
| JNum (z : Z)
| JStr (s : string)
| JList (l : list JValue)
| JDict (d : list (string * JValue)).

Record Exn : Type := MkExn { exn_type : string; exn_msg : string }.

Inductive Outcome (A : Type) : Type :=
| Ok (a : A)
| Raise (e : Exn).
Arguments Ok {A} a.
Arguments Raise {A} e.

Definition TypeError (msg : string) : Exn := MkExn "TypeError" msg.
Definition KeyError (key : string) : Exn := MkExn "KeyError" key.
Definition AttributeError (msg : string) : Exn := MkExn "AttributeError" msg.
Definition IntegrityError (msg : string) : Exn := MkExn "IntegrityError" msg.
Definition FileNotFoundError (msg : string) : Exn := MkExn "FileNotFoundError" msg.
Definition JSONDecodeError (msg : string) : Exn := MkExn "JSONDecodeError" msg.
Definition ShutilError (msg : string) : Exn := MkExn "Error" msg.

(** A Python [dict] with string keys, in insertion order. *)
Fixpoint dict_get (k : string) (d : list (string * JValue)) : option JValue :=
  match d with
  | [] => None
  | (k', v) :: d' => if decide (k = k') then Some v else dict_get k d'
  end.

Fixpoint dict_set (k : string) (v : JValue) (d : list (string * JValue))
  : list (string * JValue) :=
  match d with
  | [] => [(k, v)]
  | (k', v') :: d' =>
      if decide (k = k') then (k, v) :: d' else (k', v') :: dict_set k v d'
  end.

(** [bool(v)] *)
Definition truthy (v : JValue) : bool :=
  match v with
  | JNull => false
  | JBool b => b
  | JNum z => negb (Z.eqb z 0)
  | JStr s => negb (String.eqb s "")
  | JList l => match l with [] => false | _ => true end
  | JDict d => match d with [] => false | _ => true end
  end.

(** [v == s] for a Python [str] [s]. *)
Definition py_eq_str (v : JValue) (s : string) : bool :=
  match v with
  | JStr s' => String.eqb s' s
  | _ => false
  end.

(** [k in v] for a [str] [k]: key of a dict, element of a list, substring of
    a str; other values are not iterable. *)
Definition py_contains (k : string) (v : JValue) : Outcome bool :=
  match v with
  | JDict d => Ok (bool_decide (is_Some (dict_get k d)))
  | JList l => Ok (existsb (fun x => py_eq_str x k) l)
  | JStr s => Ok (bool_decide (is_Some (String.index 0 k s)))
  | _ => Raise (TypeError "argument is not iterable")
  end.

(** [v[k]] for a [str] [k]. *)
Definition py_getitem (v : JValue) (k : string) : Outcome JValue :=
  match v with
  | JDict d =>
      match dict_get k d with
      | Some x => Ok x
      | None => Raise (KeyError k)
      end
  | JList _ => Raise (TypeError "list indices must be integers or slices, not str")
  | JStr _ => Raise (TypeError "string indices must be integers")
  | _ => Raise (TypeError "object is not subscriptable")
  end.

(** [v[k] = x] for a [str] [k]. *)
Definition py_setitem (v : JValue) (k : string) (x : JValue) : Outcome JValue :=
  match v with
  | JDict d => Ok (JDict (dict_set k x d))
  | JList _ => Raise (TypeError "list indices must be integers or slices, not str")
  | _ => Raise (TypeError "object does not support item assignment")
  end.

(** [v.append(x)] *)
Definition py_append (v : JValue) (x : JValue) : Outcome JValue :=
  match v with
  | JList l => Ok (JList (l ++ [x]))
  | _ => Raise (AttributeError "object has no attribute 'append'")
  end.

(** [str.strip()] removes the white space of Unicode at both ends.  In
    UTF-8 these characters take one byte (9 to 13, 28 to 32), two (U+0085,
    U+00A0) or three (U+1680, U+2000 to U+200A, U+2028, U+2029, U+202F,
    U+205F, U+3000). *)
Definition is_space (c : Ascii.ascii) : bool :=
  let n := Ascii.nat_of_ascii c in
  (Nat.leb 9 n && Nat.leb n 13) || (Nat.leb 28 n && Nat.leb n 32).

Definition is_space2 (c1 c2 : Ascii.ascii) : bool :=
  let n1 := Ascii.nat_of_ascii c1 in
  let n2 := Ascii.nat_of_ascii c2 in
  Nat.eqb n1 194 && (Nat.eqb n2 133 || Nat.eqb n2 160).

Definition is_space3 (c1 c2 c3 : Ascii.ascii) : bool :=
  let n1 := Ascii.nat_of_ascii c1 in
  let n2 := Ascii.nat_of_ascii c2 in
  let n3 := Ascii.nat_of_ascii c3 in
  (Nat.eqb n1 225 && Nat.eqb n2 154 && Nat.eqb n3 128)
  || (Nat.eqb n1 226 && Nat.eqb n2 128
      && ((Nat.leb 128 n3 && Nat.leb n3 138)
          || Nat.eqb n3 168 || Nat.eqb n3 169 || Nat.eqb n3 175))
  || (Nat.eqb n1 226 && Nat.eqb n2 129 && Nat.eqb n3 159)
  || (Nat.eqb n1 227 && Nat.eqb n2 128 && Nat.eqb n3 128).

Fixpoint lstrip (s : string) : string :=
  match s with
  | String c1 s1 =>
      if is_space c1 then lstrip s1
      else
        match s1 with
        | String c2 s2 =>
            if is_space2 c1 c2 then lstrip s2
            else
              match s2 with
              | String c3 s3 => if is_space3 c1 c2 c3 then lstrip s3 else s
              | EmptyString => s
              end
        | EmptyString => s
        end
  | EmptyString => EmptyString
  end.

(** The text is cut where only white space follows. *)
Fixpoint rstrip (s : string) : string :=
  match s with
  | String c s' =>
      match lstrip s with
      | EmptyString => EmptyString
      | _ => String c (rstrip s')
      end
  | EmptyString => EmptyString
  end.

Definition strip (s : string) : string := rstrip (lstrip s).

(** Truth value of an optional [str] such as [self.SessionId] or [Summary]:
    [None] and the empty string are false. *)
Definition str_truthy (o : option string) : bool :=
  match o with
  | Some (String _ _) => true
  | _ => false
  end.

(** ** The world: manager, store, file system, clock *)

(** A row of [Sessions]; the key of the table is the [SessionId] column. *)
Module SessionRow.
Record t : Type := Mk {
  StartTime : string;
  EndTime : option string;
  Status : string;
  Summary : option string
}.
Definition set_Status (s : string) (r : t) : t :=
  Mk (StartTime r) (EndTime r) s (Summary r).
End SessionRow.

(** A row of [Actions]; the key of the table is the [ActionId] column.
    [Params] and [Result] hold [json.dumps] text or NULL. *)
Module ActionRow.
Record t : Type := Mk {
  SessionId : string;
  ActionType : string;
  StartTime : string;
  EndTime : option string;
  Status : string;
  Params : option JValue;
  Result : option JValue
}.
End ActionRow.

(** A row of [StateSnapshots]; the key of the table is [SnapshotId]. *)
Module SnapshotRow.
Record t : Type := Mk {
  SessionId : string;
  Timestamp : string;
  StateData : JValue
}.
End SnapshotRow.

(** A row of [SessionRelationships] (the key is AUTOINCREMENT). *)
Module RelationRow.
Record t : Type := Mk {
  ParentSessionId : string;
  ChildSessionId : string;
  RelationType : string
}.
End RelationRow.

(** A row of [SystemLogs] (the key is AUTOINCREMENT). *)
Module LogRow.
Record t : Type := Mk {
  Timestamp : string;
  LogLevel : string;
  Component : string;
  Message : string;
  SessionId : option string;
  AdditionalData : option JValue
}.
End LogRow.

Record Database : Type := MkDatabase {
  Sessions : gmap string SessionRow.t;
  Actions : gmap string ActionRow.t;
  StateSnapshots : gmap string SnapshotRow.t;
  SessionRelationships : list RelationRow.t;
  SystemLogs : list LogRow.t
}.

(** What a [state.json] file holds: JSON text, or text that does not parse. *)
Inductive FileContent : Type :=
| JsonDoc (v : JValue)
| Corrupt (raw : string).

(** A session directory: its [state.json], if any, and the directories
    below it (there are some only after [shutil.move] found its destination
    already present). *)
Inductive Dir : Type :=
| MkDir (state_json : option FileContent) (subdirs : gmap string Dir).

Definition state_json (d : Dir) : option FileContent :=
  match d with MkDir f _ => f end.
Definition subdirs (d : Dir) : gmap string Dir :=
  match d with MkDir _ s => s end.
Definition empty_dir : Dir := MkDir None ∅.

(** [os.path.exists(dir/name)] for an entry of a session directory. *)
Definition has_entry (d : Dir) (name : string) : bool :=
  (bool_decide (name = "state.json") && bool_decide (is_Some (state_json d)))
  || bool_decide (is_Some (subdirs d !! name)).

Record FileSystem : Type := MkFileSystem {
  ActiveSessionDir : gmap string Dir;
  CrashSessionDir : gmap string Dir;
  CompletedSessionDir : gmap string Dir;
  LockFile : option string
}.

(** One reading of [datetime.now()], in the two renderings the code uses. *)
Record Instant : Type := MkInstant {
  strftime : string;    (* .strftime("%Y%m%d%H%M%S") *)
  isoformat : string    (* .isoformat() *)
}.

Record Env : Type := MkEnv {
  clock_at : nat -> Instant;
  uuid_at : nat -> string
}.

Record World : Type := MkWorld {
  self_SessionId : option string;    (* SessionManager.SessionId *)
  Db : Database;
  Fs : FileSystem;
  Ticks : nat;                       (* calls of datetime.now() so far *)
  Draws : nat;                       (* calls of uuid.uuid4() so far *)
  Invocations : list (list (string * JValue))
                                     (* calls of an ActionFunction so far,
                                        with their keyword arguments *)
}.

Definition set_SessionId (o : option string) (w : World) : World :=
  MkWorld o (Db w) (Fs w) (Ticks w) (Draws w) (Invocations w).
Definition set_Db (f : Database -> Database) (w : World) : World :=
  MkWorld (self_SessionId w) (f (Db w)) (Fs w) (Ticks w) (Draws w) (Invocations w).
Definition set_Fs (f : FileSystem -> FileSystem) (w : World) : World :=
  MkWorld (self_SessionId w) (Db w) (f (Fs w)) (Ticks w) (Draws w) (Invocations w).
Definition set_Ticks (n : nat) (w : World) : World :=
  MkWorld (self_SessionId w) (Db w) (Fs w) n (Draws w) (Invocations w).
Definition set_Draws (n : nat) (w : World) : World :=
  MkWorld (self_SessionId w) (Db w) (Fs w) (Ticks w) n (Invocations w).
Definition set_Invocations (l : list (list (string * JValue))) (w : World) : World :=
  MkWorld (self_SessionId w) (Db w) (Fs w) (Ticks w) (Draws w) l.

Definition set_Sessions (f : gmap string SessionRow.t -> gmap string SessionRow.t)
  (d : Database) : Database :=
  MkDatabase (f (Sessions d)) (Actions d) (StateSnapshots d)
    (SessionRelationships d) (SystemLogs d).
Definition set_Actions (f : gmap string ActionRow.t -> gmap string ActionRow.t)
  (d : Database) : Database :=
  MkDatabase (Sessions d) (f (Actions d)) (StateSnapshots d)
    (SessionRelationships d) (SystemLogs d).
Definition set_StateSnapshots
  (f : gmap string SnapshotRow.t -> gmap string SnapshotRow.t)
  (d : Database) : Database :=
  MkDatabase (Sessions d) (Actions d) (f (StateSnapshots d))
    (SessionRelationships d) (SystemLogs d).
Definition set_SessionRelationships (f : list RelationRow.t -> list RelationRow.t)
  (d : Database) : Database :=
  MkDatabase (Sessions d) (Actions d) (StateSnapshots d)
    (f (SessionRelationships d)) (SystemLogs d).
Definition set_SystemLogs (f : list LogRow.t -> list LogRow.t)
  (d : Database) : Database :=
  MkDatabase (Sessions d) (Actions d) (StateSnapshots d)
    (SessionRelationships d) (f (SystemLogs d)).

Definition set_ActiveSessionDir (f : gmap string Dir -> gmap string Dir)
  (s : FileSystem) : FileSystem :=
  MkFileSystem (f (ActiveSessionDir s)) (CrashSessionDir s)
    (CompletedSessionDir s) (LockFile s).
Definition set_CrashSessionDir (f : gmap string Dir -> gmap string Dir)
  (s : FileSystem) : FileSystem :=
  MkFileSystem (ActiveSessionDir s) (f (CrashSessionDir s))
    (CompletedSessionDir s) (LockFile s).
Definition set_CompletedSessionDir (f : gmap string Dir -> gmap string Dir)
  (s : FileSystem) : FileSystem :=
  MkFileSystem (ActiveSessionDir s) (CrashSessionDir s)
    (f (CompletedSessionDir s)) (LockFile s).
Definition set_LockFile (o : option string) (s : FileSystem) : FileSystem :=
  MkFileSystem (ActiveSessionDir s) (CrashSessionDir s)
    (CompletedSessionDir s) o.

(** ** The monad of methods *)

Definition M (A : Type) : Type := World -> Outcome A * World.

Definition ret {A : Type} (a : A) : M A := fun w => (Ok a, w).

Definition raise {A : Type} (e : Exn) : M A := fun w => (Raise e, w).

Definition bind {A B : Type} (m : M A) (k : A -> M B) : M B :=
  fun w =>
    match m w with
    | (Ok a, w') => k a w'
    | (Raise e, w') => (Raise e, w')
    end.

(** [try: body  except Exception as e: handler e] *)
Definition try_except {A : Type} (body : M A) (handler : Exn -> M A) : M A :=
  fun w =>
    match body w with
    | (Ok a, w') => (Ok a, w')
    | (Raise e, w') => handler e w'
    end.

Definition lift {A : Type} (o : Outcome A) : M A := fun w => (o, w).
Definition gets {A : Type} (f : World -> A) : M A := fun w => (Ok (f w), w).
Definition modify (f : World -> World) : M unit := fun w => (Ok tt, f w).

Declare Scope py_scope.
Delimit Scope py_scope with py.
Notation "'do' x <- m ; k" := (bind m (fun x => k))
  (at level 10, x name, m at level 100, k at level 200) : py_scope.
Notation "'run' m ; k" := (bind m (fun _ => k))
  (at level 10, m at level 100, k at level 200) : py_scope.
Open Scope py_scope.

(** [datetime.now()] *)
Definition datetime_now (env : Env) : M Instant :=
  fun w => (Ok (clock_at env (Ticks w)), set_Ticks (S (Ticks w)) w).

(** [str(uuid.uuid4())] *)
Definition uuid4 (env : Env) : M string :=
  fun w => (Ok (uuid_at env (Draws w)), set_Draws (S (Draws w)) w).

(** ** DatabaseManager *)

(** The statements the two managers send to the store. *)
Inductive InsertRow : Type :=
| IntoSessions (SessionId StartTime Status : string)
| IntoActions (ActionId SessionId ActionType StartTime Status : string)
    (Params : option JValue)
| IntoStateSnapshots (SnapshotId SessionId Timestamp : string) (StateData : JValue)
| IntoSessionRelationships (ParentSessionId ChildSessionId RelationType : string)
| IntoSystemLogs (Timestamp LogLevel Component Message : string)
    (SessionId : option string) (AdditionalData : option JValue).

Inductive UpdateStmt : Type :=
| UpdateSessions (EndTime Status : string) (Summary : option string)
    (WhereSessionId : string)
| UpdateActions (EndTime Status : string) (Result : option JValue)
    (WhereActionId : string).

(** [UPDATE Sessions SET Status = ? WHERE SessionId = ?] *)
Inductive NonQuery : Type :=
| SetSessionStatus (Status SessionId : string).

(** A row of the result of the pending-actions query. *)
Module PendingAction.
Record t : Type := Mk {
  ActionId : string;
  ActionType : string;
  StartTime : string;
  Status : string;
  Params : JValue
}.
End PendingAction.

(** [ORDER BY StartTime ASC] compares TEXT cells byte by byte. *)
Definition StartTime_le (x y : string * ActionRow.t) : Prop :=
  String.leb (ActionRow.StartTime x.2) (ActionRow.StartTime y.2) = true.

#[global] Instance StartTime_le_dec : RelDecision StartTime_le.
Proof. intros x y. unfold StartTime_le. apply _. Defined.

(** [ORDER BY <column> DESC] on a TEXT column; a row comes with its key. *)
Definition newest_first {A : Type} (column : A -> string) (x y : string * A)
  : Prop :=
  String.leb (column y.2) (column x.2) = true.

#[global] Instance newest_first_dec {A : Type} (column : A -> string) :
  RelDecision (newest_first column).
Proof. intros x y. unfold newest_first. apply _. Defined.

(** [ORDER BY Timestamp ASC] on [Conversations]. *)
Definition oldest_first {A : Type} (column : A -> string) (x y : string * A)
  : Prop :=
  String.leb (column x.2) (column y.2) = true.

#[global] Instance oldest_first_dec {A : Type} (column : A -> string) :
  RelDecision (oldest_first column).
Proof. intros x y. unfold oldest_first. apply _. Defined.

(** [LIMIT ?]: a negative limit is no limit. *)
Definition sql_limit {A : Type} (Limit : Z) (rows : list A) : list A :=
  if Z.ltb Limit 0 then rows else take (Z.to_nat Limit) rows.

Definition OverflowError (msg : string) : Exn := MkExn "OverflowError" msg.

(** Binding a Python [int] to a statement parameter: an SQLite INTEGER has
    64 bits. *)
Definition bind_int (n : Z) : Outcome Z :=
  if Z.leb (- 2 ^ 63) n && Z.ltb n (2 ^ 63) then Ok n
  else Raise (OverflowError
      "Python int too large to convert to SQLite INTEGER").

(** [SELECT <column>, COUNT( * ) ... GROUP BY <column>]: one row per value of
    the column, with the number of rows that have it. *)
Definition count_by {A : Type} (column : A -> string) (rows : list A)
  : gmap string nat :=
  foldr (fun r m => <[column r := S (default 0 (m !! column r))]> m) ∅ rows.

(** A row of the result of the snapshot list query. *)
Module SnapshotInfo.
Record t : Type := Mk {
  SnapshotId : string;
  SessionId : string;
  Timestamp : string
}.
End SnapshotInfo.

Module DatabaseManager.

Definition insert_row (r : InsertRow) (d : Database) : Outcome Database :=
  match r with
  | IntoSessions id st status =>
      if bool_decide (is_Some (Sessions d !! id))
      then Raise (IntegrityError "UNIQUE constraint failed: Sessions.SessionId")
      else Ok (set_Sessions (insert id (SessionRow.Mk st None status None)) d)
  | IntoActions aid sid ty st status params =>
      if bool_decide (is_Some (Actions d !! aid))
      then Raise (IntegrityError "UNIQUE constraint failed: Actions.ActionId")
      else if bool_decide (is_Some (Sessions d !! sid))
      then Ok (set_Actions
                 (insert aid (ActionRow.Mk sid ty st None status params None)) d)
      else Raise (IntegrityError "FOREIGN KEY constraint failed")
  | IntoStateSnapshots nid sid ts data =>
      if bool_decide (is_Some (StateSnapshots d !! nid))
      then Raise (IntegrityError "UNIQUE constraint failed: StateSnapshots.SnapshotId")
      else if bool_decide (is_Some (Sessions d !! sid))
      then Ok (set_StateSnapshots (insert nid (SnapshotRow.Mk sid ts data)) d)
      else Raise (IntegrityError "FOREIGN KEY constraint failed")
  | IntoSessionRelationships parent child ty =>
      if bool_decide (is_Some (Sessions d !! parent))
         && bool_decide (is_Some (Sessions d !! child))
      then Ok (set_SessionRelationships
                 (fun l => l ++ [RelationRow.Mk parent child ty]) d)
      else Raise (IntegrityError "FOREIGN KEY constraint failed")
  | IntoSystemLogs ts lvl comp msg sid data =>
      Ok (set_SystemLogs (fun l => l ++ [LogRow.Mk ts lvl comp msg sid data]) d)
  end.

(** [InsertWithId(Table, ColumnDict)]; the returned row id is never used. *)
Definition InsertWithId (r : InsertRow) : M unit :=
  fun w =>
    match insert_row r (Db w) with
    | Ok d => (Ok tt, set_Db (fun _ => d) w)
    | Raise e => (Raise e, w)
    end.

Definition update_rows (u : UpdateStmt) (d : Database) : Database :=
  match u with
  | UpdateSessions et status summary id =>
      set_Sessions
        (alter (fun r => SessionRow.Mk (SessionRow.StartTime r) (Some et) status
                           (match summary with
                            | Some s => Some s
                            | None => SessionRow.Summary r
                            end)) id) d
  | UpdateActions et status result aid =>
      set_Actions
        (alter (fun r => ActionRow.Mk (ActionRow.SessionId r)
                           (ActionRow.ActionType r) (ActionRow.StartTime r)
                           (Some et) status (ActionRow.Params r) result) aid) d
  end.

Definition rows_matched (u : UpdateStmt) (d : Database) : nat :=
  match u with
  | UpdateSessions _ _ _ id =>
      match Sessions d !! id with Some _ => 1 | None => 0 end
  | UpdateActions _ _ _ aid =>
      match Actions d !! aid with Some _ => 1 | None => 0 end
  end.

(** [Update(Table, ColumnDict, WhereClause, WhereParams)] returns the row
    count. *)
Definition Update (u : UpdateStmt) : M nat :=
  fun w => (Ok (rows_matched u (Db w)), set_Db (update_rows u) w).

(** [ExecuteNonQuery(Query, Params)] returns the row count. *)
Definition ExecuteNonQuery (q : NonQuery) : M nat :=
  match q with
  | SetSessionStatus status id =>
      fun w =>
        (Ok (match Sessions (Db w) !! id with Some _ => 1 | None => 0 end),
         set_Db (set_Sessions (alter (SessionRow.set_Status status) id)) w)
  end.

(** [ExecuteQuery] of [SELECT Status FROM Actions WHERE ActionId = ?] *)
Definition ExecuteQuery_Status (ActionId : string) : M (list string) :=
  gets (fun w =>
          match Actions (Db w) !! ActionId with
          | Some r => [ActionRow.Status r]
          | None => []
          end).

(** [ExecuteQuery] of [SELECT ... FROM Actions WHERE ActionId = ?] *)
Definition ExecuteQuery_ById (ActionId : string) : M (list ActionRow.t) :=
  gets (fun w =>
          match Actions (Db w) !! ActionId with
          | Some r => [r]
          | None => []
          end).

(** [ExecuteQuery] of [SELECT ActionId, ActionType, StartTime, Status, Params
    FROM Actions WHERE SessionId = ? AND Status = 'STARTED'
    ORDER BY StartTime ASC] *)
Definition ExecuteQuery_Pending (SessionId : string)
  : M (list (string * ActionRow.t)) :=
  gets (fun w =>
          merge_sort StartTime_le
            (filter (fun x => ActionRow.SessionId x.2 = SessionId
                              /\ ActionRow.Status x.2 = "STARTED")
               (map_to_list (Actions (Db w))))).

(** [LogToDatabase(LogLevel, Component, Message, SessionId, AdditionalData)] *)
Definition LogToDatabase (env : Env) (LogLevel Component Message : string)
  (SessionId : option string) (AdditionalData : option JValue) : M unit :=
  try_except
    (do now <- datetime_now env;
     InsertWithId
       (IntoSystemLogs (isoformat now) LogLevel Component Message SessionId
          (match AdditionalData with
           | Some v => if truthy v then Some v else None
           | None => None
           end)))
    (fun _ => ret tt).

(** [ExecuteQuery] of [SELECT SessionId, StartTime, EndTime, Status, Summary
    FROM Sessions ORDER BY StartTime DESC LIMIT ?] *)
Definition ExecuteQuery_SessionHistory (Limit : Z)
  : M (list (string * SessionRow.t)) :=
  do n <- lift (bind_int Limit);
  gets (fun w =>
          sql_limit n
            (merge_sort (newest_first SessionRow.StartTime)
               (map_to_list (Sessions (Db w))))).

(** [ExecuteQuery] of [SELECT SessionId, StartTime, EndTime, Status, Summary
    FROM Sessions WHERE Status = 'CRASHED' ORDER BY StartTime DESC] *)
Definition ExecuteQuery_Crashed : M (list (string * SessionRow.t)) :=
  gets (fun w =>
          merge_sort (newest_first SessionRow.StartTime)
            (filter (fun x => SessionRow.Status x.2 = "CRASHED")
               (map_to_list (Sessions (Db w))))).

(** [ExecuteQuery] of [SELECT SnapshotId, SessionId, Timestamp
    FROM StateSnapshots WHERE SessionId = ? ORDER BY Timestamp DESC LIMIT ?] *)
Definition ExecuteQuery_Snapshots (SessionId : string) (Limit : Z)
  : M (list SnapshotInfo.t) :=
  do n <- lift (bind_int Limit);
  gets (fun w =>
          map (fun x => SnapshotInfo.Mk x.1 (SnapshotRow.SessionId x.2)
                          (SnapshotRow.Timestamp x.2))
            (sql_limit n
               (merge_sort (newest_first SnapshotRow.Timestamp)
                  (filter (fun x => SnapshotRow.SessionId x.2 = SessionId)
                     (map_to_list (StateSnapshots (Db w))))))).

(** [ExecuteQuery] of [SELECT SnapshotId, SessionId, Timestamp, StateData
    FROM StateSnapshots WHERE SnapshotId = ?] *)
Definition ExecuteQuery_SnapshotById (SnapshotId : string)
  : M (list SnapshotRow.t) :=
  gets (fun w =>
          match StateSnapshots (Db w) !! SnapshotId with
          | Some r => [r]
          | None => []
          end).

(** [ExecuteQuery] of [SELECT ActionId, ActionType, StartTime, EndTime, Status,
    Params, Result FROM Actions WHERE SessionId = ?
    ORDER BY StartTime DESC LIMIT ?] *)
Definition ExecuteQuery_SessionActions (SessionId : string) (Limit : Z)
  : M (list (string * ActionRow.t)) :=
  do n <- lift (bind_int Limit);
  gets (fun w =>
          sql_limit n
            (merge_sort (newest_first ActionRow.StartTime)
               (filter (fun x => ActionRow.SessionId x.2 = SessionId)
                  (map_to_list (Actions (Db w)))))).

(** [ExecuteQuery] of [SELECT ActionId, SessionId, ActionType, StartTime,
    EndTime, Status, Params, Result FROM Actions WHERE ActionType = ?
    ORDER BY StartTime DESC LIMIT ?] *)
Definition ExecuteQuery_ActionsByType (ActionType : string) (Limit : Z)
  : M (list (string * ActionRow.t)) :=
  do n <- lift (bind_int Limit);
  gets (fun w =>
          sql_limit n
            (merge_sort (newest_first ActionRow.StartTime)
               (filter (fun x => ActionRow.ActionType x.2 = ActionType)
                  (map_to_list (Actions (Db w)))))).

(** The rows of [Actions] with [SessionId = ?], in no particular order. *)
Definition session_actions (SessionId : string) (d : Database)
  : list ActionRow.t :=
  (filter (fun x => ActionRow.SessionId x.2 = SessionId)
     (map_to_list (Actions d))).*2.

(** [ExecuteQuery] of [SELECT COUNT( * ) as TotalCount FROM Actions
    WHERE SessionId = ?]: one row. *)
Definition ExecuteQuery_ActionCount (SessionId : string) : M (list nat) :=
  gets (fun w => [length (session_actions SessionId (Db w))]).

(** [ExecuteQuery] of [SELECT Status, COUNT( * ) as Count FROM Actions
    WHERE SessionId = ? GROUP BY Status] *)
Definition ExecuteQuery_StatusCounts (SessionId : string)
  : M (list (string * nat)) :=
  gets (fun w =>
          map_to_list (count_by ActionRow.Status (session_actions SessionId (Db
              w)))).

(** [ExecuteQuery] of [SELECT ActionType, COUNT( * ) as Count FROM Actions
    WHERE SessionId = ? GROUP BY ActionType] *)
Definition ExecuteQuery_TypeCounts (SessionId : string)
  : M (list (string * nat)) :=
  gets (fun w =>
          map_to_list
            (count_by ActionRow.ActionType (session_actions SessionId (Db w)))).

End DatabaseManager.

(** ** The file system calls *)

Inductive Partition : Type := Active | Crashed | Completed.

Definition part (p : Partition) (s : FileSystem) : gmap string Dir :=
  match p with
  | Active => ActiveSessionDir s
  | Crashed => CrashSessionDir s
  | Completed => CompletedSessionDir s
  end.

Definition set_part (p : Partition) (f : gmap string Dir -> gmap string Dir)
  (s : FileSystem) : FileSystem :=
  match p with
  | Active => set_ActiveSessionDir f s
  | Crashed => set_CrashSessionDir f s
  | Completed => set_CompletedSessionDir f s
  end.

(** A name is a single path component when it is not empty, is not a dot
    name, and has no slash and no NUL.  For any other [name] the path
    [f"{partition}/{name}"] is not that of an entry of the partition: for
    the empty name it is the partition itself. *)
Fixpoint no_separator (s : string) : bool :=
  match s with
  | String c s' =>
      let n := Ascii.nat_of_ascii c in    (* 47 is the slash, 0 is NUL *)
      negb (Nat.eqb n 47) && negb (Nat.eqb n 0) && no_separator s'
  | EmptyString => true
  end.

Definition path_component (name : string) : bool :=
  negb (String.eqb name "") && negb (String.eqb name ".")
  && negb (String.eqb name "..") && no_separator name.

(** [os.path.exists(f"{partition}/{name}")], for a [name] that is a single
    path component. *)
Definition dir_exists (p : Partition) (name : string) (w : World) : bool :=
  bool_decide (is_Some (part p (Fs w) !! name)).

(** [os.makedirs(f"{partition}/{name}", exist_ok=True)] *)
Definition makedirs (p : Partition) (name : string) : M unit :=
  modify (set_Fs (set_part p (fun m =>
    match m !! name with
    | Some _ => m
    | None => <[name := empty_dir]> m
    end))).

(** [shutil.move(f"{src}/{name}", f"{dst}/{name}")] of a directory.  When the
    destination is an existing directory the source is moved inside it, and
    [shutil.Error] is raised if an entry of that name is already there. *)
Definition shutil_move (src dst : Partition) (name : string) : M unit :=
  fun w =>
    match part src (Fs w) !! name with
    | None => (Raise (FileNotFoundError name), w)
    | Some d =>
        match part dst (Fs w) !! name with
        | None =>
            (Ok tt,
             set_Fs (fun s => set_part dst (insert name d)
                                (set_part src (delete name) s)) w)
        | Some old =>
            if bool_decide (is_Some (subdirs old !! name))
            then (Raise (ShutilError "Destination path already exists"), w)
            else
              (Ok tt,
               set_Fs (fun s =>
                 set_part dst
                   (insert name
                      (MkDir (state_json old) (<[name := d]> (subdirs old))))
                   (set_part src (delete name) s)) w)
        end
    end.

(** The content of [f"{partition}/{name}/state.json"], if the file exists. *)
Definition state_file (p : Partition) (name : string) (w : World)
  : option FileContent :=
  match part p (Fs w) !! name with
  | Some d => state_json d
  | None => None
  end.

(** [json.load(f)] *)
Definition json_load (c : FileContent) : Outcome JValue :=
  match c with
  | JsonDoc v => Ok v
  | Corrupt _ => Raise (JSONDecodeError "Expecting value")
  end.

(** [with open(f"{partition}/{name}/state.json", 'w') as f: json.dump(v, f)] *)
Definition write_state_file (p : Partition) (name : string) (v : JValue)
  : M unit :=
  fun w =>
    match part p (Fs w) !! name with
    | Some d =>
        (Ok tt,
         set_Fs (set_part p (insert name (MkDir (Some (JsonDoc v)) (subdirs d)))) w)
    | None => (Raise (FileNotFoundError name), w)
    end.

(** A decoded snapshot, as [GetSessionStateSnapshot] returns it: the
    [StateData] text is replaced by the [State] it encodes. *)
Module Snapshot.
Record t : Type := Mk {
  SnapshotId : string;
  SessionId : string;
  Timestamp : string;
  State : JValue
}.
End Snapshot.

(** ** SessionManager *)

Module SessionManager.
Section Methods.
Variable env : Env.

(** [EnsureDirectoriesExist]: the partitions of the model always exist. *)
Definition EnsureDirectoriesExist : M unit := ret tt.

Definition UpdateSessionStatus (SessionId Status : string) : M bool :=
  try_except
    (do RowsAffected <- DatabaseManager.ExecuteNonQuery
                          (SetSessionStatus Status SessionId);
     ret (Nat.ltb 0 RowsAffected))
    (fun _ => ret false).

Definition CheckForCrashedSessions : M unit :=
  do lock <- gets (fun w => LockFile (Fs w));
  match lock with
  | Some content =>
      let CrashedSessionId := strip content in
      do found <- gets (dir_exists Active CrashedSessionId);
      run (if found
           then
             run shutil_move Active Crashed CrashedSessionId;
             do _ <- UpdateSessionStatus CrashedSessionId "CRASHED";
             ret tt
           else ret tt);
      modify (set_Fs (set_LockFile None))
  | None => ret tt
  end.

(** [__init__]; the exit hook it registers is [CleanExit]. *)
Definition init : M unit :=
  run modify (set_SessionId None);
  run EnsureDirectoriesExist;
  CheckForCrashedSessions.

(** [f.write(self.SessionId)] raises on [None], after the file was opened
    for writing. *)
Definition CreateLockFile : M unit :=
  do sid <- gets self_SessionId;
  match sid with
  | Some id => modify (set_Fs (set_LockFile (Some id)))
  | None =>
      run modify (set_Fs (set_LockFile (Some "")));
      raise (TypeError "write() argument must be str, not None")
  end.

Definition SaveSessionState (State : JValue) : M bool :=
  try_except
    (do sid <- gets self_SessionId;
     if negb (str_truthy sid) then ret false
     else
       let id := default "" sid in
       do now <- datetime_now env;
       do State <- lift (py_setitem State "LastModified" (JStr (isoformat now)));
       run write_state_file Active id State;
       do SnapshotId <- uuid4 env;
       run DatabaseManager.InsertWithId
             (IntoStateSnapshots SnapshotId id (isoformat now) State);
       ret true)
    (fun _ => ret false).

(** Python's [None] is [JNull]. *)
Definition LoadSessionState : M JValue :=
  try_except
    (do sid <- gets self_SessionId;
     if negb (str_truthy sid) then ret JNull
     else
       do file <- gets (state_file Active (default "" sid));
       match file with
       | Some c => lift (json_load c)
       | None => ret JNull
       end)
    (fun _ => ret JNull).

(** The state-file patch of [EndSession]. *)
Definition end_state (State : JValue) (EndTime : string) (Summary : option string)
  : Outcome JValue :=
  match py_setitem State "EndTime" (JStr EndTime) with
  | Raise e => Raise e
  | Ok State =>
  match py_setitem State "Status" (JStr "COMPLETED") with
  | Raise e => Raise e
  | Ok State =>
  match py_setitem State "LastModified" (JStr EndTime) with
  | Raise e => Raise e
  | Ok State =>
      if str_truthy Summary
      then py_setitem State "Summary" (JStr (default "" Summary))
      else Ok State
  end end end.

Definition EndSession (Summary : option string) : M bool :=
  do sid <- gets self_SessionId;
  if negb (str_truthy sid) then ret false
  else
    let id := default "" sid in
    try_except
      (do now <- datetime_now env;
       let EndTime := isoformat now in
       do _ <- DatabaseManager.Update
                 (UpdateSessions EndTime "COMPLETED"
                    (if str_truthy Summary then Summary else None) id);
       do file <- gets (state_file Active id);
       run match file with
           | Some c =>
               try_except
                 (do State <- lift (json_load c);
                  do State <- lift (end_state State EndTime Summary);
                  write_state_file Active id State)
                 (fun _ => ret tt)
           | None => ret tt
           end;
       do found <- gets (dir_exists Active id);
       run (if found then shutil_move Active Completed id else ret tt);
       run modify (set_Fs (set_LockFile None));
       run DatabaseManager.LogToDatabase env "INFO" "SessionManager"
             ("Session " +:+ id +:+ " ended") (Some id)
             (if str_truthy Summary
              then Some (JDict [("Summary", JStr (default "" Summary))])
              else None);
       run modify (set_SessionId None);
       ret true)
      (fun _ => ret false).

Definition initial_state (SessionId StartTime : string) : JValue :=
  JDict [("SessionId", JStr SessionId); ("StartTime", JStr StartTime);
         ("Messages", JList []); ("Context", JDict []);
         ("LastModified", JStr StartTime)].

Definition StartSession : M string :=
  do current <- gets self_SessionId;
  run (if str_truthy current
       then do _ <- EndSession (Some "Ended to start new session"); ret tt
       else ret tt);
  do now <- datetime_now env;
  let id := strftime now in
  run modify (set_SessionId (Some id));
  do now <- datetime_now env;
  let StartTime := isoformat now in
  run DatabaseManager.InsertWithId (IntoSessions id StartTime "ACTIVE");
  run makedirs Active id;
  run CreateLockFile;
  do _ <- SaveSessionState (initial_state id StartTime);
  run DatabaseManager.LogToDatabase env "INFO" "SessionManager"
        ("Session " +:+ id +:+ " started") (Some id) None;
  ret id.

Definition minimal_state (NewId StartTime ResumedFrom : string) : JValue :=
  JDict [("SessionId", JStr NewId); ("StartTime", JStr StartTime);
         ("Messages", JList []); ("Context", JDict []);
         ("ResumedFrom", JStr ResumedFrom); ("LastModified", JStr StartTime)].

(** The state a resumed session starts from.  For a [CrashedState] that is
    not a dict, either [dict(CrashedState)] or [CrashedState["SessionId"]]
    raises; nothing was written before. *)
Definition resumed_state (CrashedState : JValue)
  (NewId StartTime ResumedFrom : string) : Outcome JValue :=
  match CrashedState with
  | JDict d =>
      match dict_get "SessionId" d with
      | Some original =>
          Ok (JDict
                (dict_set "LastModified" (JStr StartTime)
                   (dict_set "ResumedFrom" (JStr ResumedFrom)
                      (dict_set "StartTime" (JStr StartTime)
                         (dict_set "SessionId" (JStr NewId)
                            (dict_set "OriginalSessionId" original d))))))
      | None => Raise (KeyError "SessionId")
      end
  | _ => Raise (TypeError "state is not a mapping")
  end.

Definition ResumeSession (SessionId : string) : M (option string) :=
  do found <- gets (dir_exists Crashed SessionId);
  if negb found then ret None
  else
    do current <- gets self_SessionId;
    run (if str_truthy current
         then do _ <- EndSession (Some "Ended to resume crashed session"); ret tt
         else ret tt);
    do now <- datetime_now env;
    let id := SessionId +:+ "_resumed_" +:+ strftime now in
    run modify (set_SessionId (Some id));
    do now <- datetime_now env;
    let StartTime := isoformat now in
    run DatabaseManager.InsertWithId (IntoSessions id StartTime "ACTIVE");
    run DatabaseManager.InsertWithId
          (IntoSessionRelationships SessionId id "RESUME");
    run makedirs Active id;
    run CreateLockFile;
    do file <- gets (state_file Crashed SessionId);
    run match file with
        | Some c =>
            try_except
              (do CrashedState <- lift (json_load c);
               do NewState <- lift (resumed_state CrashedState id StartTime SessionId);
               do _ <- SaveSessionState NewState;
               ret tt)
              (fun _ =>
                 do _ <- SaveSessionState (minimal_state id StartTime SessionId);
                 ret tt)
        | None =>
            do _ <- SaveSessionState (minimal_state id StartTime SessionId);
            ret tt
        end;
    run DatabaseManager.LogToDatabase env "INFO" "SessionManager"
          ("Resumed session " +:+ SessionId +:+ " as new session " +:+ id)
          (Some id) (Some (JDict [("ResumedFrom", JStr SessionId)]));
    ret (Some id).

Definition CleanExit : M unit :=
  do sid <- gets self_SessionId;
  if str_truthy sid then modify (set_Fs (set_LockFile None)) else ret tt.

Definition GetSessionHistory (Limit : Z) : M (list (string * SessionRow.t)) :=
  try_except (DatabaseManager.ExecuteQuery_SessionHistory Limit)
    (fun _ => ret []).

Definition GetCrashedSessions : M (list (string * SessionRow.t)) :=
  try_except DatabaseManager.ExecuteQuery_Crashed (fun _ => ret []).

Definition GetSessionStateSnapshots (SessionId : option string) (Limit : Z)
  : M (list SnapshotInfo.t) :=
  try_except
    (do current <- gets self_SessionId;
     if negb (str_truthy SessionId) && negb (str_truthy current) then ret []
     else
       let TargetSessionId :=
         if str_truthy SessionId then default "" SessionId
         else default "" current in
       DatabaseManager.ExecuteQuery_Snapshots TargetSessionId Limit)
    (fun _ => ret []).

Definition GetSessionStateSnapshot (SnapshotId : string)
  : M (option Snapshot.t) :=
  try_except
    (do Snapshots <- DatabaseManager.ExecuteQuery_SnapshotById SnapshotId;
     match Snapshots with
     | r :: _ =>
         ret (Some (Snapshot.Mk SnapshotId (SnapshotRow.SessionId r)
                      (SnapshotRow.Timestamp r) (SnapshotRow.StateData r)))
     | [] => ret None
     end)
    (fun _ => ret None).

Definition GetCurrentSessionState : M JValue :=
  do sid <- gets self_SessionId;
  if negb (str_truthy sid) then ret JNull else LoadSessionState.

End Methods.
End SessionManager.

(** ** ActionTracker *)

(** A decoded row, as [GetActionById] returns it. *)
Module Action.
Record t : Type := Mk {
  ActionId : string;
  SessionId : string;
  ActionType : string;
  StartTime : string;
  EndTime : option string;
  Status : string;
  Params : JValue;
  Result : JValue
}.
End Action.

(** A Python value that need not be a JSON value, such as the result of a
    supervised function.  [json.dumps] writes a JSON value as itself.  A
    value that is not one it either writes as some JSON value, which is then
    what [json.loads] reads back (a tuple is written as a list, a dict with
    [int] keys as one with [str] keys), or rejects with [TypeError] (a set,
    bytes, an object): [dumps] is that JSON value, if there is one. *)
Inductive PyValue : Type :=
| Json (v : JValue)
| NotJson (type_name : string) (dumps : option JValue).

Coercion Json : JValue >-> PyValue.

(** A JSON value is read as a Python value also below [Ok] and in a tuple. *)
Arguments Ok {A} & a.
Arguments pair {A B} & a b.

(** [json.dumps(V)], as the JSON value that the text encodes. *)
Definition json_dumps (V : PyValue) : Outcome JValue :=
  match V with
  | Json v => Ok v
  | NotJson _ (Some v) => Ok v
  | NotJson type_name None =>
      Raise (TypeError ("Object of type " +:+ type_name
                          +:+ " is not JSON serializable"))
  end.

(** [V is None] *)
Definition is_None (V : PyValue) : bool :=
  match V with
  | Json JNull => true
  | _ => false
  end.

(** The cell [json.dumps(Result) if Result is not None else None], for the
    JSON value [v] that [json.dumps] writes for [Result]. *)
Definition result_cell (Result : PyValue) (v : JValue) : option JValue :=
  if is_None Result then None else Some v.

(** An [ActionFunction], called with keyword arguments: it returns a value,
    of any type, or raises, and as any code of the process it may act on
    the world. *)
Definition ActionFunction : Type := list (string * JValue) -> M PyValue.

(** A function that only computes. *)
Definition computes (f : list (string * JValue) -> Outcome PyValue)
  : ActionFunction :=
  fun args => lift (f args).

Definition and_then {A B : Type} (o : Outcome A) (k : A -> Outcome B) : Outcome B :=
  match o with
  | Ok a => k a
  | Raise e => Raise e
  end.

(** [Params] is a dict or [None]. *)
Definition params_value (Params : option (list (string * JValue))) : JValue :=
  match Params with
  | Some d => JDict d
  | None => JNull
  end.

(** [json.loads] of a TEXT cell when the cell is not empty, else the cell. *)
Definition decode_cell (c : option JValue) : JValue :=
  match c with
  | Some v => v
  | None => JNull
  end.

(** A decoded row of the result of [GetSessionActions]: the columns of
    [Action.t] but [SessionId]. *)
Module SessionAction.
Record t : Type := Mk {
  ActionId : string;
  ActionType : string;
  StartTime : string;
  EndTime : option string;
  Status : string;
  Params : JValue;
  Result : JValue
}.
End SessionAction.

(** The dict [GetActionStats] returns. *)
Module ActionStats.
Record t : Type := Mk {
  TotalCount : nat;
  StatusCounts : gmap string nat;
  TypeCounts : gmap string nat
}.
End ActionStats.

(** [for Row in Rows: Counts[Row[column]] = Row["Count"]] *)
Definition counts_dict (Rows : list (string * nat)) : gmap string nat :=
  foldl (fun Counts Row => <[Row.1 := Row.2]> Counts) ∅ Rows.

(** [Params["RetryOf"] = ActionId] on the decoded [Params] cell of the
    original action. *)
Definition retry_params (Params : JValue) (ActionId : string)
  : Outcome (list (string * JValue)) :=
  match Params with
  | JDict d => Ok (dict_set "RetryOf" (JStr ActionId) d)
  | JList _ => Raise (TypeError
      "list indices must be integers or slices, not str")
  | _ => Raise (TypeError "object does not support item assignment")
  end.

Module ActionTracker.
Section Methods.
Variable env : Env.

(** The mirror update of [RecordAction]:
    [if "Actions" not in State: State["Actions"] = []] and
    [State["Actions"].append(Action)]. *)
Definition mirror_append (State Action : JValue) : Outcome JValue :=
  and_then (py_contains "Actions" State) (fun present =>
  and_then (if present then Ok State else py_setitem State "Actions" (JList []))
    (fun State =>
  and_then (py_getitem State "Actions") (fun actions =>
  and_then (py_append actions Action) (fun actions =>
  py_setitem State "Actions" actions)))).

Definition RecordAction (ActionType : string)
  (Params : option (list (string * JValue))) : M (option string) :=
  try_except
    (do SessionId <- gets self_SessionId;
     if negb (str_truthy SessionId) then ret None
     else
       let sid := default "" SessionId in
       do ActionId <- uuid4 env;
       do now <- datetime_now env;
       let StartTime := isoformat now in
       run DatabaseManager.InsertWithId
             (IntoActions ActionId sid ActionType StartTime "STARTED"
                (if truthy (params_value Params)
                 then Some (params_value Params) else None));
       do State <- SessionManager.LoadSessionState;
       run (if truthy State
            then
              do State <- lift (mirror_append State
                                  (JDict [("ActionId", JStr ActionId);
                                          ("ActionType", JStr ActionType);
                                          ("StartTime", JStr StartTime);
                                          ("Status", JStr "STARTED");
                                          ("Params", params_value Params);
                                          ("Result", JNull)]));
              do _ <- SessionManager.SaveSessionState env State;
              ret tt
            else ret tt);
       run DatabaseManager.LogToDatabase env "INFO" "ActionTracker"
             ("Action " +:+ ActionType +:+ " started") (Some sid)
             (Some (JDict [("ActionId", JStr ActionId);
                           ("Params", params_value Params)]));
       ret (Some ActionId))
    (fun _ => ret None).

(** The loop over [State["Actions"]] when it is a list: the first entry whose
    ["ActionId"] equals [ActionId] is patched. *)
Fixpoint patch_actions (l : list JValue) (ActionId EndTime Status : string)
  (Result : JValue) : Outcome (list JValue) :=
  match l with
  | [] => Ok []
  | a :: l' =>
      and_then (py_getitem a "ActionId") (fun id =>
      if py_eq_str id ActionId
      then
        and_then (py_setitem a "EndTime" (JStr EndTime)) (fun a =>
        and_then (py_setitem a "Status" (JStr Status)) (fun a =>
        and_then (py_setitem a "Result" Result) (fun a =>
        Ok (a :: l'))))
      else
        and_then (patch_actions l' ActionId EndTime Status Result) (fun r =>
        Ok (a :: r)))
  end.

(** [for Action in State["Actions"]: ...]: iterating over a dict or a str
    yields strs, which cannot be indexed by ["ActionId"]. *)
Definition mirror_patch (State : JValue) (ActionId EndTime Status : string)
  (Result : JValue) : Outcome JValue :=
  and_then (py_getitem State "Actions") (fun actions =>
  match actions with
  | JList l =>
      and_then (patch_actions l ActionId EndTime Status Result) (fun l =>
      py_setitem State "Actions" (JList l))
  | JDict [] => Ok State
  | JStr EmptyString => Ok State
  | JDict _ => Raise (TypeError "string indices must be integers")
  | JStr _ => Raise (TypeError "string indices must be integers")
  | _ => Raise (TypeError "object is not iterable")
  end).

(** [Result] is any Python value.  [json.dumps(Result)] is evaluated while
    the dict for the UPDATE is built, after the clock was read: when it
    raises, nothing was written.  ([None] is not encoded there; encoding it
    too would raise nothing.)  When it does not raise, the state file and
    the log row, which are written by [json.dump] and [json.dumps] as well,
    hold the same JSON value [v]. *)
Definition CompleteAction (ActionId : string) (Result : PyValue) (Status : string)
  : M bool :=
  try_except
    (do SessionId <- gets self_SessionId;
     if negb (str_truthy SessionId) then ret false
     else
       do now <- datetime_now env;
       let EndTime := isoformat now in
       do v <- lift (json_dumps Result);
       do _ <- DatabaseManager.Update
                 (UpdateActions EndTime Status (result_cell Result v) ActionId);
       do State <- SessionManager.LoadSessionState;
       do present <- (if truthy State
                      then lift (py_contains "Actions" State) else ret false);
       run (if present
            then
              do State <- lift (mirror_patch State ActionId EndTime Status v);
              do _ <- SessionManager.SaveSessionState env State;
              ret tt
            else ret tt);
       run DatabaseManager.LogToDatabase env "INFO" "ActionTracker"
             ("Action " +:+ ActionId +:+ " completed with status " +:+ Status)
             SessionId (Some (JDict [("Result", v)]));
       ret true)
    (fun _ => ret false).

(** The call of the function: with the entries of [Params] as keyword
    arguments when [Params] is true, else with no argument. *)
Definition call_args (Params : option (list (string * JValue)))
  : list (string * JValue) :=
  if truthy (params_value Params) then default [] Params else [].

Definition call (fn : ActionFunction) (Params : option (list (string * JValue)))
  : M PyValue :=
  fun w =>
    fn (call_args Params)
       (set_Invocations (Invocations w ++ [call_args Params]) w).

Definition ErrorDetails (e : Exn) : JValue :=
  JDict [("Error", JStr (exn_msg e)); ("ErrorType", JStr (exn_type e))].

Definition ExecuteAction (ActionType : string) (fn : ActionFunction)
  (Params : option (list (string * JValue)))
  : M (bool * PyValue * option string) :=
  try_except
    (do ActionId <- RecordAction ActionType Params;
     if negb (str_truthy ActionId)
     then ret (false, Json (JDict [("Error", JStr "Failed to record action")]),
               None)
     else
       let id := default "" ActionId in
       try_except
         (do Result <- call fn Params;
          do _ <- CompleteAction id Result "COMPLETED";
          ret (true, Result, Some id))
         (fun e =>
            do _ <- CompleteAction id (ErrorDetails e) "FAILED";
            ret (false, Json (ErrorDetails e), Some id)))
    (fun e => ret (false, Json (JDict [("Error", JStr (exn_msg e))]), None)).

Definition GetActionById (ActionId : string) : M (option Action.t) :=
  try_except
    (do Actions <- DatabaseManager.ExecuteQuery_ById ActionId;
     match Actions with
     | r :: _ =>
         ret (Some (Action.Mk ActionId (ActionRow.SessionId r)
                      (ActionRow.ActionType r) (ActionRow.StartTime r)
                      (ActionRow.EndTime r) (ActionRow.Status r)
                      (decode_cell (ActionRow.Params r))
                      (decode_cell (ActionRow.Result r))))
     | [] => ret None
     end)
    (fun _ => ret None).

Definition pending_of (x : string * ActionRow.t) : PendingAction.t :=
  PendingAction.Mk x.1 (ActionRow.ActionType x.2) (ActionRow.StartTime x.2)
    (ActionRow.Status x.2) (decode_cell (ActionRow.Params x.2)).

Definition GetPendingActions (SessionId : option string)
  : M (list PendingAction.t) :=
  try_except
    (do current <- gets self_SessionId;
     if negb (str_truthy SessionId) && negb (str_truthy current) then ret []
     else
       let TargetSessionId :=
         if str_truthy SessionId then default "" SessionId
         else default "" current in
       do Actions <- DatabaseManager.ExecuteQuery_Pending TargetSessionId;
       ret (map pending_of Actions))
    (fun _ => ret []).

Definition CancelAction (ActionId : string) : M bool :=
  try_except
    (do SessionId <- gets self_SessionId;
     if negb (str_truthy SessionId) then ret false
     else
       do Actions <- DatabaseManager.ExecuteQuery_Status ActionId;
       match Actions with
       | [] => ret false
       | status :: _ =>
           if negb (String.eqb status "STARTED") then ret false
           else
             do now <- datetime_now env;
             let EndTime := isoformat now in
             let Reason := JDict [("Reason", JStr "Canceled by user")] in
             do _ <- DatabaseManager.Update
                       (UpdateActions EndTime "CANCELED" (Some Reason) ActionId);
             do State <- SessionManager.LoadSessionState;
             do present <- (if truthy State
                            then lift (py_contains "Actions" State)
                            else ret false);
             run (if present
                  then
                    do State <- lift (mirror_patch State ActionId EndTime
                                        "CANCELED" Reason);
                    do _ <- SessionManager.SaveSessionState env State;
                    ret tt
                  else ret tt);
             run DatabaseManager.LogToDatabase env "INFO" "ActionTracker"
                   ("Action " +:+ ActionId +:+ " canceled") SessionId None;
             ret true
       end)
    (fun _ => ret false).

Definition action_of (x : string * ActionRow.t) : Action.t :=
  Action.Mk x.1 (ActionRow.SessionId x.2) (ActionRow.ActionType x.2)
    (ActionRow.StartTime x.2) (ActionRow.EndTime x.2) (ActionRow.Status x.2)
    (decode_cell (ActionRow.Params x.2)) (decode_cell (ActionRow.Result x.2)).

Definition session_action_of (x : string * ActionRow.t) : SessionAction.t :=
  SessionAction.Mk x.1 (ActionRow.ActionType x.2) (ActionRow.StartTime x.2)
    (ActionRow.EndTime x.2) (ActionRow.Status x.2)
    (decode_cell (ActionRow.Params x.2)) (decode_cell (ActionRow.Result x.2)).

Definition GetSessionActions (SessionId : option string) (Limit : Z)
  : M (list SessionAction.t) :=
  try_except
    (do current <- gets self_SessionId;
     if negb (str_truthy SessionId) && negb (str_truthy current) then ret []
     else
       let TargetSessionId :=
         if str_truthy SessionId then default "" SessionId
         else default "" current in
       do Actions <- DatabaseManager.ExecuteQuery_SessionActions
                       TargetSessionId Limit;
       ret (map session_action_of Actions))
    (fun _ => ret []).

Definition GetActionsByType (ActionType : string) (Limit : Z)
  : M (list Action.t) :=
  try_except
    (do Actions <- DatabaseManager.ExecuteQuery_ActionsByType ActionType Limit;
     ret (map action_of Actions))
    (fun _ => ret []).

(** The message of the log row is [f"Action {ActionId} retried as
    {NewActionId}"], where a [None] prints as [None]. *)
Definition RetryAction (ActionId : string) : M (option string) :=
  try_except
    (do SessionId <- gets self_SessionId;
     if negb (str_truthy SessionId) then ret None
     else
       do OriginalAction <- GetActionById ActionId;
       match OriginalAction with
       | None => ret None
       | Some Original =>
           let ActionType := Action.ActionType Original in
           do Params <- lift (if truthy (Action.Params Original)
                              then retry_params (Action.Params Original)
                                  ActionId
                              else Ok [("RetryOf", JStr ActionId)]);
           do NewActionId <- RecordAction ActionType (Some Params);
           run DatabaseManager.LogToDatabase env "INFO" "ActionTracker"
                 ("Action " +:+ ActionId +:+ " retried as "
                  +:+ default "None" NewActionId)
                 SessionId None;
           ret NewActionId
       end)
    (fun _ => ret None).

(** An empty dict is returned as [None]. *)
Definition GetActionStats (SessionId : option string)
  : M (option ActionStats.t) :=
  try_except
    (do current <- gets self_SessionId;
     if negb (str_truthy SessionId) && negb (str_truthy current) then ret None
     else
       let TargetSessionId :=
         if str_truthy SessionId then default "" SessionId
         else default "" current in
       do CountResult <- DatabaseManager.ExecuteQuery_ActionCount
           TargetSessionId;
       let TotalCount := match CountResult with n :: _ => n | [] => 0 end in
       do StatusResult <- DatabaseManager.ExecuteQuery_StatusCounts
           TargetSessionId;
       do TypeResult <- DatabaseManager.ExecuteQuery_TypeCounts TargetSessionId;
       ret (Some (ActionStats.Mk TotalCount (counts_dict StatusResult)
                    (counts_dict TypeResult))))
    (fun _ => ret None).

End Methods.
End ActionTracker.

(** ** StateManager *)

(** The facade keeps a [SessionId] attribute of its own beside the one of
    its [SessionManager].  A method of the facade that assigns it takes the
    attribute and returns its result with the new attribute; when the
    method raises, the assignment did not happen. *)
Module StateManager.
Section Methods.
Variable env : Env.

Definition Facade (A : Type) : Type := option string -> M (A * option string).

(** [__init__], as far as sessions are concerned:
    [self.SessionId = self.SessionManager.SessionId]. *)
Definition init : M (option string) :=
  run SessionManager.init;
  gets self_SessionId.

Definition StartSession : Facade string :=
  fun _ =>
    do id <- SessionManager.StartSession env;
    ret (id, Some id).

Definition ResumeSession (SessionId : string) : Facade (option string) :=
  fun _ =>
    do id <- SessionManager.ResumeSession env SessionId;
    ret (id, id).

Definition EndSession (Summary : option string) : Facade bool :=
  fun self_SessionId =>
    do Result <- SessionManager.EndSession env Summary;
    ret (Result, if Result then None else self_SessionId).

Definition ExecuteActionWithTracking (ActionType : string) (fn : ActionFunction)
  (Params : option (list (string * JValue)))
  : M (bool * PyValue * option string) :=
  ActionTracker.ExecuteAction env ActionType fn Params.

End Methods.
End StateManager.

(** ** Transactions of the DatabaseManager *)

(** The connection of the calling thread: the rows that are committed, the
    rows the connection sees (the committed ones as changed by the
    statements of its open transaction), and the [in_transaction] flag of
    [LocalStorage], which reads as false while it is not set.  The managers
    above never open a transaction: every statement of theirs is committed
    when the call returns, and [Db] of the world is both sets of rows. *)
Module Connection.

Record t : Type := Mk {
  committed : Database;
  visible : Database;
  in_transaction : bool
}.

Definition T (A : Type) : Type := t -> Outcome A * t.

(** [Conn.commit()] and [Conn.rollback()] *)
Definition commit (c : t) : t := Mk (visible c) (visible c) (in_transaction c).
Definition rollback (c : t) : t :=
  Mk (committed c) (committed c) (in_transaction c).

Definition BeginTransaction : T unit :=
  fun c => (Ok tt, Mk (committed c) (visible c) true).

Definition CommitTransaction : T unit :=
  fun c =>
    if in_transaction c
    then (Ok tt, Mk (visible c) (visible c) false)
    else (Ok tt, c).

Definition RollbackTransaction : T unit :=
  fun c =>
    if in_transaction c
    then (Ok tt, Mk (committed c) (committed c) false)
    else (Ok tt, c).

(** What the statement methods share: the statement runs on the rows the
    connection sees; a statement that fails changes none of them; the
    method commits unless a transaction is open, and on [sqlite3.Error] it
    rolls back unless a transaction is open and raises the error again. *)
Definition statement {A : Type} (stmt : Database -> Outcome (A * Database))
  : T A :=
  fun c =>
    match stmt (visible c) with
    | Ok (a, d) =>
        (Ok a,
         if in_transaction c then Mk (committed c) d true
         else commit (Mk (committed c) d false))
    | Raise e => (Raise e, if in_transaction c then c else rollback c)
    end.

Definition InsertWithId (r : InsertRow) : T unit :=
  statement (fun d =>
               match DatabaseManager.insert_row r d with
               | Ok d' => Ok (tt, d')
               | Raise e => Raise e
               end).

Definition Update (u : UpdateStmt) : T nat :=
  statement (fun d => Ok (DatabaseManager.rows_matched u d,
                          DatabaseManager.update_rows u d)).

Definition ExecuteNonQuery (q : NonQuery) : T nat :=
  match q with
  | SetSessionStatus status id =>
      statement (fun d =>
                   Ok (match Sessions d !! id with Some _ => 1 | None => 0 end,
                       set_Sessions (alter (SessionRow.set_Status status) id)
                           d))
  end.

(** A call of one of the statement methods, and the connection it leaves
    whether it returns or raises. *)
Inductive Call : Type :=
| CallInsertWithId (r : InsertRow)
| CallUpdate (u : UpdateStmt)
| CallExecuteNonQuery (q : NonQuery).

Definition after_call (c : t) (s : Call) : t :=
  match s with
  | CallInsertWithId r => (InsertWithId r c).2
  | CallUpdate u => (Update u c).2
  | CallExecuteNonQuery q => (ExecuteNonQuery q c).2
  end.

(** The connection after a sequence of calls, each of which may have
    raised an error that the caller caught. *)
Definition after_calls (c : t) (l : list Call) : t := foldl after_call c l.

End Connection.

(** ** Messages of a session *)

(** A row of [Conversations]; the key of the table is [MessageId]. *)
Module MessageRow.
Record t : Type := Mk {
  SessionId : string;
  Timestamp : string;
  Source : string;
  Content : string
}.
End MessageRow.

(** A row of the result of [GetSessionMessages]. *)
Module Message.
Record t : Type := Mk {
  MessageId : string;
  Timestamp : string;
  Source : string;
  Content : string
}.
End Message.

(** The dict [GetSessionInfo] returns; the key [ResumedFrom] is there only
    for a resumed session. *)
Module SessionInfo.
Record t : Type := Mk {
  SessionId : string;
  StartTime : string;
  EndTime : option string;
  Status : string;
  Summary : option string;
  MessageCount : nat;
  ResumedFrom : option string
}.
End SessionInfo.

(** The methods of [SessionManager] that read or write [Conversations].
    They run in the world extended with that table, which no other method
    touches. *)
Module Messages.

Record Store : Type := MkStore {
  world : World;
  Conversations : gmap string MessageRow.t
}.

Definition MS (A : Type) : Type := Store -> Outcome A * Store.

Definition ret_ms {A : Type} (a : A) : MS A := fun s => (Ok a, s).

Definition bind_ms {A B : Type} (m : MS A) (k : A -> MS B) : MS B :=
  fun s =>
    match m s with
    | (Ok a, s') => k a s'
    | (Raise e, s') => (Raise e, s')
    end.

Definition try_except_ms {A : Type} (body : MS A) (handler : Exn -> MS A)
  : MS A :=
  fun s =>
    match body s with
    | (Ok a, s') => (Ok a, s')
    | (Raise e, s') => handler e s'
    end.

(** A method of the managers above, run on the world of the store. *)
Definition in_world {A : Type} (m : M A) : MS A :=
  fun s =>
    match m (world s) with
    | (o, w) => (o, MkStore w (Conversations s))
    end.

Declare Scope ms_scope.
Delimit Scope ms_scope with ms.
Notation "'do' x <- m ; k" := (bind_ms m (fun x => k))
  (at level 10, x name, m at level 100, k at level 200) : ms_scope.
Notation "'run' m ; k" := (bind_ms m (fun _ => k))
  (at level 10, m at level 100, k at level 200) : ms_scope.

(** [InsertWithId("Conversations", ColumnDict)] *)
Definition InsertWithId_Conversations
  (MessageId SessionId Timestamp Source Content : string) : MS unit :=
  fun s =>
    if bool_decide (is_Some (Conversations s !! MessageId))
    then (Raise (IntegrityError
        "UNIQUE constraint failed: Conversations.MessageId"),
          s)
    else if bool_decide (is_Some (Sessions (Db (world s)) !! SessionId))
    then (Ok tt,
          MkStore (world s)
            (<[MessageId := MessageRow.Mk SessionId Timestamp Source Content]>
               (Conversations s)))
    else (Raise (IntegrityError "FOREIGN KEY constraint failed"), s).

(** [ExecuteQuery] of [SELECT MessageId, Timestamp, Source, Content
    FROM Conversations WHERE SessionId = ? ORDER BY Timestamp ASC LIMIT ?] *)
Definition ExecuteQuery_Messages (SessionId : string) (Limit : Z)
  : MS (list (string * MessageRow.t)) :=
  fun s =>
    match bind_int Limit with
    | Ok n =>
        (Ok (sql_limit n
               (merge_sort (oldest_first MessageRow.Timestamp)
                  (filter (fun x => MessageRow.SessionId x.2 = SessionId)
                     (map_to_list (Conversations s))))), s)
    | Raise e => (Raise e, s)
    end.

(** [ExecuteQuery] of [SELECT COUNT( * ) as MessageCount FROM Conversations
    WHERE SessionId = ?]: one row. *)
Definition ExecuteQuery_MessageCount (SessionId : string) : MS (list nat) :=
  fun s =>
    (Ok [length (filter (fun x => MessageRow.SessionId x.2 = SessionId)
                   (map_to_list (Conversations s)))], s).

(** [ExecuteQuery] of [SELECT SessionId, StartTime, EndTime, Status, Summary
    FROM Sessions WHERE SessionId = ?] *)
Definition ExecuteQuery_Session (SessionId : string) : M (list SessionRow.t) :=
  gets (fun w =>
          match Sessions (Db w) !! SessionId with
          | Some r => [r]
          | None => []
          end).

(** [ExecuteQuery] of [SELECT ParentSessionId FROM SessionRelationships
    WHERE ChildSessionId = ? AND RelationType = 'RESUME'], in the order of
    the row ids. *)
Definition ExecuteQuery_ResumedFrom (SessionId : string) : M (list string) :=
  gets (fun w =>
          RelationRow.ParentSessionId
            <$> filter (fun r => RelationRow.ChildSessionId r = SessionId
                                 /\ RelationRow.RelationType r = "RESUME")
                  (SessionRelationships (Db w))).

(** [if "Messages" not in State: State["Messages"] = []] and
    [State["Messages"].append(Message)]. *)
Definition messages_append (State Message : JValue) : Outcome JValue :=
  and_then (py_contains "Messages" State) (fun present =>
  and_then (if present then Ok State else py_setitem State "Messages" (JList
      []))
    (fun State =>
  and_then (py_getitem State "Messages") (fun messages =>
  and_then (py_append messages Message) (fun messages =>
  py_setitem State "Messages" messages)))).

Section Methods.
Variable env : Env.
Local Open Scope ms_scope.

Definition RecordMessage (Source Content : string) : MS (option string) :=
  try_except_ms
    (do sid <- in_world (gets self_SessionId);
     if negb (str_truthy sid) then ret_ms None
     else
       do MessageId <- in_world (uuid4 env);
       do now <- in_world (datetime_now env);
       let Timestamp := isoformat now in
       run InsertWithId_Conversations MessageId (default "" sid) Timestamp
             Source Content;
       run in_world
             (do State <- SessionManager.LoadSessionState;
              if truthy State
              then
                do State <- lift (messages_append State
                                    (JDict [("MessageId", JStr MessageId);
                                            ("Timestamp", JStr Timestamp);
                                            ("Source", JStr Source);
                                            ("Content", JStr Content)]));
                do _ <- SessionManager.SaveSessionState env State;
                ret tt
              else ret tt)%py;
       ret_ms (Some MessageId))
    (fun _ => ret_ms None).

Definition message_of (x : string * MessageRow.t) : Message.t :=
  Message.Mk x.1 (MessageRow.Timestamp x.2) (MessageRow.Source x.2)
    (MessageRow.Content x.2).

Definition GetSessionMessages (SessionId : option string) (Limit : Z)
  : MS (list Message.t) :=
  try_except_ms
    (do current <- in_world (gets self_SessionId);
     if negb (str_truthy SessionId) && negb (str_truthy current) then ret_ms []
     else
       let TargetSessionId :=
         if str_truthy SessionId then default "" SessionId
         else default "" current in
       do Messages <- ExecuteQuery_Messages TargetSessionId Limit;
       ret_ms (map message_of Messages))
    (fun _ => ret_ms []).

Definition GetSessionInfo (SessionId : option string)
  : MS (option SessionInfo.t) :=
  try_except_ms
    (do current <- in_world (gets self_SessionId);
     if negb (str_truthy SessionId) && negb (str_truthy current) then ret_ms
         None
     else
       let TargetSessionId :=
         if str_truthy SessionId then default "" SessionId
         else default "" current in
       do Sessions <- in_world (ExecuteQuery_Session TargetSessionId);
       match Sessions with
       | Session :: _ =>
           do CountResult <- ExecuteQuery_MessageCount TargetSessionId;
           let MessageCount :=
             match CountResult with n :: _ => n | [] => 0 end in
           do RelationResult <- in_world (ExecuteQuery_ResumedFrom
               TargetSessionId);
           ret_ms (Some (SessionInfo.Mk TargetSessionId
                        (SessionRow.StartTime Session)
                        (SessionRow.EndTime Session)
                        (SessionRow.Status Session)
                        (SessionRow.Summary Session)
                        MessageCount
                        (head RelationResult)))
       | [] => ret_ms None
       end)
    (fun _ => ret_ms None).

End Methods.
End Messages.

(** ** Notions used in the statements and proofs *)

(** Ascending start time, on the rows [GetPendingActions] returns. *)
Definition by_StartTime (p q : PendingAction.t) : Prop :=
  String.leb (PendingAction.StartTime p) (PendingAction.StartTime q) = true.

(** A method that never raises. *)
Definition total {A : Type} (m : M A) : Prop :=
  forall w, exists a w', m w = (Ok a, w').

(** [stable R m]: whatever [m] returns or raises, the world it leaves is
    related by [R] to the world it started from. *)
Definition stable {A : Type} (R : relation World) (m : M A) : Prop :=
  forall w, R w (snd (m w)).

(** What the bookkeeping of a method (state file, snapshots, log) leaves
    alone: the manager's session, the session rows, the action rows and the
    invocations. *)
Definition keeps_session (w w' : World) : Prop :=
  self_SessionId w' = self_SessionId w
  /\ Sessions (Db w') = Sessions (Db w)
  /\ Actions (Db w') = Actions (Db w)
  /\ CrashSessionDir (Fs w') = CrashSessionDir (Fs w)
  /\ Invocations w' = Invocations w.

(** What even [EndSession] leaves alone: the set of session ids of the
    store, the action rows, the crashed partition and the invocations. *)
Definition keeps_store (w w' : World) : Prop :=
  dom (Sessions (Db w')) = dom (Sessions (Db w))
  /\ Actions (Db w') = Actions (Db w)
  /\ CrashSessionDir (Fs w') = CrashSessionDir (Fs w)
  /\ Invocations w' = Invocations w.

(** The state documents [RecordAction] can extend: [None] or another false
    value, or a dict whose ["Actions"] entry, if any, is a list. *)
Definition mirror_well_formed (State : JValue) : bool :=
  match State with
  | JDict d =>
      match dict_get "Actions" d with
      | Some (JList _) => true
      | Some _ => false
      | None => true
      end
  | _ => negb (truthy State)
  end.

(** The world in which [StartSession] and [ResumeSession] read the clock for
    the new id: the one left by [EndSession] when a session was current. *)
Definition after_ending (env : Env) (Summary : string) (w : World) : World :=
  if str_truthy (self_SessionId w)
  then snd (SessionManager.EndSession env (Some Summary) w)
  else w.

(** The id [StartSession] allocates in [w]. *)
Definition started_id (env : Env) (w : World) : string :=
  strftime (clock_at env (Ticks (after_ending env "Ended to start new session" w))).

(** The id [ResumeSession] allocates in [w] for the crashed session. *)
Definition resumed_id (env : Env) (SessionId : string) (w : World) : string :=
  SessionId +:+ "_resumed_"
  +:+ strftime (clock_at env
                  (Ticks (after_ending env "Ended to resume crashed session" w))).

(** The two readings of the clock that follow in [ResumeSession]: the start
    time of the new session, and the time [SaveSessionState] stamps on its
    first state. *)
Definition resumed_StartTime (env : Env) (w : World) : string :=
  isoformat (clock_at env
               (S (Ticks (after_ending env "Ended to resume crashed session" w)))).

Definition resumed_LastModified (env : Env) (w : World) : string :=
  isoformat (clock_at env
               (S (S (Ticks (after_ending env "Ended to resume crashed session" w))))).

(** [wp m Q w]: running [m] in [w] gives an outcome and a world that
    satisfy [Q]. *)
Definition wp {A : Type} (m : M A) (Q : Outcome A -> World -> Prop) (w : World)
  : Prop :=
  Q (m w).1 (m w).2.

(** What recording an action leaves alone: the manager's session, the
    session rows, the crashed partition and the invocations; and every
    action row that was there is still there, unchanged. *)
Definition extends_actions (w w' : World) : Prop :=
  self_SessionId w' = self_SessionId w
  /\ Sessions (Db w') = Sessions (Db w)
  /\ Actions (Db w) ⊆ Actions (Db w')
  /\ CrashSessionDir (Fs w') = CrashSessionDir (Fs w)
  /\ Invocations w' = Invocations w.

(** What starting, resuming and ending a session leave alone: the action
    rows, the crashed partition and the invocations. *)
Definition keeps_actions (w w' : World) : Prop :=
  Actions (Db w') = Actions (Db w)
  /\ CrashSessionDir (Fs w') = CrashSessionDir (Fs w)
  /\ Invocations w' = Invocations w.

(** The state documents [CompleteAction] and [CancelAction] can patch:
    [None] or another false value, or a dict whose ["Actions"] entry, if
    any, is a list of dicts that each have an ["ActionId"], as [RecordAction]
    writes them. *)
Definition mirror_entry_well_formed (Action : JValue) : bool :=
  match Action with
  | JDict e => bool_decide (is_Some (dict_get "ActionId" e))
  | _ => false
  end.

Definition mirror_entries_well_formed (State : JValue) : bool :=
  match State with
  | JDict d =>
      match dict_get "Actions" d with
      | Some (JList l) => forallb mirror_entry_well_formed l
      | Some _ => false
      | None => true
      end
  | _ => negb (truthy State)
  end.

(** The sum of the counts of a dict of counts. *)
Definition sum_counts (m : gmap string nat) : nat :=
  map_fold (fun _ n acc => n + acc) 0 m.

(** The two readings of the clock that follow the one for the id in
    [StartSession]: the start time of the new session, and the time
    [SaveSessionState] stamps on its first state. *)
Definition started_StartTime (env : Env) (w : World) : string :=
  isoformat (clock_at env
               (S (Ticks (after_ending env "Ended to start new session" w)))).

Definition started_LastModified (env : Env) (w : World) : string :=
  isoformat (clock_at env
               (S (S (Ticks (after_ending env "Ended to start new session"
                   w))))).

(** What leaves the manager's current session as it is. *)
Definition keeps_current (w w' : World) : Prop :=
  self_SessionId w' = self_SessionId w.

(** A connection with no transaction open and nothing uncommitted. *)
Definition autocommit (c : Connection.t) : Prop :=
  Connection.in_transaction c = false
  /\ Connection.visible c = Connection.committed c.

(** The state documents [RecordMessage] can extend: [None] or another false
    value, or a dict whose ["Messages"] entry, if any, is a list. *)
Definition messages_well_formed (State : JValue) : bool :=
  match State with
  | JDict d =>
      match dict_get "Messages" d with
      | Some (JList _) => true
      | Some _ => false
      | None => true
      end
  | _ => negb (truthy State)
  end.

(** What leaves the relationships between sessions as they are. *)
Definition keeps_relationships (w w' : World) : Prop :=
  SessionRelationships (Db w') = SessionRelationships (Db w).

(** ** Example worlds *)

(** An environment whose clock stands still at 2025-03-18 19:00:00 (every
    reading renders to the same second) and whose n-th uuid is [uuid-n]. *)
Definition env_example : Env :=
  MkEnv (fun n => MkInstant "20250318190000" ("2025-03-18T19:00:00." +:+ pretty n))
        (fun n => "uuid-" +:+ pretty n).

(** The same environment one second later. *)
Definition env_later : Env :=
  MkEnv (fun n => MkInstant "20250318190001" ("2025-03-18T19:00:01." +:+ pretty n))
        (fun n => "uuid-" +:+ pretty n).

(** A fresh installation: no row, no session directory, no lock file. *)
Definition w_empty : World :=
  MkWorld None (MkDatabase ∅ ∅ ∅ [] []) (MkFileSystem ∅ ∅ ∅ None) 0 0 [].

(** The world after the first [StartSession] of a fresh installation. *)
Definition w_started : World :=
  snd (SessionManager.StartSession env_example w_empty).

(** The same world seen by a new process after the first one was killed:
    the lock file and the active directory are still there. *)
Definition w_killed : World := set_SessionId None w_started.

(** The world after the new process has constructed its manager. *)
Definition w_recovered : World := snd (SessionManager.init w_killed).

(** The world a process leaves when it is killed inside [EndSession], after
    the row was set to COMPLETED and before the directory was moved. *)
Definition w_killed_ending : World :=
  set_Db (DatabaseManager.update_rows
            (UpdateSessions "2025-03-18T19:00:00.9" "COMPLETED" None
               "20250318190000")) w_killed.

(** The directory and the state document of the first session. *)
Definition d_started : Dir :=
  default empty_dir (ActiveSessionDir (Fs w_started) !! "20250318190000").

Definition state_started : JValue :=
  match fst (SessionManager.LoadSessionState w_started) with
  | Ok v => v
  | Raise _ => JNull
  end.

(** An action is recorded in the first session, then completed. *)
Definition w_recorded : World :=
  snd (ActionTracker.RecordAction env_example "BUILD"
         (Some [("target", JStr "x")]) w_started).

Definition w_completed : World :=
  snd (ActionTracker.CompleteAction env_example "uuid-1" (JNum 7) "COMPLETED"
         w_recorded).

Definition r_completed : ActionRow.t :=
  ActionRow.Mk "20250318190000" "BUILD" "2025-03-18T19:00:00.4"
    (Some "2025-03-18T19:00:00.7") "COMPLETED"
    (Some (JDict [("target", JStr "x")])) (Some (JNum 7)).

(** Two functions to supervise: one returns 7, one raises. *)
Definition fn_seven : ActionFunction := computes (fun _ => Ok (JNum 7)).
Definition fn_failing : ActionFunction :=
  computes (fun _ => Raise (MkExn "ValueError" "Test error")).

(** Two more: one returns the tuple [(1, 2)], which [json.dumps] writes as
    the list [[1, 2]]; one returns a set, which [json.dumps] rejects. *)
Definition fn_tuple : ActionFunction :=
  computes (fun _ => Ok (NotJson "tuple" (Some (JList [JNum 1; JNum 2])))).
Definition fn_set : ActionFunction :=
  computes (fun _ => Ok (NotJson "set" None)).

(** The recovered world with the state file of the crashed session
    overwritten by text that is not JSON. *)
Definition d_corrupted : Dir :=
  MkDir (Some (Corrupt "{SessionId: 20250318190000, Corrupted")) ∅.

Definition w_corrupted : World :=
  set_Fs (set_CrashSessionDir (insert "20250318190000" d_corrupted)) w_recovered.

(** The state documents of the first session as a dict, and after the
    action was recorded and after it was completed. *)
Definition dict_started : list (string * JValue) :=
  match state_started with
  | JDict d => d
  | _ => []
  end.

Definition state_recorded : JValue :=
  match fst (SessionManager.LoadSessionState w_recorded) with
  | Ok v => v
  | Raise _ => JNull
  end.

Definition state_completed : JValue :=
  match fst (SessionManager.LoadSessionState w_completed) with
  | Ok v => v
  | Raise _ => JNull
  end.

(** The first session current, but without its row in the store or without
    its directory. *)
Definition w_no_row : World :=
  set_Db (set_Sessions (delete "20250318190000")) w_started.

Definition w_no_directory : World :=
  set_Fs (set_ActiveSessionDir (delete "20250318190000")) w_started.

(** The row of the first session while it is active. *)
Definition r_started : SessionRow.t :=
  SessionRow.Mk "2025-03-18T19:00:00.1" None "ACTIVE" None.

(** The world after the crashed session was resumed. *)
Definition w_resumed : World :=
  snd (SessionManager.ResumeSession env_example "20250318190000" w_recovered).

(** A connection with nothing open on the rows of the first session, and
    three calls, the second of which the store rejects. *)
Definition c_started : Connection.t :=
  Connection.Mk (Db w_started) (Db w_started) false.

Definition calls_example : list Connection.Call :=
  [Connection.CallInsertWithId
     (IntoActions "a-1" "20250318190000" "BUILD" "2025-03-18T19:00:01" "STARTED"
        None);
   Connection.CallInsertWithId
     (IntoActions "a-2" "no-such-session" "BUILD" "2025-03-18T19:00:02"
        "STARTED" None);
   Connection.CallUpdate
     (UpdateActions "2025-03-18T19:00:03" "COMPLETED" (Some (JNum 7)) "a-1")].

(** The first session with the empty table of messages. *)
Definition s_started : Messages.Store := Messages.MkStore w_started ∅.

(** The row of the action while it is pending. *)
Definition r_recorded : ActionRow.t :=
  ActionRow.Mk "20250318190000" "BUILD" "2025-03-18T19:00:00.4" None "STARTED"
    (Some (JDict [("target", JStr "x")])) None.

(** * Properties *)

(** ** Reasoning about computations *)

Lemma bind_ok {A B : Type} (m : M A) (k : A -> M B) (w w' : World) (a : A) :
  m w = (Ok a, w') -> bind m k w = k a w'.
Proof. intros H. unfold bind. rewrite H. reflexivity. Qed.

Lemma bind_raise {A B : Type} (m : M A) (k : A -> M B) (w w' : World) (e : Exn) :
  m w = (Raise e, w') -> bind m k w = (Raise e, w').
Proof. intros H. unfold bind. rewrite H. reflexivity. Qed.

Lemma try_except_ok {A : Type} (m : M A) (h : Exn -> M A) (w w' : World) (a : A) :
  m w = (Ok a, w') -> try_except m h w = (Ok a, w').
Proof. intros H. unfold try_except. rewrite H. reflexivity. Qed.

Lemma try_except_raise {A : Type} (m : M A) (h : Exn -> M A) (w w' : World)
  (e : Exn) :
  m w = (Raise e, w') -> try_except m h w = h e w'.
Proof. intros H. unfold try_except. rewrite H. reflexivity. Qed.

Lemma total_try_except {A : Type} (m : M A) (a0 : A) :
  total (try_except m (fun _ => ret a0)).
Proof.
  intros w. unfold try_except, ret.
  destruct (m w) as [[a|e] w']; eauto.
Qed.

Lemma UpdateSessionStatus_total (SessionId Status : string) :
  total (SessionManager.UpdateSessionStatus SessionId Status).
Proof. apply total_try_except. Qed.

Lemma SaveSessionState_total (env : Env) (State : JValue) :
  total (SessionManager.SaveSessionState env State).
Proof. apply total_try_except. Qed.

Lemma LoadSessionState_total : total SessionManager.LoadSessionState.
Proof. apply total_try_except. Qed.

Lemma LogToDatabase_total (env : Env) (lvl comp msg : string)
  (sid : option string) (data : option JValue) :
  total (DatabaseManager.LogToDatabase env lvl comp msg sid data).
Proof. apply total_try_except. Qed.

Lemma RecordAction_total (env : Env) (ty : string)
  (Params : option (list (string * JValue))) :
  total (ActionTracker.RecordAction env ty Params).
Proof. apply total_try_except. Qed.

Lemma CompleteAction_total (env : Env) (id : string) (Result : JValue)
  (Status : string) :
  total (ActionTracker.CompleteAction env id Result Status).
Proof. apply total_try_except. Qed.

Lemma EndSession_total (env : Env) (Summary : option string) :
  total (SessionManager.EndSession env Summary).
Proof.
  intros w. unfold SessionManager.EndSession, bind at 1, gets.
  destruct (negb (str_truthy (self_SessionId w))).
  - unfold ret. eauto.
  - apply total_try_except.
Qed.

Lemma str_truthy_nonempty (s : string) : s <> "" -> str_truthy (Some s) = true.
Proof. destruct s; [congruence | reflexivity]. Qed.

Lemma bind_inv_ok {A B : Type} (m : M A) (k : A -> M B) (w w' : World) (b : B) :
  bind m k w = (Ok b, w') ->
  exists a w1, m w = (Ok a, w1) /\ k a w1 = (Ok b, w').
Proof.
  unfold bind. destruct (m w) as [[a|e] w1]; [eauto | discriminate].
Qed.

Ltac bind_inv H :=
  let a := fresh "a" in
  let w1 := fresh "w" in
  let H1 := fresh "Hstep" in
  apply bind_inv_ok in H; destruct H as (a & w1 & H1 & H).

Lemma total_bind {A B : Type} (m : M A) (k : A -> M B) :
  total m -> (forall a, total (k a)) -> total (bind m k).
Proof.
  intros Hm Hk w. destruct (Hm w) as (a & w1 & E).
  rewrite (bind_ok _ _ _ _ _ E). apply Hk.
Qed.

Lemma total_ret {A : Type} (a : A) : total (ret a).
Proof. intros w. unfold ret. eauto. Qed.

Ltac run_method m Htot Hstable :=
  let b := fresh "b" in
  let w' := fresh "w" in
  let E := fresh "E" in
  let K := fresh "K" in
  match goal with
  | |- context [bind m _ ?w] =>
      destruct (Htot w) as (b & w' & E);
      pose proof (Hstable w) as K; rewrite E in K; simpl in K;
      rewrite (bind_ok m _ w w' b E)
  end.

Lemma total_lift_ok {A : Type} (a : A) : total (lift (Ok a)).
Proof. intros w. unfold lift. eauto. Qed.

Tactic Notation "eval_step" uconstr(m) :=
  rewrite (bind_ok m _ _ _ _ eq_refl).

(** ** Frames *)

Section Stable.
Context (R : relation World) `{!PreOrder R}.

Lemma stable_ret {A : Type} (a : A) : stable R (ret a).
Proof. intros w. reflexivity. Qed.

Lemma stable_raise {A : Type} (e : Exn) : stable R (@raise A e).
Proof. intros w. reflexivity. Qed.

Lemma stable_lift {A : Type} (o : Outcome A) : stable R (lift o).
Proof. intros w. reflexivity. Qed.

Lemma stable_gets {A : Type} (f : World -> A) : stable R (gets f).
Proof. intros w. reflexivity. Qed.

Lemma stable_bind {A B : Type} (m : M A) (k : A -> M B) :
  stable R m -> (forall a, stable R (k a)) -> stable R (bind m k).
Proof.
  intros Hm Hk w. unfold bind. specialize (Hm w).
  destruct (m w) as [[a|e] w1]; simpl in *.
  - etransitivity; [exact Hm | apply Hk].
  - exact Hm.
Qed.

Lemma stable_try_except {A : Type} (m : M A) (h : Exn -> M A) :
  stable R m -> (forall e, stable R (h e)) -> stable R (try_except m h).
Proof.
  intros Hm Hh w. unfold try_except. specialize (Hm w).
  destruct (m w) as [[a|e] w1]; simpl in *.
  - exact Hm.
  - etransitivity; [exact Hm | apply Hh].
Qed.

End Stable.

#[global] Instance keeps_session_preorder : PreOrder keeps_session.
Proof.
  split.
  - intros w. repeat split.
  - intros w1 w2 w3 (H1 & H2 & H3 & H4 & H5) (G1 & G2 & G3 & G4 & G5).
    repeat split; congruence.
Qed.

#[global] Instance keeps_store_preorder : PreOrder keeps_store.
Proof.
  split.
  - intros w. repeat split.
  - intros w1 w2 w3 (H1 & H2 & H3 & H4) (G1 & G2 & G3 & G4).
    repeat split; congruence.
Qed.

Lemma keeps_session_store (w w' : World) : keeps_session w w' -> keeps_store w w'.
Proof. intros (H1 & H2 & H3 & H4 & H5). repeat split; congruence. Qed.

Create HintDb stable.

Ltac stable_steps :=
  repeat first
    [ solve [apply stable_ret; apply _]
    | solve [apply stable_raise; apply _]
    | solve [apply stable_lift; apply _]
    | solve [apply stable_gets; apply _]
    | apply stable_bind; [apply _ | | intros ?]
    | apply stable_try_except; [apply _ | | intros ?]
    | match goal with
      | |- stable _ (if ?b then _ else _) => destruct b
      | |- stable _ (match ?x with _ => _ end) => destruct x
      end
    | solve [auto with stable] ].

Ltac stable_prim :=
  intros w; cbv beta delta [DatabaseManager.InsertWithId DatabaseManager.insert_row
    DatabaseManager.Update datetime_now uuid4 write_state_file makedirs modify
    shutil_move];
  simpl; repeat case_match; simplify_eq; simpl; repeat split; auto.

Lemma datetime_now_keeps_session (env : Env) :
  stable keeps_session (datetime_now env).
Proof. stable_prim. Qed.

Lemma uuid4_keeps_session (env : Env) : stable keeps_session (uuid4 env).
Proof. stable_prim. Qed.

Lemma InsertWithId_snapshot_keeps_session (nid sid ts : string) (data : JValue) :
  stable keeps_session
    (DatabaseManager.InsertWithId (IntoStateSnapshots nid sid ts data)).
Proof. stable_prim. Qed.

Lemma InsertWithId_log_keeps_session (ts lvl comp msg : string)
  (sid : option string) (data : option JValue) :
  stable keeps_session
    (DatabaseManager.InsertWithId (IntoSystemLogs ts lvl comp msg sid data)).
Proof. stable_prim. Qed.

Lemma write_state_file_keeps_session (name : string) (v : JValue) :
  stable keeps_session (write_state_file Active name v).
Proof. stable_prim. Qed.

Lemma makedirs_keeps_session (name : string) :
  stable keeps_session (makedirs Active name).
Proof. stable_prim. Qed.

Lemma unlock_keeps_session (o : option string) :
  stable keeps_session (modify (set_Fs (set_LockFile o))).
Proof. stable_prim. Qed.

#[global] Hint Resolve datetime_now_keeps_session uuid4_keeps_session
  InsertWithId_snapshot_keeps_session InsertWithId_log_keeps_session
  write_state_file_keeps_session makedirs_keeps_session unlock_keeps_session
  : stable.

Lemma LogToDatabase_keeps_session (env : Env) (lvl comp msg : string)
  (sid : option string) (data : option JValue) :
  stable keeps_session (DatabaseManager.LogToDatabase env lvl comp msg sid data).
Proof. unfold DatabaseManager.LogToDatabase. stable_steps. Qed.

Lemma SaveSessionState_keeps_session (env : Env) (State : JValue) :
  stable keeps_session (SessionManager.SaveSessionState env State).
Proof. unfold SessionManager.SaveSessionState. stable_steps. Qed.

Lemma LoadSessionState_pure (w : World) :
  snd (SessionManager.LoadSessionState w) = w.
Proof.
  unfold SessionManager.LoadSessionState, try_except, bind, gets, lift, ret.
  repeat case_match; simplify_eq; reflexivity.
Qed.

Lemma LoadSessionState_value (w : World) :
  exists v, SessionManager.LoadSessionState w = (Ok v, w).
Proof.
  destruct (LoadSessionState_total w) as (v & w' & H).
  exists v. rewrite H. f_equal.
  pose proof (LoadSessionState_pure w) as Hp. rewrite H in Hp. exact Hp.
Qed.

Lemma LoadSessionState_keeps_session :
  stable keeps_session SessionManager.LoadSessionState.
Proof. intros w. rewrite LoadSessionState_pure. reflexivity. Qed.

#[global] Hint Resolve LogToDatabase_keeps_session SaveSessionState_keeps_session
  LoadSessionState_keeps_session : stable.

Lemma stable_weaken {A : Type} (m : M A) :
  stable keeps_session m -> stable keeps_store m.
Proof. intros H w. apply keeps_session_store, H. Qed.

Lemma Update_sessions_keeps_store (et status : string) (summary : option string)
  (id : string) :
  stable keeps_store
    (DatabaseManager.Update (UpdateSessions et status summary id)).
Proof.
  intros w. unfold DatabaseManager.Update. simpl.
  repeat split. apply dom_alter_L.
Qed.

Lemma shutil_move_completed_keeps_store (name : string) :
  stable keeps_store (shutil_move Active Completed name).
Proof. stable_prim. Qed.

Lemma set_SessionId_keeps_store (o : option string) :
  stable keeps_store (modify (set_SessionId o)).
Proof. stable_prim. Qed.

#[global] Hint Resolve Update_sessions_keeps_store
  shutil_move_completed_keeps_store set_SessionId_keeps_store : stable.
#[global] Hint Extern 5 (stable keeps_store _) =>
  apply stable_weaken; solve [auto with stable] : stable.

Lemma EndSession_keeps_store (env : Env) (Summary : option string) :
  stable keeps_store (SessionManager.EndSession env Summary).
Proof. unfold SessionManager.EndSession. stable_steps. Qed.

#[global] Hint Resolve EndSession_keeps_store : stable.

(** ** Steps shared by [StartSession] and [ResumeSession] *)

Lemma CreateLockFile_keeps_session : stable keeps_session SessionManager.CreateLockFile.
Proof. unfold SessionManager.CreateLockFile. stable_steps. Qed.

#[global] Hint Resolve CreateLockFile_keeps_session : stable.

Lemma InsertWithId_session_inv (id st status : string) (w w' : World) :
  DatabaseManager.InsertWithId (IntoSessions id st status) w = (Ok tt, w') ->
  Sessions (Db w) !! id = None
  /\ Sessions (Db w') = <[id := SessionRow.Mk st None status None]> (Sessions (Db w))
  /\ Actions (Db w') = Actions (Db w)
  /\ Fs w' = Fs w
  /\ self_SessionId w' = self_SessionId w.
Proof.
  unfold DatabaseManager.InsertWithId, DatabaseManager.insert_row.
  case_bool_decide as Hd; [intros [=] |].
  intros [= <-]. simpl. repeat split.
  destruct (Sessions (Db w) !! id) eqn:E; [| reflexivity].
  exfalso. apply Hd. eauto.
Qed.

Lemma InsertWithId_session_taken (id st status : string) (w : World) :
  is_Some (Sessions (Db w) !! id) ->
  DatabaseManager.InsertWithId (IntoSessions id st status) w
  = (Raise (IntegrityError "UNIQUE constraint failed: Sessions.SessionId"), w).
Proof.
  intros H. unfold DatabaseManager.InsertWithId, DatabaseManager.insert_row.
  rewrite bool_decide_eq_true_2 by assumption. reflexivity.
Qed.

Lemma keeps_store_lookup (w w' : World) (id : string) :
  keeps_store w w' ->
  (Sessions (Db w') !! id = None <-> Sessions (Db w) !! id = None).
Proof.
  intros (Hdom & _). rewrite <- !not_elem_of_dom, Hdom. reflexivity.
Qed.

Lemma keeps_store_is_Some (w w' : World) (id : string) :
  keeps_store w w' ->
  is_Some (Sessions (Db w) !! id) -> is_Some (Sessions (Db w') !! id).
Proof.
  intros (Hdom & _) H. apply elem_of_dom. rewrite Hdom. apply elem_of_dom, H.
Qed.

Lemma ending_step (env : Env) (Summary : string) (w : World) :
  (if str_truthy (self_SessionId w)
   then bind (SessionManager.EndSession env (Some Summary)) (fun _ => ret tt)
   else ret tt) w
  = (Ok tt, after_ending env Summary w)
  /\ keeps_store w (after_ending env Summary w).
Proof.
  unfold after_ending.
  destruct (str_truthy (self_SessionId w)).
  - destruct (EndSession_total env (Some Summary) w) as (b & w1 & E).
    pose proof (EndSession_keeps_store env (Some Summary) w) as K.
    rewrite E in K. rewrite (bind_ok _ _ _ _ _ E), E.
    split; [reflexivity | exact K].
  - split; reflexivity.
Qed.

(** ** Crash detection at start-up *)

(** C1. Let the lock file exist and name session [S] (its stripped content is
    [S]), and let the directory of [S] be under the active partition.  Then,
    unless the crashed partition already holds a directory [S] with an
    entry [S] inside (the one case in which [shutil.move] raises), the
    construction of the manager returns normally and afterwards: the store
    row of [S], if there is one, is the same row with status CRASHED; there
    is a directory [S] under the crashed partition, which is the directory
    that was under active, or, had the crashed partition one of that name
    already, that one with the moved directory inside; there is none under
    the active partition; and the lock file is gone. *)
Theorem init_crash_detection (w : World) (content S : string) (d : Dir) :
  LockFile (Fs w) = Some content ->
  strip content = S ->
  ActiveSessionDir (Fs w) !! S = Some d ->
  (forall old, CrashSessionDir (Fs w) !! S = Some old -> subdirs old !! S = None) ->
  exists w',
    SessionManager.init w = (Ok tt, w')
    /\ Sessions (Db w') !! S
       = SessionRow.set_Status "CRASHED" <$> Sessions (Db w) !! S
    /\ SessionRow.Status <$> Sessions (Db w') !! S
       = (fun _ => "CRASHED") <$> Sessions (Db w) !! S
    /\ CrashSessionDir (Fs w') !! S
       = Some (match CrashSessionDir (Fs w) !! S with
               | None => d
               | Some old => MkDir (state_json old) (<[S := d]> (subdirs old))
               end)
    /\ ActiveSessionDir (Fs w') !! S = None
    /\ LockFile (Fs w') = None.
Proof.
  intros Hlock Hstrip Hact Hfree.
  unfold SessionManager.init, SessionManager.EnsureDirectoriesExist,
    SessionManager.CheckForCrashedSessions, SessionManager.UpdateSessionStatus,
    DatabaseManager.ExecuteNonQuery, shutil_move,
    try_except, bind, modify, gets, ret, dir_exists.
  simpl. rewrite Hlock. simpl. rewrite Hstrip.
  repeat (rewrite ?Hact; simpl).
  destruct (CrashSessionDir (Fs w) !! S) as [old|] eqn:Hcr.
  - rewrite (Hfree old eq_refl). simpl.
    eexists. split; [reflexivity |]. simpl.
    rewrite lookup_alter_eq, lookup_insert_eq, lookup_delete_eq.
    repeat split.
    destruct (Sessions (Db w) !! S); reflexivity.
  - simpl. eexists. split; [reflexivity |]. simpl.
    rewrite lookup_alter_eq, lookup_insert_eq, lookup_delete_eq.
    repeat split.
    destruct (Sessions (Db w) !! S); reflexivity.
Qed.

(** ** Terminal calls on an action *)

Lemma result_cell_json (v : JValue) :
  result_cell (Json v) v = match v with JNull => None | _ => Some v end.
Proof. destruct v; reflexivity. Qed.

Lemma decode_cell_result_cell (Result : PyValue) (v : JValue) :
  json_dumps Result = Ok v -> decode_cell (result_cell Result v) = v.
Proof.
  destruct Result as [[]|t [v'|]]; simpl; intros [= <-]; reflexivity.
Qed.

(** [CompleteAction] with a result that [json.dumps] accepts. *)
Lemma CompleteAction_store_any (env : Env) (ActionId : string)
  (Result : PyValue) (v : JValue) (Status sid : string) (w : World) :
  json_dumps Result = Ok v ->
  self_SessionId w = Some sid -> sid <> "" ->
  exists b w',
    ActionTracker.CompleteAction env ActionId Result Status w = (Ok b, w')
    /\ Actions (Db w')
       = alter (fun r => ActionRow.Mk (ActionRow.SessionId r)
                           (ActionRow.ActionType r) (ActionRow.StartTime r)
                           (Some (isoformat (clock_at env (Ticks w)))) Status
                           (ActionRow.Params r) (result_cell Result v))
           ActionId (Actions (Db w))
    /\ Sessions (Db w') = Sessions (Db w)
    /\ self_SessionId w' = self_SessionId w
    /\ Invocations w' = Invocations w.
Proof.
  intros Hv Hsid Hne.
  unfold ActionTracker.CompleteAction, try_except.
  rewrite (bind_ok _ _ w w (Some sid)) by (unfold gets; rewrite Hsid; reflexivity).
  rewrite (str_truthy_nonempty sid Hne). cbv beta iota delta [negb].
  eval_step (datetime_now env).
  rewrite Hv. eval_step (lift _).
  eval_step (DatabaseManager.Update _).
  match goal with
  | |- context [let (_, _) := ?rest ?w2 in _] =>
      assert (Hst : stable keeps_session rest) by stable_steps;
      specialize (Hst w2); destruct (rest w2) as [[b|e] w3]
  end; destruct Hst as (H1 & H2 & H3 & H4 & H5); simpl in *;
    eexists _, _; (split; [reflexivity |]); auto.
Qed.

Lemma CompleteAction_store (env : Env) (ActionId : string) (Result : JValue)
  (Status sid : string) (w : World) :
  self_SessionId w = Some sid -> sid <> "" ->
  exists b w',
    ActionTracker.CompleteAction env ActionId Result Status w = (Ok b, w')
    /\ Actions (Db w')
       = alter (fun r => ActionRow.Mk (ActionRow.SessionId r)
                           (ActionRow.ActionType r) (ActionRow.StartTime r)
                           (Some (isoformat (clock_at env (Ticks w)))) Status
                           (ActionRow.Params r)
                           (match Result with JNull => None | _ => Some Result end))
           ActionId (Actions (Db w))
    /\ Sessions (Db w') = Sessions (Db w)
    /\ self_SessionId w' = self_SessionId w
    /\ Invocations w' = Invocations w.
Proof.
  intros Hsid Hne. rewrite <- result_cell_json.
  apply (CompleteAction_store_any env ActionId (Json Result) Result Status sid
           w eq_refl Hsid Hne).
Qed.

(** [CompleteAction] with a result that [json.dumps] rejects: the clock was
    read, nothing else happened, and [False] is returned. *)
Lemma CompleteAction_not_json (env : Env) (ActionId type_name Status : string)
  (sid : string) (w : World) :
  self_SessionId w = Some sid -> sid <> "" ->
  ActionTracker.CompleteAction env ActionId (NotJson type_name None) Status w
  = (Ok false, set_Ticks (S (Ticks w)) w).
Proof.
  intros Hsid Hne.
  unfold ActionTracker.CompleteAction, try_except.
  rewrite (bind_ok _ _ w w (Some sid)) by (unfold gets; rewrite Hsid; reflexivity).
  rewrite (str_truthy_nonempty sid Hne). cbv beta iota delta [negb].
  eval_step (datetime_now env).
  reflexivity.
Qed.

Lemma CancelAction_rejects (env : Env) (ActionId : string) (w : World) :
  (forall r, Actions (Db w) !! ActionId = Some r ->
             ActionRow.Status r <> "STARTED") ->
  ActionTracker.CancelAction env ActionId w = (Ok false, w).
Proof.
  intros Hrow.
  unfold ActionTracker.CancelAction, try_except, bind at 1, gets at 1.
  destruct (negb (str_truthy (self_SessionId w))); [reflexivity |].
  unfold bind at 1, DatabaseManager.ExecuteQuery_Status, gets.
  destruct (Actions (Db w) !! ActionId) as [r|] eqn:Hr; [| reflexivity].
  specialize (Hrow r eq_refl).
  destruct (String.eqb (ActionRow.Status r) "STARTED") eqn:E; [| reflexivity].
  apply String.eqb_eq in E. contradiction.
Qed.

(** C2, the half the code keeps: [CancelAction] on an action whose stored
    status is not STARTED returns [False] and changes nothing.  The half it
    breaks: [CompleteAction] does not look at the stored status.  With a
    session current, [CompleteAction] on an action whose stored status is
    already terminal returns normally and the stored row takes the new end
    time, status and result. *)
Theorem CompleteAction_overwrites_terminal (env : Env) (ActionId : string)
  (Result : JValue) (Status sid : string) (w : World) (r : ActionRow.t) :
  self_SessionId w = Some sid -> sid <> "" ->
  Actions (Db w) !! ActionId = Some r ->
  ActionRow.Status r <> "STARTED" ->
  ActionTracker.CancelAction env ActionId w = (Ok false, w)
  /\ exists b w',
       ActionTracker.CompleteAction env ActionId Result Status w = (Ok b, w')
       /\ Actions (Db w') !! ActionId
          = Some (ActionRow.Mk (ActionRow.SessionId r) (ActionRow.ActionType r)
                    (ActionRow.StartTime r)
                    (Some (isoformat (clock_at env (Ticks w)))) Status
                    (ActionRow.Params r)
                    (match Result with JNull => None | _ => Some Result end)).
Proof.
  intros Hsid Hne Hrow Hterm. split.
  - apply CancelAction_rejects. intros r' Hr'. congruence.
  - destruct (CompleteAction_store env ActionId Result Status sid w Hsid Hne)
      as (b & w' & Hrun & Hact & _).
    exists b, w'. split; [exact Hrun |].
    rewrite Hact, lookup_alter_eq, Hrow. reflexivity.
Qed.

(** ** ExecuteAction with an active session *)

Lemma dict_get_set_eq (k : string) (v : JValue) (d : list (string * JValue)) :
  dict_get k (dict_set k v d) = Some v.
Proof.
  induction d as [|[k' v'] d IH]; simpl.
  - rewrite decide_True by reflexivity. reflexivity.
  - destruct (decide (k = k')) as [->|Hne]; simpl.
    + rewrite decide_True by reflexivity. reflexivity.
    + rewrite decide_False by assumption. exact IH.
Qed.

Lemma mirror_append_ok (State Action : JValue) :
  mirror_well_formed State = true -> truthy State = true ->
  exists State', ActionTracker.mirror_append State Action = Ok State'.
Proof.
  intros Hwf Ht.
  destruct State as [| b | z | s | l | d];
    try (unfold mirror_well_formed in Hwf; rewrite Ht in Hwf; discriminate Hwf).
  simpl in Hwf. unfold ActionTracker.mirror_append. simpl.
  destruct (dict_get "Actions" d) as [a|] eqn:Hget.
  - destruct a; try discriminate Hwf.
    rewrite bool_decide_eq_true_2 by eauto. simpl.
    rewrite Hget. simpl. eauto.
  - rewrite bool_decide_eq_false_2 by (intros [x Hx]; discriminate Hx). simpl.
    rewrite dict_get_set_eq. simpl. eauto.
Qed.

Lemma LoadSessionState_ext (w1 w2 : World) :
  self_SessionId w1 = self_SessionId w2 -> Fs w1 = Fs w2 ->
  fst (SessionManager.LoadSessionState w1)
  = fst (SessionManager.LoadSessionState w2).
Proof.
  intros Hs Hf.
  unfold SessionManager.LoadSessionState, try_except, bind, gets, lift, ret,
    state_file.
  rewrite Hs. destruct (negb (str_truthy (self_SessionId w2))); [reflexivity |].
  cbv beta. rewrite Hf. repeat case_match; simplify_eq; reflexivity.
Qed.

Lemma LoadSessionState_same (w1 w2 : World) (v : JValue) :
  self_SessionId w1 = self_SessionId w2 -> Fs w1 = Fs w2 ->
  SessionManager.LoadSessionState w1 = (Ok v, w1) ->
  SessionManager.LoadSessionState w2 = (Ok v, w2).
Proof.
  intros Hs Hf H.
  destruct (LoadSessionState_value w2) as (v2 & H2).
  pose proof (LoadSessionState_ext w1 w2 Hs Hf) as Hext.
  rewrite H, H2 in Hext. simpl in Hext. congruence.
Qed.

Lemma RecordAction_store (env : Env) (ActionType : string)
  (Params : option (list (string * JValue))) (sid : string) (w : World)
  (v : JValue) :
  self_SessionId w = Some sid -> sid <> "" ->
  is_Some (Sessions (Db w) !! sid) ->
  Actions (Db w) !! uuid_at env (Draws w) = None ->
  SessionManager.LoadSessionState w = (Ok v, w) ->
  mirror_well_formed v = true ->
  exists w',
    ActionTracker.RecordAction env ActionType Params w
    = (Ok (Some (uuid_at env (Draws w))), w')
    /\ Actions (Db w')
       = <[uuid_at env (Draws w) :=
             ActionRow.Mk sid ActionType (isoformat (clock_at env (Ticks w)))
               None "STARTED"
               (if truthy (params_value Params)
                then Some (params_value Params) else None) None]>
           (Actions (Db w))
    /\ Sessions (Db w') = Sessions (Db w)
    /\ self_SessionId w' = self_SessionId w
    /\ Invocations w' = Invocations w.
Proof.
  intros Hsid Hne Hrow Hfresh Hload Hwf.
  unfold ActionTracker.RecordAction.
  match goal with
  | |- exists w', try_except ?body _ w = _ /\ ?Q =>
      cut (exists w', body w = (Ok (Some (uuid_at env (Draws w))), w') /\ Q)
  end.
  { intros (w' & Hb & HQ). exists w'. split; [| exact HQ].
    apply try_except_ok. exact Hb. }
  rewrite (bind_ok _ _ w w (Some sid)) by (unfold gets; rewrite Hsid; reflexivity).
  rewrite (str_truthy_nonempty sid Hne). cbv beta iota delta [negb].
  eval_step (uuid4 env). eval_step (datetime_now env).
  simpl default.
  erewrite (bind_ok (DatabaseManager.InsertWithId _)).
  2:{ unfold DatabaseManager.InsertWithId, DatabaseManager.insert_row. simpl.
      rewrite Hfresh.
      rewrite (bool_decide_eq_false_2 (is_Some None))
        by (intros [x Hx]; discriminate Hx).
      rewrite bool_decide_eq_true_2 by assumption. reflexivity. }
  erewrite (bind_ok SessionManager.LoadSessionState).
  2:{ apply (LoadSessionState_same w); [reflexivity | reflexivity | exact Hload]. }
  match goal with
  | |- context [bind (if truthy v then ?yes else ?no) ?k ?w3] =>
      assert (Htot : total (if truthy v then yes else no));
      [| assert (Hst : stable keeps_session (if truthy v then yes else no))
           by stable_steps;
         run_method (if truthy v then yes else no) Htot Hst ]
  end.
  { destruct (truthy v) eqn:Ht; [| apply total_ret].
    match goal with
    | |- context [ActionTracker.mirror_append v ?a] =>
        destruct (mirror_append_ok v a Hwf Ht) as (State' & Happ); rewrite Happ
    end.
    apply total_bind; [apply total_lift_ok | intros State0].
    apply total_bind; [apply SaveSessionState_total | intros _; apply total_ret]. }
  run_method (DatabaseManager.LogToDatabase env "INFO" "ActionTracker"
                ("Action " +:+ ActionType +:+ " started") (Some sid)
                (Some (JDict [("ActionId", JStr (uuid_at env (Draws w)));
                              ("Params", params_value Params)])))
    (LogToDatabase_total env "INFO" "ActionTracker"
       ("Action " +:+ ActionType +:+ " started") (Some sid)
       (Some (JDict [("ActionId", JStr (uuid_at env (Draws w)));
                     ("Params", params_value Params)])))
    (LogToDatabase_keeps_session env "INFO" "ActionTracker"
       ("Action " +:+ ActionType +:+ " started") (Some sid)
       (Some (JDict [("ActionId", JStr (uuid_at env (Draws w)));
                     ("Params", params_value Params)]))).
  unfold ret.
  destruct K as (K1 & K2 & K3 & K4 & K5), K0 as (L1 & L2 & L3 & L4 & L5).
  simpl in *. eexists. split; [reflexivity |].
  repeat split; congruence.
Qed.

Lemma GetActionById_row (ActionId : string) (w : World) (r : ActionRow.t) :
  Actions (Db w) !! ActionId = Some r ->
  ActionTracker.GetActionById ActionId w
  = (Ok (Some (Action.Mk ActionId (ActionRow.SessionId r)
                 (ActionRow.ActionType r) (ActionRow.StartTime r)
                 (ActionRow.EndTime r) (ActionRow.Status r)
                 (decode_cell (ActionRow.Params r))
                 (decode_cell (ActionRow.Result r)))), w).
Proof.
  intros H.
  unfold ActionTracker.GetActionById, DatabaseManager.ExecuteQuery_ById,
    try_except, bind, gets, ret.
  rewrite H. reflexivity.
Qed.

(** What [ExecuteAction] leaves behind for a given outcome [o] of a
    function that leaves the world as it is: the tuple returned to the
    caller and the decoded row of the action. *)
Lemma ExecuteAction_outcome (env : Env) (ActionType : string)
  (fn : ActionFunction) (Params : option (list (string * JValue)))
  (sid : string) (w : World) (v : JValue) (o : Outcome PyValue) :
  self_SessionId w = Some sid -> sid <> "" ->
  is_Some (Sessions (Db w) !! sid) ->
  uuid_at env (Draws w) <> "" ->
  Actions (Db w) !! uuid_at env (Draws w) = None ->
  SessionManager.LoadSessionState w = (Ok v, w) ->
  mirror_well_formed v = true ->
  (forall w0, fn (ActionTracker.call_args Params) w0 = (o, w0)) ->
  exists w' a,
    ActionTracker.ExecuteAction env ActionType fn Params w
    = (Ok (match o with
           | Ok V => (true, V, Some (uuid_at env (Draws w)))
           | Raise e =>
               (false, Json (ActionTracker.ErrorDetails e),
                Some (uuid_at env (Draws w)))
           end), w')
    /\ ActionTracker.GetActionById (uuid_at env (Draws w)) w' = (Ok (Some a), w')
    /\ Action.SessionId a = sid
    /\ Action.ActionType a = ActionType
    /\ Action.Status a
       = match o with
         | Ok V => match json_dumps V with
                   | Ok _ => "COMPLETED"
                   | Raise _ => "STARTED"
                   end
         | Raise _ => "FAILED"
         end
    /\ Action.Result a
       = match o with
         | Ok V => match json_dumps V with
                   | Ok r => r
                   | Raise _ => JNull
                   end
         | Raise e => ActionTracker.ErrorDetails e
         end
    /\ (forall type_name, o = Ok (NotJson type_name None) ->
          Action.EndTime a = None)
    /\ Invocations w' = Invocations w ++ [ActionTracker.call_args Params].
Proof.
  intros Hsid Hne Hrow Hid Hfresh Hload Hwf Hfn.
  destruct (RecordAction_store env ActionType Params sid w v
              Hsid Hne Hrow Hfresh Hload Hwf)
    as (w1 & Hrec & Hact1 & Hses1 & Hself1 & Hinv1).
  set (id := uuid_at env (Draws w)) in *.
  set (args := ActionTracker.call_args Params) in *.
  set (w2 := set_Invocations (Invocations w1 ++ [args]) w1).
  assert (Hsid2 : self_SessionId w2 = Some sid) by (simpl; congruence).
  assert (Hinv2 : Invocations w2 = Invocations w ++ [args])
    by (simpl; rewrite Hinv1; reflexivity).
  assert (Hcomplete : forall (Result : PyValue) (r : JValue) Status,
    json_dumps Result = Ok r ->
    exists b w',
      ActionTracker.CompleteAction env id Result Status w2 = (Ok b, w')
      /\ (exists row, Actions (Db w') !! id = Some row
                    /\ ActionRow.SessionId row = sid
                    /\ ActionRow.ActionType row = ActionType
                    /\ ActionRow.Status row = Status
                    /\ decode_cell (ActionRow.Result row) = r)
      /\ Invocations w' = Invocations w ++ [args]).
  { intros Result r Status Hr.
    destruct (CompleteAction_store_any env id Result r Status sid w2 Hr Hsid2 Hne)
      as (b & w' & Hrun & Hact & _ & _ & Hinv).
    exists b, w'. split; [exact Hrun |]. split.
    - eexists. split.
      + rewrite Hact. simpl. rewrite Hact1, lookup_alter_eq, lookup_insert_eq.
        reflexivity.
      + simpl. repeat split. apply decode_cell_result_cell. exact Hr.
    - rewrite Hinv. exact Hinv2. }
  assert (Hinner : forall X w',
    try_except
      (do Result <- ActionTracker.call fn Params;
       do _ <- ActionTracker.CompleteAction env id Result "COMPLETED";
       ret (true, Result, Some id))%py
      (fun e =>
         (do _ <- ActionTracker.CompleteAction env id
                    (Json (ActionTracker.ErrorDetails e)) "FAILED";
          ret (false, Json (ActionTracker.ErrorDetails e), Some id))%py) w1
    = (Ok X, w') ->
    ActionTracker.ExecuteAction env ActionType fn Params w = (Ok X, w')).
  { intros X w' H. unfold ActionTracker.ExecuteAction.
    apply try_except_ok. rewrite (bind_ok _ _ _ _ _ Hrec).
    rewrite (str_truthy_nonempty id Hid). cbv beta iota delta [negb].
    simpl default. exact H. }
  unfold try_except at 1, bind at 1, ActionTracker.call at 1 in Hinner.
  fold args in Hinner. fold w2 in Hinner. rewrite (Hfn w2) in Hinner.
  destruct o as [V|e].
  - destruct (json_dumps V) as [r|e'] eqn:Hr.
    + destruct (Hcomplete V r "COMPLETED" Hr)
        as (b & w' & Hrun & (row & Hrow' & H1 & H2 & H3 & H4) & Hinv).
      exists w', (Action.Mk id (ActionRow.SessionId row)
                    (ActionRow.ActionType row) (ActionRow.StartTime row)
                    (ActionRow.EndTime row) (ActionRow.Status row)
                    (decode_cell (ActionRow.Params row))
                    (decode_cell (ActionRow.Result row))).
      split; [apply Hinner; rewrite (bind_ok _ _ _ _ _ Hrun); reflexivity |].
      split; [apply GetActionById_row; exact Hrow' |]. simpl.
      repeat split; try assumption.
      intros t [= ->]. discriminate Hr.
    + destruct V as [j|t [j|]]; try discriminate Hr.
      pose proof (CompleteAction_not_json env id t "COMPLETED" sid w2 Hsid2 Hne)
        as Hrun.
      eexists _, _.
      split; [apply Hinner; rewrite (bind_ok _ _ _ _ _ Hrun); reflexivity |].
      split.
      { apply GetActionById_row. simpl. rewrite Hact1, lookup_insert_eq.
        reflexivity. }
      simpl. rewrite Hinv1. repeat split.
  - destruct (Hcomplete (Json (ActionTracker.ErrorDetails e))
                (ActionTracker.ErrorDetails e) "FAILED" eq_refl)
      as (b & w' & Hrun & (row & Hrow' & H1 & H2 & H3 & H4) & Hinv).
    exists w', (Action.Mk id (ActionRow.SessionId row)
                  (ActionRow.ActionType row) (ActionRow.StartTime row)
                  (ActionRow.EndTime row) (ActionRow.Status row)
                  (decode_cell (ActionRow.Params row))
                  (decode_cell (ActionRow.Result row))).
    split; [apply Hinner; rewrite (bind_ok _ _ _ _ _ Hrun); reflexivity |].
    split; [apply GetActionById_row; exact Hrow' |]. simpl.
    repeat split; try assumption. discriminate.
Qed.



(** ** ResumeSession with a missing or corrupted state file *)

(** What [LogToDatabase] leaves alone: the manager's session, the files and
    the session rows. *)
Lemma LogToDatabase_files (env : Env) (lvl comp msg : string)
  (sid : option string) (data : option JValue) (w : World) :
  exists w',
    DatabaseManager.LogToDatabase env lvl comp msg sid data w = (Ok tt, w')
    /\ Fs w' = Fs w
    /\ self_SessionId w' = self_SessionId w
    /\ Sessions (Db w') = Sessions (Db w).
Proof.
  unfold DatabaseManager.LogToDatabase, try_except, bind, datetime_now,
    DatabaseManager.InsertWithId, DatabaseManager.insert_row, ret.
  simpl. eexists. split; [reflexivity |]. simpl. auto.
Qed.

Lemma LoadSessionState_reads (w : World) (id : string) (v : JValue) :
  self_SessionId w = Some id -> id <> "" ->
  state_file Active id w = Some (JsonDoc v) ->
  SessionManager.LoadSessionState w = (Ok v, w).
Proof.
  intros Hs Hne Hf.
  unfold SessionManager.LoadSessionState, try_except, bind, gets, lift, ret.
  rewrite Hs, (str_truthy_nonempty id Hne). simpl. rewrite Hf. reflexivity.
Qed.

Lemma InsertWithId_snapshot_files (nid sid ts : string) (data : JValue)
  (w : World) :
  Fs (snd (DatabaseManager.InsertWithId (IntoStateSnapshots nid sid ts data) w))
  = Fs w
  /\ self_SessionId
       (snd (DatabaseManager.InsertWithId (IntoStateSnapshots nid sid ts data) w))
     = self_SessionId w
  /\ Sessions
       (Db (snd (DatabaseManager.InsertWithId
                   (IntoStateSnapshots nid sid ts data) w)))
     = Sessions (Db w).
Proof.
  unfold DatabaseManager.InsertWithId, DatabaseManager.insert_row.
  repeat case_match; simplify_eq; simpl; auto.
Qed.

Lemma SaveSessionState_writes (env : Env) (d : list (string * JValue))
  (id : string) (w : World) :
  self_SessionId w = Some id -> id <> "" ->
  is_Some (ActiveSessionDir (Fs w) !! id) ->
  exists b w',
    SessionManager.SaveSessionState env (JDict d) w = (Ok b, w')
    /\ state_file Active id w'
       = Some (JsonDoc (JDict (dict_set "LastModified"
                                 (JStr (isoformat (clock_at env (Ticks w)))) d)))
    /\ self_SessionId w' = Some id
    /\ Sessions (Db w') = Sessions (Db w).
Proof.
  intros Hs Hne [dir Hdir].
  unfold SessionManager.SaveSessionState, try_except.
  rewrite (bind_ok _ _ w w (Some id)) by (unfold gets; rewrite Hs; reflexivity).
  rewrite (str_truthy_nonempty id Hne). cbv beta iota delta [negb].
  eval_step (datetime_now env).
  cbn [py_setitem]. eval_step (lift _).
  erewrite (bind_ok (write_state_file _ _ _)).
  2:{ unfold write_state_file. simpl. rewrite Hdir. reflexivity. }
  eval_step (uuid4 env).
  unfold bind.
  match goal with
  | |- context [DatabaseManager.InsertWithId (IntoStateSnapshots ?a ?b ?c ?e) ?w2] =>
      destruct (InsertWithId_snapshot_files a b c e w2) as (H1 & H2 & H3);
      destruct (DatabaseManager.InsertWithId (IntoStateSnapshots a b c e) w2)
        as [[[]|ex] w3]
  end; simpl in *; eexists _, _; (split; [reflexivity |]);
    unfold state_file; rewrite H1, H2, H3; simpl;
    rewrite lookup_insert_eq; auto.
Qed.

Lemma InsertWithId_session_fresh (id st status : string) (w : World) :
  Sessions (Db w) !! id = None ->
  DatabaseManager.InsertWithId (IntoSessions id st status) w
  = (Ok tt,
     set_Db (fun _ => set_Sessions
                        (insert id (SessionRow.Mk st None status None)) (Db w)) w).
Proof.
  intros H. unfold DatabaseManager.InsertWithId, DatabaseManager.insert_row.
  rewrite H.
  rewrite bool_decide_eq_false_2 by (intros [x Hx]; discriminate Hx).
  reflexivity.
Qed.

Lemma InsertWithId_relationship (parent child ty : string) (w : World) :
  is_Some (Sessions (Db w) !! parent) ->
  is_Some (Sessions (Db w) !! child) ->
  DatabaseManager.InsertWithId (IntoSessionRelationships parent child ty) w
  = (Ok tt,
     set_Db (fun _ => set_SessionRelationships
                        (fun l => l ++ [RelationRow.Mk parent child ty]) (Db w)) w).
Proof.
  intros Hp Hc. unfold DatabaseManager.InsertWithId, DatabaseManager.insert_row.
  rewrite !bool_decide_eq_true_2 by assumption. reflexivity.
Qed.

Lemma CreateLockFile_writes (w : World) (id : string) :
  self_SessionId w = Some id ->
  SessionManager.CreateLockFile w
  = (Ok tt, set_Fs (set_LockFile (Some id)) w).
Proof.
  intros H. unfold SessionManager.CreateLockFile, bind, gets, modify.
  rewrite H. reflexivity.
Qed.

Lemma append_nonempty (s1 s2 : string) : s2 <> "" -> s1 +:+ s2 <> "".
Proof. destruct s1; simpl; [auto | discriminate]. Qed.

Lemma ResumeSession_minimal (env : Env) (SessionId : string) (w : World) (d : Dir) :
  CrashSessionDir (Fs w) !! SessionId = Some d ->
  state_json d = None \/ (exists raw, state_json d = Some (Corrupt raw)) ->
  is_Some (Sessions (Db w) !! SessionId) ->
  Sessions (Db w) !! resumed_id env SessionId w = None ->
  exists w',
    SessionManager.ResumeSession env SessionId w
    = (Ok (Some (resumed_id env SessionId w)), w')
    /\ self_SessionId w' = Some (resumed_id env SessionId w)
    /\ Sessions (Db w') !! resumed_id env SessionId w
       = Some (SessionRow.Mk (resumed_StartTime env w) None "ACTIVE" None)
    /\ SessionManager.LoadSessionState w'
       = (Ok (JDict [("SessionId", JStr (resumed_id env SessionId w));
                     ("StartTime", JStr (resumed_StartTime env w));
                     ("Messages", JList []); ("Context", JDict []);
                     ("ResumedFrom", JStr SessionId);
                     ("LastModified", JStr (resumed_LastModified env w))]), w').
Proof.
  intros Hcr Hstate Hrow Hfresh.
  destruct (ending_step env "Ended to resume crashed session" w)
    as (Hend & Hkeep).
  set (w1 := after_ending env "Ended to resume crashed session" w) in *.
  assert (Hid : resumed_id env SessionId w
                = SessionId +:+ "_resumed_" +:+ strftime (clock_at env (Ticks w1)))
    by reflexivity.
  set (id := resumed_id env SessionId w) in *.
  assert (Hne : id <> "").
  { rewrite Hid. apply append_nonempty. discriminate. }
  unfold SessionManager.ResumeSession.
  rewrite (bind_ok _ _ w w true)
    by (unfold gets, dir_exists, part; rewrite Hcr; reflexivity).
  cbv beta iota delta [negb].
  eval_step (gets self_SessionId).
  rewrite (bind_ok _ _ _ _ _ Hend).
  eval_step (datetime_now env).
  rewrite <- Hid.
  eval_step (modify _).
  eval_step (datetime_now env).
  erewrite (bind_ok (DatabaseManager.InsertWithId (IntoSessions _ _ _))).
  2:{ apply InsertWithId_session_fresh. simpl.
      apply (keeps_store_lookup w w1 id Hkeep). exact Hfresh. }
  erewrite (bind_ok (DatabaseManager.InsertWithId (IntoSessionRelationships _ _ _))).
  2:{ apply InsertWithId_relationship; simpl.
      - apply lookup_insert_is_Some'. right.
        apply (keeps_store_is_Some w w1 _ Hkeep). exact Hrow.
      - rewrite lookup_insert_eq. eauto. }
  eval_step (makedirs _ _).
  erewrite (bind_ok SessionManager.CreateLockFile).
  2:{ apply CreateLockFile_writes. reflexivity. }
  match goal with
  | |- context [bind (gets (state_file Crashed SessionId)) _ ?x] =>
      set (w5 := x)
  end.
  assert (Hself5 : self_SessionId w5 = Some id) by reflexivity.
  assert (Hact5 : is_Some (ActiveSessionDir (Fs w5) !! id)).
  { subst w5. simpl. destruct (ActiveSessionDir (Fs w1) !! id) eqn:E.
    - rewrite E. eauto.
    - rewrite lookup_insert_eq. eauto. }
  assert (Hses5 : Sessions (Db w5) !! id
                  = Some (SessionRow.Mk (isoformat (clock_at env (S (Ticks w1))))
                            None "ACTIVE" None)).
  { subst w5. simpl. apply lookup_insert_eq. }
  assert (Hfile5 : state_file Crashed SessionId w5 = state_json d).
  { subst w5. unfold state_file. simpl.
    destruct Hkeep as (_ & _ & Hc & _). rewrite Hc, Hcr. reflexivity. }
  destruct (SaveSessionState_writes env
              [("SessionId", JStr id);
               ("StartTime", JStr (isoformat (clock_at env (S (Ticks w1)))));
               ("Messages", JList []); ("Context", JDict []);
               ("ResumedFrom", JStr SessionId);
               ("LastModified", JStr (isoformat (clock_at env (S (Ticks w1)))))]
              id w5 Hself5 Hne Hact5)
    as (b & w6 & Hsave & Hfile6 & Hself6 & Hses6).
  destruct (LogToDatabase_files env "INFO" "SessionManager"
              ("Resumed session " +:+ SessionId +:+ " as new session " +:+ id)
              (Some id) (Some (JDict [("ResumedFrom", JStr SessionId)])) w6)
    as (w7 & Hlog & Hfs7 & Hself7 & Hses7).
  exists w7.
  split.
  { rewrite (bind_ok _ _ w5 w5 (state_json d))
      by (unfold gets; rewrite Hfile5; reflexivity).
    erewrite (bind_ok _ _ w5 w6 tt).
    - rewrite (bind_ok _ _ _ _ _ Hlog). reflexivity.
    - destruct Hstate as [-> | [raw ->]].
      + rewrite (bind_ok _ _ _ _ _ Hsave). reflexivity.
      + erewrite try_except_raise; [| reflexivity].
        cbv beta. rewrite (bind_ok _ _ _ _ _ Hsave). reflexivity. }
  split; [congruence |].
  split; [rewrite Hses7, Hses6; exact Hses5 |].
  apply (LoadSessionState_reads w7 id); [congruence | exact Hne |].
  unfold state_file in *. rewrite Hfs7. exact Hfile6.
Qed.

Lemma append_neq_self (s1 s2 : string) : s2 <> "" -> s1 +:+ s2 <> s1.
Proof.
  intros Hne. induction s1 as [|c s1 IH]; simpl.
  - exact Hne.
  - intros [= H]. exact (IH H).
Qed.


(** ** Session identifiers *)

Lemma StartSession_inv (env : Env) (w w' : World) (id : string) :
  SessionManager.StartSession env w = (Ok id, w') ->
  Sessions (Db w) !! id = None
  /\ is_Some (Sessions (Db w') !! id)
  /\ id = started_id env w.
Proof.
  unfold SessionManager.StartSession. intros H.
  apply bind_inv_ok in H as (cur & w0 & Hcur & H).
  unfold gets in Hcur. injection Hcur as <- <-.
  apply bind_inv_ok in H as (u & w1 & Hend & H).
  destruct (ending_step env "Ended to start new session" w) as (He & Hkeep).
  rewrite He in Hend. injection Hend as <- <-.
  apply bind_inv_ok in H as (now1 & w2 & Hnow1 & H).
  unfold datetime_now in Hnow1. injection Hnow1 as <- <-.
  apply bind_inv_ok in H as (u2 & w3 & Hset & H).
  unfold modify in Hset. injection Hset as _ <-.
  apply bind_inv_ok in H as (now2 & w4 & Hnow2 & H).
  unfold datetime_now in Hnow2. injection Hnow2 as <- <-.
  apply bind_inv_ok in H as ([] & w5 & Hinsert & H).
  apply InsertWithId_session_inv in Hinsert as (Hnone & Hins & _).
  simpl in Hnone.
  assert (Hid : id = started_id env w).
  { pose proof H as H'.
    do 4 (apply bind_inv_ok in H' as (? & ? & _ & H')).
    unfold ret in H'. injection H' as <- _. reflexivity. }
  subst id.
  match type of H with
  | ?m w5 = _ => assert (Hst : stable keeps_session m) by stable_steps;
                 specialize (Hst w5); rewrite H in Hst;
                 destruct Hst as (_ & Hses & _)
  end.
  simpl in Hses. split; [| split].
  - apply (keeps_store_lookup w _ _ Hkeep). exact Hnone.
  - rewrite Hses, Hins. unfold started_id. rewrite lookup_insert_eq. eauto.
  - reflexivity.
Qed.

Lemma StartSession_collision (env : Env) (w : World) :
  is_Some (Sessions (Db w) !! started_id env w) ->
  exists w',
    SessionManager.StartSession env w
    = (Raise (IntegrityError "UNIQUE constraint failed: Sessions.SessionId"), w').
Proof.
  intros Htaken.
  destruct (ending_step env "Ended to start new session" w) as (Hend & Hkeep).
  unfold SessionManager.StartSession.
  eval_step (gets self_SessionId).
  rewrite (bind_ok _ _ _ _ _ Hend).
  eval_step (datetime_now env).
  eval_step (modify _).
  eval_step (datetime_now env).
  eexists. apply bind_raise.
  apply InsertWithId_session_taken. simpl.
  apply (keeps_store_is_Some w _ _ Hkeep). exact Htaken.
Qed.

(** C5, as stated, fails: the id is the second-resolution rendering of the
    clock and nothing disambiguates a collision.  When the clock renders
    the same second twice, the second of two invocations of [StartSession]
    returns no id: the store rejects the duplicate key and the exception
    leaves the method. *)
Lemma StartSession_same_second_no_second_id :
  ~ (forall (env : Env) (w w1 : World) (id1 : string),
       SessionManager.StartSession env w = (Ok id1, w1) ->
       exists id2 w2,
         SessionManager.StartSession env w1 = (Ok id2, w2) /\ id2 <> id1).
Proof.
  intros H.
  destruct (H env_example w_empty w_started "20250318190000")
    as (id2 & w2 & Hrun & _).
  - vm_compute. reflexivity.
  - destruct (StartSession_collision env_example w_started) as (w' & Hraise).
    + vm_compute. eauto.
    + rewrite Hraise in Hrun. discriminate Hrun.
Qed.

(** C5, amended.  An id returned by [StartSession] is the rendering of a
    clock reading and was not a session id of the store before the call;
    it is one afterwards.  Hence two invocations that both return, one
    after the other on the same store, return distinct ids.  A collision is
    not disambiguated: when the rendering of the clock is already a session
    id of the store, [StartSession] raises the store's IntegrityError and
    returns no id. *)
Theorem StartSession_ids (env : Env) (w : World) :
  (forall id w',
     SessionManager.StartSession env w = (Ok id, w') ->
     Sessions (Db w) !! id = None
     /\ is_Some (Sessions (Db w') !! id)
     /\ id = started_id env w)
  /\ (forall id1 w1 env2 id2 w2,
        SessionManager.StartSession env w = (Ok id1, w1) ->
        SessionManager.StartSession env2 w1 = (Ok id2, w2) ->
        id1 <> id2)
  /\ (is_Some (Sessions (Db w) !! started_id env w) ->
      exists w',
        SessionManager.StartSession env w
        = (Raise (IntegrityError "UNIQUE constraint failed: Sessions.SessionId"),
           w')).
Proof.
  split; [| split].
  - intros id w'. apply StartSession_inv.
  - intros id1 w1 env2 id2 w2 H1 H2 ->.
    apply StartSession_inv in H1 as (_ & Hrow & _).
    apply StartSession_inv in H2 as (Hnone & _).
    rewrite Hnone in Hrow. destruct Hrow as [x Hx]. discriminate Hx.
  - apply StartSession_collision.
Qed.

(** ** The guards of the start-up scan *)

Lemma CheckForCrashedSessions_no_lock (w : World) :
  LockFile (Fs w) = None ->
  SessionManager.CheckForCrashedSessions w = (Ok tt, w).
Proof.
  intros H. unfold SessionManager.CheckForCrashedSessions, bind, gets. simpl.
  rewrite H. reflexivity.
Qed.

Lemma CheckForCrashedSessions_moved (w : World) (content : string) :
  LockFile (Fs w) = Some content ->
  ActiveSessionDir (Fs w) !! strip content = None ->
  SessionManager.CheckForCrashedSessions w
  = (Ok tt, set_Fs (set_LockFile None) w).
Proof.
  intros Hlock Hact.
  unfold SessionManager.CheckForCrashedSessions, bind, modify, gets, ret,
    dir_exists.
  simpl. rewrite Hlock. simpl. rewrite Hact. reflexivity.
Qed.

Lemma CheckForCrashedSessions_found (w : World) (content : string) (d : Dir) :
  LockFile (Fs w) = Some content ->
  ActiveSessionDir (Fs w) !! strip content = Some d ->
  CrashSessionDir (Fs w) !! strip content = None ->
  SessionManager.CheckForCrashedSessions w
  = (Ok tt,
     set_Fs (set_LockFile None)
       (set_Db (set_Sessions
                  (alter (SessionRow.set_Status "CRASHED") (strip content)))
          (set_Fs (fun s => set_CrashSessionDir (insert (strip content) d)
                              (set_ActiveSessionDir (delete (strip content)) s))
             w))).
Proof.
  intros Hlock Hact Hcr.
  unfold SessionManager.CheckForCrashedSessions,
    SessionManager.UpdateSessionStatus, DatabaseManager.ExecuteNonQuery,
    shutil_move, try_except, bind, modify, gets, ret, dir_exists.
  simpl. rewrite Hlock. simpl.
  repeat (rewrite ?Hact, ?Hcr; simpl).
  reflexivity.
Qed.

Lemma CheckForCrashedSessions_removes_lock (w w' : World) :
  SessionManager.CheckForCrashedSessions w = (Ok tt, w') ->
  LockFile (Fs w') = None.
Proof.
  unfold SessionManager.CheckForCrashedSessions, bind at 1, gets.
  destruct (LockFile (Fs w)) as [content|] eqn:Hlock.
  - intros H. do 2 bind_inv H.
    unfold modify in H. injection H as <-. reflexivity.
  - unfold ret. intros [= <-]. assumption.
Qed.

(** C6, as stated, fails: the scan does not look at the current status of
    the row.  In the world left by a process killed inside [EndSession]
    the row is COMPLETED, and the scan overwrites it with CRASHED. *)
Lemma scan_ignores_current_status :
  ~ (forall (w : World) (S : string) (r : SessionRow.t),
       Sessions (Db w) !! S = Some r ->
       SessionRow.Status r <> "ACTIVE" ->
       Sessions (Db (snd (SessionManager.CheckForCrashedSessions w))) !! S
       = Some r).
Proof.
  intros H.
  specialize (H w_killed_ending "20250318190000"
                (SessionRow.Mk "2025-03-18T19:00:00.1"
                   (Some "2025-03-18T19:00:00.9") "COMPLETED" None)).
  assert (Hrow : Sessions (Db w_killed_ending) !! "20250318190000"
                 = Some (SessionRow.Mk "2025-03-18T19:00:00.1"
                           (Some "2025-03-18T19:00:00.9") "COMPLETED" None))
    by (vm_compute; reflexivity).
  specialize (H Hrow ltac:(discriminate)).
  vm_compute in H. discriminate H.
Qed.

(** C6, amended.  The scan has one guard, the existence of the directory
    under the active partition.  (1) When the lock file names a session (its
    stripped content is a single path component, so not empty) and the
    directory of that name is not there, the scan deletes the lock file and
    changes nothing else: no directory, no row.  (2) When it is there (and
    not yet under the crashed partition) it is moved and the status of the
    row is set to CRASHED whatever it was.  (3) A scan that follows a scan
    that returned changes nothing. *)
Theorem scan_guards (w : World) :
  (forall content,
     LockFile (Fs w) = Some content ->
     path_component (strip content) = true ->
     ActiveSessionDir (Fs w) !! strip content = None ->
     SessionManager.CheckForCrashedSessions w
     = (Ok tt, set_Fs (set_LockFile None) w))
  /\ (forall content d,
       LockFile (Fs w) = Some content ->
       ActiveSessionDir (Fs w) !! strip content = Some d ->
       CrashSessionDir (Fs w) !! strip content = None ->
       exists w',
         SessionManager.CheckForCrashedSessions w = (Ok tt, w')
         /\ CrashSessionDir (Fs w') !! strip content = Some d
         /\ ActiveSessionDir (Fs w') !! strip content = None
         /\ Sessions (Db w') !! strip content
            = SessionRow.set_Status "CRASHED"
                <$> Sessions (Db w) !! strip content)
  /\ (forall w',
       SessionManager.CheckForCrashedSessions w = (Ok tt, w') ->
       SessionManager.CheckForCrashedSessions w' = (Ok tt, w')).
Proof.
  split.
  { intros content Hlock _. apply CheckForCrashedSessions_moved. exact Hlock. }
  split.
  - intros content d Hlock Hact Hcr. eexists.
    split; [apply (CheckForCrashedSessions_found w content d); assumption |].
    simpl. rewrite lookup_alter_eq, lookup_insert_eq, lookup_delete_eq.
    repeat split.
  - intros w' H. apply CheckForCrashedSessions_no_lock.
    apply (CheckForCrashedSessions_removes_lock w w' H).
Qed.

(** ** GetPendingActions *)

Lemma String_leb_iff (a b : string) :
  String.leb a b = true <-> a = b \/ String_as_OT.lt a b.
Proof.
  unfold String.leb. split.
  - destruct (String.compare a b) eqn:E; try discriminate; intros _.
    + left. apply String.compare_eq_iff. assumption.
    + right. apply String_as_OT.cmp_lt. assumption.
  - intros [-> | Hlt].
    + assert (E : String.compare b b = Eq).
      { destruct (String.compare b b) eqn:E; [reflexivity | |].
        - apply String_as_OT.cmp_lt in E.
          destruct (String_as_OT.lt_not_eq _ _ E). reflexivity.
        - rewrite String.compare_antisym in E.
          destruct (String.compare b b) eqn:E'; try discriminate.
          apply String_as_OT.cmp_lt in E'.
          destruct (String_as_OT.lt_not_eq _ _ E'). reflexivity. }
      rewrite E. reflexivity.
    + apply String_as_OT.cmp_lt in Hlt. unfold String_as_OT.cmp in Hlt.
      rewrite Hlt. reflexivity.
Qed.

Lemma String_leb_trans (a b c : string) :
  String.leb a b = true -> String.leb b c = true -> String.leb a c = true.
Proof.
  rewrite !String_leb_iff.
  intros [-> | Hab] [-> | Hbc]; eauto.
  right. eapply String_as_OT.lt_trans; eassumption.
Qed.

#[global] Instance StartTime_le_total : Total StartTime_le.
Proof. intros x y. unfold StartTime_le. apply String.leb_total. Qed.

#[global] Instance StartTime_le_trans : Transitive StartTime_le.
Proof. intros x y z. unfold StartTime_le. apply String_leb_trans. Qed.

Lemma ExecuteQuery_Pending_rows (sid : string) (w : World) :
  exists rows,
    DatabaseManager.ExecuteQuery_Pending sid w = (Ok rows, w)
    /\ StronglySorted StartTime_le rows
    /\ NoDup rows.*1
    /\ forall id r, (id, r) ∈ rows <->
          Actions (Db w) !! id = Some r
          /\ ActionRow.SessionId r = sid /\ ActionRow.Status r = "STARTED".
Proof.
  eexists. split; [reflexivity |].
  split; [apply StronglySorted_merge_sort; apply _ |].
  split.
  - rewrite merge_sort_Permutation.
    eapply NoDup_fmap_fst.
    + intros id r1 r2 H1 H2.
      apply list_elem_of_filter in H1 as [_ H1].
      apply list_elem_of_filter in H2 as [_ H2].
      apply elem_of_map_to_list in H1. apply elem_of_map_to_list in H2.
      congruence.
    + apply NoDup_filter, NoDup_map_to_list.
  - intros id r. rewrite merge_sort_Permutation.
    rewrite list_elem_of_filter, elem_of_map_to_list. simpl. tauto.
Qed.

(** C7. For a session id, [GetPendingActions] returns a list [L], changes
    nothing, and: a row is in [L] exactly when it is the projection of an
    action of the store that belongs to that session and whose stored status
    is STARTED; every such action is listed once; [L] is in ascending order
    of start time; and an action whose stored status is anything else (it
    was completed, failed or canceled before the query) is not in [L]. *)
Theorem GetPendingActions_filter_order (sid : string) (w : World) :
  sid <> "" ->
  exists L,
    ActionTracker.GetPendingActions (Some sid) w = (Ok L, w)
    /\ (forall p, p ∈ L <->
          exists r, Actions (Db w) !! PendingAction.ActionId p = Some r
                    /\ ActionRow.SessionId r = sid
                    /\ ActionRow.Status r = "STARTED"
                    /\ p = ActionTracker.pending_of (PendingAction.ActionId p, r))
    /\ NoDup (PendingAction.ActionId <$> L)
    /\ StronglySorted by_StartTime L
    /\ (forall id r, Actions (Db w) !! id = Some r ->
          ActionRow.Status r <> "STARTED" ->
          id ∉ PendingAction.ActionId <$> L).
Proof.
  intros Hsid.
  destruct (ExecuteQuery_Pending_rows sid w) as (rows & Hq & Hsorted & Hnodup & Hmem).
  assert (Hids : PendingAction.ActionId <$> (ActionTracker.pending_of <$> rows)
                 = rows.*1).
  { rewrite <- list_fmap_compose. apply list_fmap_ext. intros i [id r] _. reflexivity. }
  exists (ActionTracker.pending_of <$> rows).
  split.
  { unfold ActionTracker.GetPendingActions.
    apply try_except_ok. unfold bind at 1, gets.
    rewrite (str_truthy_nonempty sid Hsid). simpl.
    rewrite (bind_ok _ _ _ _ _ Hq). reflexivity. }
  split.
  { intros p. rewrite list_elem_of_fmap. split.
    - intros ([id r] & -> & Hin). apply Hmem in Hin as (Hl & Hs & Hst).
      exists r. simpl. auto.
    - intros (r & Hl & Hs & Hst & Hp).
      exists (PendingAction.ActionId p, r). split; [assumption |].
      apply Hmem. auto. }
  split; [rewrite Hids; assumption |].
  split.
  { eapply StronglySorted_fmap; [| exact Hsorted].
    intros x y Hxy. exact Hxy. }
  intros id r Hl Hst. rewrite Hids. intros Hin.
  apply list_elem_of_fmap in Hin as ([id' r'] & Heq & Hin). simpl in Heq. subst id'.
  apply Hmem in Hin as (Hl' & _ & Hst'). congruence.
Qed.

(** ** ExecuteAction without an active session *)

Lemma RecordAction_no_session (env : Env) (ActionType : string)
  (Params : option (list (string * JValue))) (w : World) :
  str_truthy (self_SessionId w) = false ->
  ActionTracker.RecordAction env ActionType Params w = (Ok None, w).
Proof.
  intros H. unfold ActionTracker.RecordAction, try_except, bind, gets. simpl.
  rewrite H. reflexivity.
Qed.

(** C8. Without an active session [RecordAction] returns no id, and
    [ExecuteAction] returns the failure tuple with no action id and leaves
    the world as it was; in particular the list of invocations of the
    function is unchanged, whatever the function is: it is never called. *)
Theorem ExecuteAction_no_session (env : Env) (ActionType : string)
  (fn : ActionFunction) (Params : option (list (string * JValue))) (w : World) :
  str_truthy (self_SessionId w) = false ->
  ActionTracker.RecordAction env ActionType Params w = (Ok None, w)
  /\ ActionTracker.ExecuteAction env ActionType fn Params w
     = (Ok (false, JDict [("Error", JStr "Failed to record action")], None), w)
  /\ Invocations (snd (ActionTracker.ExecuteAction env ActionType fn Params w))
     = Invocations w.
Proof.
  intros H.
  assert (Hexec : ActionTracker.ExecuteAction env ActionType fn Params w
     = (Ok (false, JDict [("Error", JStr "Failed to record action")], None), w)).
  { unfold ActionTracker.ExecuteAction.
    apply try_except_ok.
    rewrite (bind_ok _ _ _ _ _ (RecordAction_no_session env ActionType Params w H)).
    reflexivity. }
  split; [apply RecordAction_no_session; assumption |].
  split; [assumption |].
  rewrite Hexec. reflexivity.
Qed.

(** ** EndSession without a current session *)

Lemma EndSession_no_session (env : Env) (Summary : option string) (w : World) :
  str_truthy (self_SessionId w) = false ->
  SessionManager.EndSession env Summary w = (Ok false, w).
Proof.
  intros H. unfold SessionManager.EndSession, bind, gets. simpl.
  rewrite H. reflexivity.
Qed.

Lemma EndSession_true_clears (env : Env) (Summary : option string) (w w' : World) :
  SessionManager.EndSession env Summary w = (Ok true, w') ->
  self_SessionId w' = None.
Proof.
  unfold SessionManager.EndSession, bind at 1, gets.
  destruct (negb (str_truthy (self_SessionId w))).
  - unfold ret. intros [=].
  - unfold try_except.
    match goal with
    | |- context [match ?body w with _ => _ end] =>
        destruct (body w) as [[b|e] w1] eqn:Hbody
    end.
    + intros [= -> ->].
      do 8 bind_inv Hbody.
      unfold ret in Hbody. injection Hbody as <-.
      unfold modify in Hstep6. injection Hstep6 as _ <-. reflexivity.
    + unfold ret. intros [=].
Qed.

(** C9. [EndSession] never raises; without a current session it returns
    [False] and changes nothing; and after an invocation that returned
    [True], a second invocation returns [False] and changes nothing. *)
Theorem EndSession_idempotent_safe (env : Env) (Summary Summary' : option string)
  (w : World) :
  (exists b w', SessionManager.EndSession env Summary w = (Ok b, w'))
  /\ (str_truthy (self_SessionId w) = false ->
      SessionManager.EndSession env Summary w = (Ok false, w))
  /\ (forall w', SessionManager.EndSession env Summary w = (Ok true, w') ->
      SessionManager.EndSession env Summary' w' = (Ok false, w')).
Proof.
  split; [apply EndSession_total |].
  split; [apply EndSession_no_session |].
  intros w' H. apply EndSession_no_session.
  rewrite (EndSession_true_clears _ _ _ _ H). reflexivity.
Qed.

(** ** ResumeSession of an unknown session *)

(** C10. For every session id (a single path component) with no directory
    under the crashed partition, [ResumeSession] returns [None] and leaves
    the whole world as it was: the manager's current session is not ended,
    no row is written, no file or directory is touched, the clock is not
    read. *)
Theorem ResumeSession_not_found (env : Env) (SessionId : string) (w : World) :
  path_component SessionId = true ->
  CrashSessionDir (Fs w) !! SessionId = None ->
  SessionManager.ResumeSession env SessionId w = (Ok None, w).
Proof.
  intros _ Hnone.
  unfold SessionManager.ResumeSession, bind, gets, dir_exists. simpl.
  rewrite Hnone. rewrite bool_decide_eq_false_2; [reflexivity |].
  intros [d Hd]. discriminate.
Qed.

(** ** Further facts behind the statements *)

(** The scan when the crashed partition already has a directory of the same
    name with an entry of that name inside: [shutil.move] raises, the
    exception leaves the constructor, and the lock file stays. *)
Lemma init_destination_taken (w : World) (content : string) (d old inner : Dir) :
  LockFile (Fs w) = Some content ->
  ActiveSessionDir (Fs w) !! strip content = Some d ->
  CrashSessionDir (Fs w) !! strip content = Some old ->
  subdirs old !! strip content = Some inner ->
  SessionManager.init w
  = (Raise (ShutilError "Destination path already exists"),
     set_SessionId None w).
Proof.
  intros Hlock Hact Hcr Hin.
  unfold SessionManager.init, SessionManager.EnsureDirectoriesExist,
    SessionManager.CheckForCrashedSessions, shutil_move,
    bind, modify, gets, ret, dir_exists.
  simpl. rewrite Hlock. simpl.
  repeat (rewrite ?Hact, ?Hcr, ?Hin; simpl).
  reflexivity.
Qed.

Lemma CancelAction_store (env : Env) (ActionId sid : string) (w : World)
  (r : ActionRow.t) :
  self_SessionId w = Some sid -> sid <> "" ->
  Actions (Db w) !! ActionId = Some r ->
  ActionRow.Status r = "STARTED" ->
  exists b w',
    ActionTracker.CancelAction env ActionId w = (Ok b, w')
    /\ Actions (Db w') !! ActionId
       = Some (ActionRow.Mk (ActionRow.SessionId r) (ActionRow.ActionType r)
                 (ActionRow.StartTime r)
                 (Some (isoformat (clock_at env (Ticks w)))) "CANCELED"
                 (ActionRow.Params r)
                 (Some (JDict [("Reason", JStr "Canceled by user")]))).
Proof.
  intros Hsid Hne Hrow Hst.
  unfold ActionTracker.CancelAction, try_except.
  rewrite (bind_ok _ _ w w (Some sid)) by (unfold gets; rewrite Hsid; reflexivity).
  rewrite (str_truthy_nonempty sid Hne). cbv beta iota delta [negb].
  rewrite (bind_ok _ _ w w [ActionRow.Status r])
    by (unfold DatabaseManager.ExecuteQuery_Status, gets; rewrite Hrow; reflexivity).
  rewrite Hst, String.eqb_refl. cbv beta iota delta [negb].
  eval_step (datetime_now env).
  eval_step (DatabaseManager.Update _).
  match goal with
  | |- context [let (_, _) := ?rest ?w2 in _] =>
      assert (Hstable : stable keeps_session rest) by stable_steps;
      specialize (Hstable w2); destruct (rest w2) as [[b|e] w3]
  end; destruct Hstable as (_ & _ & H3 & _); simpl in *;
    eexists _, _; (split; [reflexivity |]);
    rewrite H3, lookup_alter_eq, Hrow; reflexivity.
Qed.

(** An action that [CompleteAction] has given a terminal status, or that
    [CancelAction] has canceled, is not in the result of a later
    [GetPendingActions]. *)
Lemma terminal_not_pending (SessionId : option string) (w : World)
  (id : string) (r : ActionRow.t) (L : list PendingAction.t) :
  Actions (Db w) !! id = Some r ->
  ActionRow.Status r <> "STARTED" ->
  ActionTracker.GetPendingActions SessionId w = (Ok L, w) ->
  id ∉ PendingAction.ActionId <$> L.
Proof.
  intros Hrow Hst Hq Hin.
  unfold ActionTracker.GetPendingActions, try_except, bind at 1, gets at 1 in Hq.
  destruct (negb (str_truthy SessionId) && negb (str_truthy (self_SessionId w))).
  - unfold ret in Hq. injection Hq as <-.
    apply elem_of_nil in Hin. exact Hin.
  - match type of Hq with
    | context [DatabaseManager.ExecuteQuery_Pending ?target] =>
        destruct (ExecuteQuery_Pending_rows target w)
          as (rows & Hrows & _ & _ & Hmem)
    end.
    rewrite (bind_ok _ _ _ _ _ Hrows) in Hq. unfold ret in Hq.
    injection Hq as <-.
    apply list_elem_of_fmap in Hin as (p & -> & Hp).
    apply list_elem_of_fmap in Hp as ([id' r'] & -> & Hx).
    apply Hmem in Hx as (Hl & _ & Hst'). simpl in *. congruence.
Qed.

(** * The statements at concrete worlds *)

Ltac by_compute := vm_compute; discriminate.

Lemma init_crash_detection_witness :
  exists w',
    SessionManager.init w_killed = (Ok tt, w')
    /\ Sessions (Db w') !! "20250318190000"
       = SessionRow.set_Status "CRASHED"
           <$> Sessions (Db w_killed) !! "20250318190000"
    /\ SessionRow.Status <$> Sessions (Db w') !! "20250318190000"
       = (fun _ => "CRASHED") <$> Sessions (Db w_killed) !! "20250318190000"
    /\ CrashSessionDir (Fs w') !! "20250318190000"
       = Some (match CrashSessionDir (Fs w_killed) !! "20250318190000" with
               | None => d_started
               | Some old =>
                   MkDir (state_json old)
                     (<["20250318190000" := d_started]> (subdirs old))
               end)
    /\ ActiveSessionDir (Fs w') !! "20250318190000" = None
    /\ LockFile (Fs w') = None.
Proof.
  apply (init_crash_detection w_killed "20250318190000" "20250318190000"
           d_started).
  - vm_compute. reflexivity.
  - vm_compute. reflexivity.
  - vm_compute. reflexivity.
  - intros old Hold. vm_compute in Hold. discriminate Hold.
Defined.

Lemma CompleteAction_overwrites_terminal_witness :
  ActionTracker.CancelAction env_example "uuid-1" w_completed
  = (Ok false, w_completed)
  /\ exists b w',
       ActionTracker.CompleteAction env_example "uuid-1"
         (JDict [("late", JBool true)]) "FAILED" w_completed = (Ok b, w')
       /\ Actions (Db w') !! "uuid-1"
          = Some (ActionRow.Mk "20250318190000" "BUILD" "2025-03-18T19:00:00.4"
                    (Some (isoformat (clock_at env_example (Ticks w_completed))))
                    "FAILED" (Some (JDict [("target", JStr "x")]))
                    (Some (JDict [("late", JBool true)]))).
Proof.
  apply (CompleteAction_overwrites_terminal env_example "uuid-1"
           (JDict [("late", JBool true)]) "FAILED" "20250318190000"
           w_completed r_completed).
  - vm_compute. reflexivity.
  - by_compute.
  - vm_compute. reflexivity.
  - by_compute.
Defined.



Lemma StartSession_ids_witness :
  (Sessions (Db w_empty) !! "20250318190000" = None
   /\ is_Some (Sessions (Db w_started) !! "20250318190000")
   /\ "20250318190000" = started_id env_example w_empty)
  /\ (SessionManager.StartSession env_later w_started
      = (Ok "20250318190001",
         snd (SessionManager.StartSession env_later w_started))
      /\ "20250318190000" <> "20250318190001")
  /\ (exists w',
        SessionManager.StartSession env_example w_started
        = (Raise (IntegrityError "UNIQUE constraint failed: Sessions.SessionId"),
           w')).
Proof.
  assert (H1 : SessionManager.StartSession env_example w_empty
               = (Ok "20250318190000", w_started))
    by (vm_compute; reflexivity).
  assert (H2 : SessionManager.StartSession env_later w_started
               = (Ok "20250318190001",
                  snd (SessionManager.StartSession env_later w_started)))
    by (vm_compute; reflexivity).
  split; [| split].
  - apply (proj1 (StartSession_ids env_example w_empty)
             "20250318190000" w_started H1).
  - split; [exact H2 |].
    apply (proj1 (proj2 (StartSession_ids env_example w_empty))
             "20250318190000" w_started env_later "20250318190001" _ H1 H2).
  - apply (proj2 (proj2 (StartSession_ids env_example w_started))).
    vm_compute. eauto.
Defined.

Lemma scan_guards_witness :
  (SessionManager.CheckForCrashedSessions
     (set_Fs (set_ActiveSessionDir (delete "20250318190000")) w_killed)
   = (Ok tt,
      set_Fs (set_LockFile None)
        (set_Fs (set_ActiveSessionDir (delete "20250318190000")) w_killed)))
  /\ (exists w',
        SessionManager.CheckForCrashedSessions w_killed_ending = (Ok tt, w')
        /\ CrashSessionDir (Fs w') !! strip "20250318190000" = Some d_started
        /\ ActiveSessionDir (Fs w') !! strip "20250318190000" = None
        /\ Sessions (Db w') !! strip "20250318190000"
           = SessionRow.set_Status "CRASHED"
               <$> Sessions (Db w_killed_ending) !! strip "20250318190000")
  /\ SessionManager.CheckForCrashedSessions w_recovered = (Ok tt, w_recovered).
Proof.
  split; [| split].
  - apply (proj1 (scan_guards _) "20250318190000"); vm_compute; reflexivity.
  - apply (proj1 (proj2 (scan_guards w_killed_ending)) "20250318190000" d_started);
      vm_compute; reflexivity.
  - apply (proj2 (proj2 (scan_guards w_killed))).
    vm_compute. reflexivity.
Defined.

Lemma GetPendingActions_filter_order_witness :
  exists L,
    ActionTracker.GetPendingActions (Some "20250318190000") w_recorded
    = (Ok L, w_recorded)
    /\ (forall p, p ∈ L <->
          exists r, Actions (Db w_recorded) !! PendingAction.ActionId p = Some r
                    /\ ActionRow.SessionId r = "20250318190000"
                    /\ ActionRow.Status r = "STARTED"
                    /\ p = ActionTracker.pending_of (PendingAction.ActionId p, r))
    /\ NoDup (PendingAction.ActionId <$> L)
    /\ StronglySorted by_StartTime L
    /\ (forall id r, Actions (Db w_recorded) !! id = Some r ->
          ActionRow.Status r <> "STARTED" ->
          id ∉ PendingAction.ActionId <$> L).
Proof.
  apply (GetPendingActions_filter_order "20250318190000" w_recorded).
  by_compute.
Defined.

Lemma ExecuteAction_no_session_witness :
  ActionTracker.RecordAction env_example "BUILD" None w_empty = (Ok None, w_empty)
  /\ ActionTracker.ExecuteAction env_example "BUILD" fn_seven None w_empty
     = (Ok (false, JDict [("Error", JStr "Failed to record action")], None),
        w_empty)
  /\ Invocations
       (snd (ActionTracker.ExecuteAction env_example "BUILD" fn_seven None w_empty))
     = Invocations w_empty.
Proof.
  apply (ExecuteAction_no_session env_example "BUILD" fn_seven None w_empty).
  reflexivity.
Defined.

Lemma EndSession_idempotent_safe_witness :
  SessionManager.EndSession env_example None w_empty = (Ok false, w_empty)
  /\ SessionManager.EndSession env_example None
       (snd (SessionManager.EndSession env_example (Some "done") w_started))
     = (Ok false,
        snd (SessionManager.EndSession env_example (Some "done") w_started)).
Proof.
  split.
  - apply (proj1 (proj2 (EndSession_idempotent_safe env_example None None
                           w_empty))).
    reflexivity.
  - apply (proj2 (proj2 (EndSession_idempotent_safe env_example (Some "done")
                           None w_started))).
    vm_compute. reflexivity.
Defined.

Lemma ResumeSession_not_found_witness :
  SessionManager.ResumeSession env_example "20250318190000" w_started
  = (Ok None, w_started).
Proof.
  apply (ResumeSession_not_found env_example "20250318190000" w_started).
  - reflexivity.
  - vm_compute. reflexivity.
Defined.

(** The scenario of a crash during an action: a session is started, an
    action BUILD is recorded, the process is killed; the next process
    detects the crash, resumes the session under a new id, finds the
    action pending under the old id, and completes it. *)
Example crash_during_action_scenario :
  let w1 := set_SessionId None w_recorded in
  let w2 := snd (SessionManager.init w1) in
  let w3 := snd (SessionManager.ResumeSession env_example "20250318190000" w2) in
  let w4 := snd (ActionTracker.CompleteAction env_example "uuid-1"
                   (JDict [("ok", JBool true)]) "COMPLETED" w3) in
  SessionRow.Status <$> Sessions (Db w2) !! "20250318190000" = Some "CRASHED"
  /\ fst (SessionManager.ResumeSession env_example "20250318190000" w2)
     = Ok (Some "20250318190000_resumed_20250318190000")
  /\ PendingAction.ActionId
       <$> match fst (ActionTracker.GetPendingActions (Some "20250318190000") w3)
           with Ok L => L | Raise _ => [] end
     = ["uuid-1"]
  /\ ActionRow.Status <$> Actions (Db w4) !! "uuid-1" = Some "COMPLETED"
  /\ ActionRow.Result <$> Actions (Db w4) !! "uuid-1"
     = Some (Some (JDict [("ok", JBool true)]))
  /\ fst (ActionTracker.GetPendingActions (Some "20250318190000") w4) = Ok [].
Proof. vm_compute. repeat split. Qed.
(** * The rest of the managers *)

(** ** Queries that order and limit *)

Section Listing.
Context {A : Type} (column : A -> string).

#[global] Instance newest_first_total : Total (newest_first column).
Proof. intros x y. unfold newest_first. apply String.leb_total. Qed.

#[global] Instance newest_first_trans : Transitive (newest_first column).
Proof.
  intros x y z Hxy Hyz. unfold newest_first in *.
  eapply String_leb_trans; eassumption.
Qed.

#[global] Instance oldest_first_total : Total (oldest_first column).
Proof. intros x y. unfold oldest_first. apply String.leb_total. Qed.

#[global] Instance oldest_first_trans : Transitive (oldest_first column).
Proof.
  intros x y z Hxy Hyz. unfold oldest_first in *.
  eapply String_leb_trans; eassumption.
Qed.

End Listing.

(** The rows a [SELECT ... ORDER BY ...] returns, with or without a
    [WHERE]. *)
Lemma select_order {A : Type} (m : gmap string A) (R : relation (string * A))
  `{!RelDecision R, !Total R, !Transitive R} :
  StronglySorted R (merge_sort R (map_to_list m))
  /\ NoDup (merge_sort R (map_to_list m)).*1
  /\ forall id r, (id, r) ∈ merge_sort R (map_to_list m) <-> m !! id = Some r.
Proof.
  split; [apply StronglySorted_merge_sort; apply _ |].
  split.
  - rewrite merge_sort_Permutation. apply NoDup_fst_map_to_list.
  - intros id r. rewrite merge_sort_Permutation.
    apply elem_of_map_to_list.
Qed.

Lemma select_where_order {A : Type} (m : gmap string A) (P : string * A -> Prop)
  `{!forall x, Decision (P x)} (R : relation (string * A))
  `{!RelDecision R, !Total R, !Transitive R} :
  StronglySorted R (merge_sort R (filter P (map_to_list m)))
  /\ NoDup (merge_sort R (filter P (map_to_list m))).*1
  /\ forall id r, (id, r) ∈ merge_sort R (filter P (map_to_list m))
                  <-> m !! id = Some r /\ P (id, r).
Proof.
  split; [apply StronglySorted_merge_sort; apply _ |].
  split.
  - rewrite merge_sort_Permutation.
    eapply NoDup_fmap_fst.
    + intros id r1 r2 H1 H2.
      apply list_elem_of_filter in H1 as [_ H1].
      apply list_elem_of_filter in H2 as [_ H2].
      apply elem_of_map_to_list in H1. apply elem_of_map_to_list in H2.
      congruence.
    + apply NoDup_filter, NoDup_map_to_list.
  - intros id r. rewrite merge_sort_Permutation.
    rewrite list_elem_of_filter, elem_of_map_to_list. tauto.
Qed.


(** What [LIMIT n] keeps of rows in order: a prefix, of the length asked for
    when there are that many rows, such that every row left out comes after
    every row kept. *)
Lemma sql_limit_prefix {B : Type} (R : relation B) (n : Z) (rows : list B) :
  StronglySorted R rows -> NoDup rows ->
  sql_limit n rows `prefix_of` rows
  /\ StronglySorted R (sql_limit n rows)
  /\ length (sql_limit n rows)
     = (if Z.ltb n 0 then length rows else Nat.min (Z.to_nat n) (length rows))
  /\ (forall x y, x ∈ sql_limit n rows -> y ∈ rows -> y ∉ sql_limit n rows ->
        R x y).
Proof.
  intros Hsorted Hnodup. unfold sql_limit.
  destruct (Z.ltb n 0).
  - repeat split; [reflexivity | assumption |].
    intros x y _ Hy Hny. contradiction.
  - split; [apply prefix_take |].
    rewrite <- (take_drop (Z.to_nat n) rows) in Hsorted.
    split; [eapply StronglySorted_app_1_l; eassumption |].
    split; [apply length_take |].
    intros x y Hx Hy Hny.
    eapply StronglySorted_app_1_elem_of; [exact Hsorted | exact Hx |].
    rewrite <- (take_drop (Z.to_nat n) rows) in Hy.
    apply elem_of_app in Hy as [Hy | Hy]; [contradiction | assumption].
Qed.

Lemma bind_int_in_range (n : Z) :
  (- 2 ^ 63 <= n < 2 ^ 63)%Z -> bind_int n = Ok n.
Proof.
  intros [H1 H2]. unfold bind_int.
  rewrite (proj2 (Z.leb_le _ _) H1), (proj2 (Z.ltb_lt _ _) H2). reflexivity.
Qed.

Lemma bind_int_overflow (n : Z) :
  (n < - 2 ^ 63 \/ 2 ^ 63 <= n)%Z -> exists e, bind_int n = Raise e.
Proof.
  intros H. unfold bind_int.
  destruct (Z.leb_spec (- 2 ^ 63) n), (Z.ltb_spec n (2 ^ 63)); simpl; eauto;
      lia.
Qed.

Lemma NoDup_fst (A B : Type) (l : list (A * B)) : NoDup l.*1 -> NoDup l.
Proof. apply NoDup_fmap_1. Qed.

Lemma NoDup_prefix {B : Type} (l1 l2 : list B) :
  l1 `prefix_of` l2 -> NoDup l2 -> NoDup l1.
Proof. intros [k ->] H. apply NoDup_app in H as [H _]. exact H. Qed.

Lemma elem_of_prefix {B : Type} (l1 l2 : list B) (x : B) :
  l1 `prefix_of` l2 -> x ∈ l1 -> x ∈ l2.
Proof. intros [k ->] H. apply elem_of_app. left. exact H. Qed.

(** ** Listings of sessions *)

(** X1. [GetCrashedSessions] changes nothing and returns exactly the rows
    of the store whose status is CRASHED, each once, the most recently
    started first. *)
Theorem GetCrashedSessions_lists (w : World) :
  exists L,
    SessionManager.GetCrashedSessions w = (Ok L, w)
    /\ (forall id r, (id, r) ∈ L <->
          Sessions (Db w) !! id = Some r /\ SessionRow.Status r = "CRASHED")
    /\ NoDup L.*1
    /\ StronglySorted (newest_first SessionRow.StartTime) L.
Proof.
  eexists. split; [reflexivity |].
  destruct (select_where_order (Sessions (Db w))
              (fun x => SessionRow.Status x.2 = "CRASHED")
              (newest_first SessionRow.StartTime)) as (Hs & Hn & Hm).
  split; [exact Hm |]. split; assumption.
Qed.

(** X2. With a limit that fits an SQLite integer, [GetSessionHistory]
    changes nothing and returns rows of the store, each at most once, the
    most recently started first: all of them when the limit is negative,
    else as many as the limit allows; and a session that is left out did not
    start later than any session listed.  With a limit that does not fit,
    the result is the empty list. *)
Theorem GetSessionHistory_recent (Limit : Z) (w : World) :
  ((- 2 ^ 63 <= Limit < 2 ^ 63)%Z ->
   exists L,
     SessionManager.GetSessionHistory Limit w = (Ok L, w)
     /\ (forall id r, (id, r) ∈ L -> Sessions (Db w) !! id = Some r)
     /\ NoDup L.*1
     /\ StronglySorted (newest_first SessionRow.StartTime) L
     /\ length L
        = (if Z.ltb Limit 0 then size (Sessions (Db w))
           else Nat.min (Z.to_nat Limit) (size (Sessions (Db w))))
     /\ (forall id r x,
           Sessions (Db w) !! id = Some r -> (id, r) ∉ L -> x ∈ L ->
           String.leb (SessionRow.StartTime r) (SessionRow.StartTime x.2) =
               true))
  /\ ((Limit < - 2 ^ 63 \/ 2 ^ 63 <= Limit)%Z ->
      SessionManager.GetSessionHistory Limit w = (Ok [], w)).
Proof.
  split.
  - intros Hrange.
    destruct (select_order (Sessions (Db w)) (newest_first
        SessionRow.StartTime))
      as (Hs & Hn & Hm).
    destruct (sql_limit_prefix (newest_first SessionRow.StartTime) Limit _ Hs
                (NoDup_fst _ _ _ Hn)) as (Hp & Hs' & Hlen & Hout).
    eexists. split.
    { unfold SessionManager.GetSessionHistory,
        DatabaseManager.ExecuteQuery_SessionHistory, try_except, bind, lift,
            gets.
      rewrite (bind_int_in_range _ Hrange). reflexivity. }
    split.
    { intros id r Hin. apply Hm. eapply elem_of_prefix; eassumption. }
    split.
    { destruct Hp as [k Hk]. rewrite Hk, fmap_app in Hn.
      apply NoDup_app in Hn as [Hn _]. exact Hn. }
    split; [exact Hs' |].
    split.
    { rewrite Hlen, !merge_sort_Permutation, !length_map_to_list. reflexivity. }
    intros id r x Hl Hnin Hx.
    apply (Hout x (id, r) Hx); [apply Hm; exact Hl | exact Hnin].
  - intros Hover. destruct (bind_int_overflow _ Hover) as [e He].
    unfold SessionManager.GetSessionHistory,
      DatabaseManager.ExecuteQuery_SessionHistory, try_except, bind, lift, gets.
    rewrite He. reflexivity.
Qed.

Lemma GetSessionHistory_recent_witness :
  (exists L,
     SessionManager.GetSessionHistory 1 w_recovered = (Ok L, w_recovered)
     /\ (forall id r, (id, r) ∈ L -> Sessions (Db w_recovered) !! id = Some r)
     /\ NoDup L.*1
     /\ StronglySorted (newest_first SessionRow.StartTime) L
     /\ length L
        = (if Z.ltb 1 0 then size (Sessions (Db w_recovered))
           else Nat.min (Z.to_nat 1) (size (Sessions (Db w_recovered))))
     /\ (forall id r x,
           Sessions (Db w_recovered) !! id = Some r -> (id, r) ∉ L -> x ∈ L ->
           String.leb (SessionRow.StartTime r) (SessionRow.StartTime x.2) =
               true))
  /\ SessionManager.GetSessionHistory (2 ^ 63) w_recovered = (Ok [],
      w_recovered).
Proof.
  split.
  - apply (proj1 (GetSessionHistory_recent 1 w_recovered)). lia.
  - apply (proj2 (GetSessionHistory_recent (2 ^ 63) w_recovered)). lia.
Defined.

(** ** Listings of actions and snapshots *)

Lemma limited_query {A : Type} (m : gmap string A) (P : string * A -> Prop)
  `{!forall x, Decision (P x)} (column : A -> string) (Limit : Z) :
  let L := sql_limit Limit
             (merge_sort (newest_first column) (filter P (map_to_list m))) in
  (forall id r, (id, r) ∈ L -> m !! id = Some r /\ P (id, r))
  /\ NoDup L.*1
  /\ StronglySorted (newest_first column) L
  /\ length L
     = (if Z.ltb Limit 0 then length (filter P (map_to_list m))
        else Nat.min (Z.to_nat Limit) (length (filter P (map_to_list m))))
  /\ (forall id r x,
        m !! id = Some r -> P (id, r) -> (id, r) ∉ L -> x ∈ L ->
        String.leb (column r) (column x.2) = true).
Proof.
  intros L. subst L.
  destruct (select_where_order m P (newest_first column)) as (Hs & Hn & Hm).
  destruct (sql_limit_prefix (newest_first column) Limit _ Hs
              (NoDup_fst _ _ _ Hn)) as (Hp & Hs' & Hlen & Hout).
  split.
  { intros id r Hin. apply Hm. eapply elem_of_prefix; eassumption. }
  split.
  { destruct Hp as [k Hk]. rewrite Hk, fmap_app in Hn.
    apply NoDup_app in Hn as [Hn _]. exact Hn. }
  split; [exact Hs' |].
  split.
  { rewrite Hlen, !merge_sort_Permutation. reflexivity. }
  intros id r x Hl HP Hnin Hx.
  apply (Hout x (id, r) Hx); [apply Hm; auto | exact Hnin].
Qed.

(** X3. With a limit that fits an SQLite integer, [GetSessionActions] and
    [GetActionsByType] change nothing and return the decoded rows of the
    actions of the session (of the type), each at most once, the most
    recently started first: all of them when the limit is negative, else as
    many as the limit allows; an action of the session (of the type) that is
    left out did not start later than any action listed. *)
Theorem action_listings_recent (sid ty : string) (Limit : Z) (w : World) :
  sid <> "" -> (- 2 ^ 63 <= Limit < 2 ^ 63)%Z ->
  (exists rows,
     ActionTracker.GetSessionActions (Some sid) Limit w
     = (Ok (ActionTracker.session_action_of <$> rows), w)
     /\ (forall id r, (id, r) ∈ rows ->
           Actions (Db w) !! id = Some r /\ ActionRow.SessionId r = sid)
     /\ NoDup rows.*1
     /\ StronglySorted (newest_first ActionRow.StartTime) rows
     /\ length rows
        = (if Z.ltb Limit 0
           then length (DatabaseManager.session_actions sid (Db w))
           else Nat.min (Z.to_nat Limit)
                  (length (DatabaseManager.session_actions sid (Db w))))
     /\ (forall id r x,
           Actions (Db w) !! id = Some r -> ActionRow.SessionId r = sid ->
           (id, r) ∉ rows -> x ∈ rows ->
           String.leb (ActionRow.StartTime r) (ActionRow.StartTime x.2) = true))
  /\ (exists rows,
        ActionTracker.GetActionsByType ty Limit w
        = (Ok (ActionTracker.action_of <$> rows), w)
        /\ (forall id r, (id, r) ∈ rows ->
              Actions (Db w) !! id = Some r /\ ActionRow.ActionType r = ty)
        /\ NoDup rows.*1
        /\ StronglySorted (newest_first ActionRow.StartTime) rows
        /\ (forall id r x,
              Actions (Db w) !! id = Some r -> ActionRow.ActionType r = ty ->
              (id, r) ∉ rows -> x ∈ rows ->
              String.leb (ActionRow.StartTime r) (ActionRow.StartTime x.2) =
                  true)).
Proof.
  intros Hsid Hrange. split.
  - destruct (limited_query (Actions (Db w))
                (fun x => ActionRow.SessionId x.2 = sid) ActionRow.StartTime
                    Limit)
      as (H1 & H2 & H3 & H4 & H5).
    eexists. split.
    { unfold ActionTracker.GetSessionActions,
        DatabaseManager.ExecuteQuery_SessionActions, try_except, bind, lift,
            gets.
      rewrite (str_truthy_nonempty sid Hsid). simpl.
      rewrite (bind_int_in_range _ Hrange). reflexivity. }
    split; [exact H1 |]. split; [exact H2 |]. split; [exact H3 |].
    split.
    { rewrite H4. unfold DatabaseManager.session_actions.
      rewrite !length_fmap. reflexivity. }
    intros id r x Hl Hs. apply H5; assumption.
  - destruct (limited_query (Actions (Db w))
                (fun x => ActionRow.ActionType x.2 = ty) ActionRow.StartTime
                    Limit)
      as (H1 & H2 & H3 & H4 & H5).
    eexists. split.
    { unfold ActionTracker.GetActionsByType,
        DatabaseManager.ExecuteQuery_ActionsByType, try_except, bind, lift,
            gets.
      rewrite (bind_int_in_range _ Hrange). reflexivity. }
    split; [exact H1 |]. split; [exact H2 |]. split; [exact H3 |].
    intros id r x Hl Hs. apply H5; assumption.
Qed.

(** X4. With a limit that fits an SQLite integer, [GetSessionStateSnapshots]
    changes nothing and lists snapshots of the session, each at most once,
    the most recent time stamp first; a snapshot of the session that is left
    out is not more recent than any snapshot listed, and with a negative
    limit none is left out. *)
Theorem GetSessionStateSnapshots_recent (sid : string) (Limit : Z) (w : World) :
  sid <> "" -> (- 2 ^ 63 <= Limit < 2 ^ 63)%Z ->
  exists L,
    SessionManager.GetSessionStateSnapshots (Some sid) Limit w = (Ok L, w)
    /\ (forall s, s ∈ L ->
          exists r, StateSnapshots (Db w) !! SnapshotInfo.SnapshotId s = Some r
                    /\ SnapshotRow.SessionId r = sid
                    /\ SnapshotInfo.SessionId s = sid
                    /\ SnapshotInfo.Timestamp s = SnapshotRow.Timestamp r)
    /\ NoDup (SnapshotInfo.SnapshotId <$> L)
    /\ StronglySorted
         (fun s t => String.leb (SnapshotInfo.Timestamp t)
                       (SnapshotInfo.Timestamp s) = true) L
    /\ (forall id r s,
          StateSnapshots (Db w) !! id = Some r -> SnapshotRow.SessionId r = sid
              ->
          id ∉ SnapshotInfo.SnapshotId <$> L -> s ∈ L ->
          String.leb (SnapshotRow.Timestamp r) (SnapshotInfo.Timestamp s) =
              true)
    /\ ((Limit < 0)%Z ->
        forall id r,
          StateSnapshots (Db w) !! id = Some r -> SnapshotRow.SessionId r = sid
              ->
          id ∈ SnapshotInfo.SnapshotId <$> L).
Proof.
  intros Hsid Hrange.
  pose proof (limited_query (StateSnapshots (Db w))
                (fun x => SnapshotRow.SessionId x.2 = sid)
                SnapshotRow.Timestamp Limit) as H.
  cbv zeta in H. destruct H as (H1 & H2 & H3 & H4 & H5).
  set (rows := sql_limit Limit _) in *.
  set (info := fun x : string * SnapshotRow.t =>
                 SnapshotInfo.Mk x.1 (SnapshotRow.SessionId x.2)
                   (SnapshotRow.Timestamp x.2)).
  assert (Hids : SnapshotInfo.SnapshotId <$> (info <$> rows) = rows.*1).
  { rewrite <- list_fmap_compose. apply list_fmap_ext. intros i [id r] _.
      reflexivity. }
  exists (info <$> rows). split.
  { unfold SessionManager.GetSessionStateSnapshots,
      DatabaseManager.ExecuteQuery_Snapshots, try_except, bind, lift, gets.
    rewrite (str_truthy_nonempty sid Hsid). simpl.
    rewrite (bind_int_in_range _ Hrange). reflexivity. }
  split.
  { intros s Hs. apply list_elem_of_fmap in Hs as ([id r] & -> & Hin).
    apply H1 in Hin as (Hl & Hsid'). simpl in *. eauto. }
  split; [rewrite Hids; exact H2 |].
  split.
  { eapply StronglySorted_fmap; [| exact H3]. intros x y Hxy. exact Hxy. }
  split.
  { intros id r s Hl Hs Hnin Hin.
    apply list_elem_of_fmap in Hin as (x & -> & Hin).
    apply (H5 id r x Hl Hs); [| exact Hin].
    intros Hin'. apply Hnin. rewrite Hids.
    apply list_elem_of_fmap. exists (id, r). auto. }
  intros Hneg id r Hl Hs. rewrite Hids.
  apply list_elem_of_fmap. exists (id, r). split; [reflexivity |].
  subst rows. unfold sql_limit.
  rewrite (proj2 (Z.ltb_lt _ _) Hneg).
  rewrite merge_sort_Permutation, list_elem_of_filter, elem_of_map_to_list.
      auto.
Qed.

(** ** Action statistics *)

Lemma counts_dict_from (Rows : list (string * nat)) (m0 : gmap string nat) :
  NoDup Rows.*1 ->
  foldl (fun Counts Row => <[Row.1 := Row.2]> Counts) m0 Rows
  = list_to_map Rows ∪ m0.
Proof.
  revert m0. induction Rows as [|[k n] Rows IH]; intros m0 Hnd; simpl.
  - rewrite (left_id_L ∅ (∪)). reflexivity.
  - apply NoDup_cons in Hnd as [Hk Hnd]. rewrite IH by assumption.
    rewrite <- insert_union_l, insert_union_r; [reflexivity |].
    apply not_elem_of_list_to_map_1. exact Hk.
Qed.

Lemma counts_dict_map_to_list (m : gmap string nat) :
  counts_dict (map_to_list m) = m.
Proof.
  unfold counts_dict. rewrite counts_dict_from by apply NoDup_fst_map_to_list.
  rewrite (right_id_L ∅ (∪)). apply list_to_map_to_list.
Qed.

Lemma count_by_lookup {A : Type} (column : A -> string) (rows : list A)
  (s : string) :
  count_by column rows !! s
  = match length (filter (fun r => column r = s) rows) with
    | 0 => None
    | S n => Some (S n)
    end.
Proof.
  induction rows as [|r rows IH]; simpl.
  - apply lookup_empty.
  - rewrite filter_cons. destruct (decide (column r = s)) as [-> | Hne].
    + rewrite lookup_insert_eq, IH. simpl.
      destruct (length _); reflexivity.
    + rewrite lookup_insert_ne by assumption. exact IH.
Qed.

Lemma sum_counts_insert (m : gmap string nat) (k : string) (n : nat) :
  m !! k = None -> sum_counts (<[k := n]> m) = n + sum_counts m.
Proof.
  intros H. unfold sum_counts.
  apply (map_fold_insert_L (fun _ n acc => n + acc)); [| exact H].
  intros. lia.
Qed.

Lemma count_by_sum {A : Type} (column : A -> string) (rows : list A) :
  sum_counts (count_by column rows) = length rows.
Proof.
  induction rows as [|r rows IH]; simpl.
  - reflexivity.
  - set (m := count_by column rows) in *.
    destruct (m !! column r) as [n|] eqn:E; simpl.
    + rewrite <- (insert_delete_eq m).
      rewrite sum_counts_insert by apply lookup_delete_eq.
      rewrite <- IH.
      rewrite <- (insert_delete_id m (column r) n E) at 2.
      rewrite sum_counts_insert by apply lookup_delete_eq. lia.
    + rewrite sum_counts_insert by assumption. lia.
Qed.

Lemma length_filter_snd {A : Type} (P1 : string * A -> Prop) (P2 : A -> Prop)
  `{!forall x, Decision (P1 x), !forall x, Decision (P2 x)}
  (l : list (string * A)) :
  length (filter P2 (filter P1 l).*2)
  = length (filter (fun x => P1 x /\ P2 x.2) l).
Proof.
  induction l as [|x l IH]; [reflexivity |].
  rewrite !filter_cons.
  destruct (decide (P1 x)) as [H1|H1].
  - rewrite fmap_cons, filter_cons.
    destruct (decide (P2 x.2)) as [H2|H2].
    + rewrite decide_True by auto. simpl. rewrite IH. reflexivity.
    + rewrite decide_False by tauto. exact IH.
  - rewrite decide_False by tauto. exact IH.
Qed.

(** X5. For a session id, [GetActionStats] changes nothing and returns
    counts that agree with the store and with each other: [TotalCount] is
    the number of actions of the session; [StatusCounts] and [TypeCounts]
    give, for each status and each type that occurs, the number of actions
    of the session that have it, and have no key for a status or type that
    does not occur; the counts of each dict add up to [TotalCount]; and the
    count of STARTED is the length of the list [GetPendingActions] returns
    for the session. *)
Theorem GetActionStats_consistent (sid : string) (w : World) :
  sid <> "" ->
  exists st,
    ActionTracker.GetActionStats (Some sid) w = (Ok (Some st), w)
    /\ ActionStats.TotalCount st
       = length (DatabaseManager.session_actions sid (Db w))
    /\ (forall s,
          default 0 (ActionStats.StatusCounts st !! s)
          = length (filter (fun r => ActionRow.Status r = s)
                      (DatabaseManager.session_actions sid (Db w))))
    /\ (forall ty,
          default 0 (ActionStats.TypeCounts st !! ty)
          = length (filter (fun r => ActionRow.ActionType r = ty)
                      (DatabaseManager.session_actions sid (Db w))))
    /\ (forall s, ActionStats.StatusCounts st !! s <> Some 0)
    /\ (forall ty, ActionStats.TypeCounts st !! ty <> Some 0)
    /\ sum_counts (ActionStats.StatusCounts st) = ActionStats.TotalCount st
    /\ sum_counts (ActionStats.TypeCounts st) = ActionStats.TotalCount st
    /\ (forall L,
          ActionTracker.GetPendingActions (Some sid) w = (Ok L, w) ->
          default 0 (ActionStats.StatusCounts st !! "STARTED") = length L).
Proof.
  intros Hsid. eexists. split.
  { unfold ActionTracker.GetActionStats, try_except, bind, gets, ret,
      DatabaseManager.ExecuteQuery_ActionCount,
      DatabaseManager.ExecuteQuery_StatusCounts,
      DatabaseManager.ExecuteQuery_TypeCounts.
    rewrite (str_truthy_nonempty sid Hsid). simpl.
    rewrite !counts_dict_map_to_list. reflexivity. }
  simpl. split; [reflexivity |].
  split. { intros s. rewrite count_by_lookup. destruct (length _); reflexivity.
      }
  split. { intros s. rewrite count_by_lookup. destruct (length _); reflexivity.
      }
  split. { intros s. rewrite count_by_lookup. destruct (length _);
      discriminate. }
  split. { intros s. rewrite count_by_lookup. destruct (length _);
      discriminate. }
  split; [apply count_by_sum |].
  split; [apply count_by_sum |].
  intros L HL.
  unfold ActionTracker.GetPendingActions, try_except, bind, gets, ret,
    DatabaseManager.ExecuteQuery_Pending in HL.
  rewrite (str_truthy_nonempty sid Hsid) in HL. simpl in HL.
  injection HL as <-.
  rewrite length_fmap, merge_sort_Permutation.
  rewrite count_by_lookup. unfold DatabaseManager.session_actions.
  rewrite (length_filter_snd (fun x => ActionRow.SessionId x.2 = sid)
             (fun r => ActionRow.Status r = "STARTED")).
  destruct (length _); reflexivity.
Qed.

(** ** A weakest-precondition calculus for the methods *)

Lemma wp_elim {A : Type} (m : M A) (Q : Outcome A -> World -> Prop) (w : World)
    :
  wp m Q w -> exists o w', m w = (o, w') /\ Q o w'.
Proof. unfold wp. destruct (m w) as [o w']. eauto. Qed.

Lemma wp_intro {A : Type} (m : M A) (Q : Outcome A -> World -> Prop)
  (w w' : World) (o : Outcome A) :
  m w = (o, w') -> Q o w' -> wp m Q w.
Proof. unfold wp. intros ->. auto. Qed.

Lemma wp_consequence {A : Type} (m : M A) (Q Q' : Outcome A -> World -> Prop)
  (w : World) :
  wp m Q w -> (forall o w', Q o w' -> Q' o w') -> wp m Q' w.
Proof. unfold wp. auto. Qed.

Lemma wp_ret {A : Type} (a : A) (Q : Outcome A -> World -> Prop) (w : World) :
  Q (Ok a) w -> wp (ret a) Q w.
Proof. auto. Qed.

Lemma wp_raise {A : Type} (e : Exn) (Q : Outcome A -> World -> Prop) (w :
    World) :
  Q (Raise e) w -> wp (raise e) Q w.
Proof. auto. Qed.

Lemma wp_lift {A : Type} (o : Outcome A) (Q : Outcome A -> World -> Prop)
  (w : World) :
  Q o w -> wp (lift o) Q w.
Proof. auto. Qed.

Lemma wp_gets {A : Type} (f : World -> A) (Q : Outcome A -> World -> Prop)
  (w : World) :
  Q (Ok (f w)) w -> wp (gets f) Q w.
Proof. auto. Qed.

Lemma wp_modify (f : World -> World) (Q : Outcome unit -> World -> Prop)
  (w : World) :
  Q (Ok tt) (f w) -> wp (modify f) Q w.
Proof. auto. Qed.

Lemma wp_bind {A B : Type} (m : M A) (k : A -> M B)
  (Q : Outcome B -> World -> Prop) (w : World) :
  wp m (fun o w1 => match o with
                    | Ok a => wp (k a) Q w1
                    | Raise e => Q (Raise e) w1
                    end) w ->
  wp (bind m k) Q w.
Proof. unfold wp, bind. destruct (m w) as [[a|e] w1]; auto. Qed.

Lemma wp_try_except {A : Type} (m : M A) (h : Exn -> M A)
  (Q : Outcome A -> World -> Prop) (w : World) :
  wp m (fun o w1 => match o with
                    | Ok a => Q (Ok a) w1
                    | Raise e => wp (h e) Q w1
                    end) w ->
  wp (try_except m h) Q w.
Proof. unfold wp, try_except. destruct (m w) as [[a|e] w1]; auto. Qed.

Lemma wp_assoc {A B C : Type} (m : M A) (f : A -> M B) (g : B -> M C)
  (Q : Outcome C -> World -> Prop) (w : World) :
  wp (bind (bind m f) g) Q w -> wp (bind m (fun x => bind (f x) g)) Q w.
Proof. unfold wp, bind. destruct (m w) as [[a|e] w1]; auto. Qed.

(** A method that never raises and keeps a relation [R]: whatever it
    returns, the world it leaves is [R]-related to the one it started in. *)
Lemma wp_frame {A : Type} (R : relation World) (m : M A)
  (Q : Outcome A -> World -> Prop) (w : World) :
  total m -> stable R m ->
  (forall a w1, R w w1 -> Q (Ok a) w1) ->
  wp m Q w.
Proof.
  intros Ht Hs HQ. unfold wp. specialize (Hs w).
  destruct (Ht w) as (a & w1 & E). rewrite E in *. apply HQ, Hs.
Qed.

(** A method that may raise and keeps a relation [R]. *)
Lemma wp_stable {A : Type} (R : relation World) (m : M A)
  (Q : Outcome A -> World -> Prop) (w : World) :
  stable R m -> (forall o w1, R w w1 -> Q o w1) -> wp m Q w.
Proof. intros Hs HQ. unfold wp. apply HQ, Hs. Qed.

Lemma wp_datetime_now (env : Env) (Q : Outcome Instant -> World -> Prop)
  (w : World) :
  Q (Ok (clock_at env (Ticks w))) (set_Ticks (S (Ticks w)) w) ->
  wp (datetime_now env) Q w.
Proof. auto. Qed.

Lemma wp_uuid4 (env : Env) (Q : Outcome string -> World -> Prop) (w : World) :
  Q (Ok (uuid_at env (Draws w))) (set_Draws (S (Draws w)) w) ->
  wp (uuid4 env) Q w.
Proof. auto. Qed.

Lemma wp_LoadSessionState (Q : Outcome JValue -> World -> Prop) (w : World) :
  (forall v, SessionManager.LoadSessionState w = (Ok v, w) -> Q (Ok v) w) ->
  wp SessionManager.LoadSessionState Q w.
Proof.
  intros H. destruct (LoadSessionState_value w) as (v & E).
  eapply wp_intro; [exact E | auto].
Qed.

Ltac wp_step :=
  first
    [ apply wp_ret
    | apply wp_gets
    | apply wp_lift
    | apply wp_modify
    | apply wp_datetime_now
    | apply wp_uuid4
    | apply wp_bind
    | apply wp_try_except ].

(** ** The action log without a current session *)

(** X6. With no current session the action log reports failure by a
    sentinel and changes nothing: [CompleteAction] and [CancelAction] return
    [False], [RetryAction] returns [None], and the queries that default to
    the current session return an empty result. *)
Theorem ActionTracker_no_session (env : Env) (ActionId Status : string)
  (Result : JValue) (Limit : Z) (w : World) :
  str_truthy (self_SessionId w) = false ->
  ActionTracker.CompleteAction env ActionId Result Status w = (Ok false, w)
  /\ ActionTracker.CancelAction env ActionId w = (Ok false, w)
  /\ ActionTracker.RetryAction env ActionId w = (Ok None, w)
  /\ ActionTracker.GetPendingActions None w = (Ok [], w)
  /\ ActionTracker.GetSessionActions None Limit w = (Ok [], w)
  /\ ActionTracker.GetActionStats None w = (Ok None, w).
Proof.
  intros H.
  unfold ActionTracker.CompleteAction, ActionTracker.CancelAction,
    ActionTracker.RetryAction, ActionTracker.GetPendingActions,
    ActionTracker.GetSessionActions, ActionTracker.GetActionStats,
    try_except, bind, gets, ret.
  rewrite H. simpl. repeat split.
Qed.

(** ** Recording and reading back *)

Lemma GetPendingActions_lists (sid id : string) (w : World) (r : ActionRow.t) :
  sid <> "" ->
  Actions (Db w) !! id = Some r ->
  ActionRow.SessionId r = sid -> ActionRow.Status r = "STARTED" ->
  exists L,
    ActionTracker.GetPendingActions (Some sid) w = (Ok L, w)
    /\ id ∈ PendingAction.ActionId <$> L.
Proof.
  intros Hsid Hrow Hs Hst.
  destruct (ExecuteQuery_Pending_rows sid w) as (rows & Hq & _ & _ & Hmem).
  exists (ActionTracker.pending_of <$> rows). split.
  - unfold ActionTracker.GetPendingActions.
    apply try_except_ok. unfold bind at 1, gets.
    rewrite (str_truthy_nonempty sid Hsid). simpl.
    rewrite (bind_ok _ _ _ _ _ Hq). reflexivity.
  - rewrite <- list_fmap_compose. apply list_elem_of_fmap.
    exists (id, r). split; [reflexivity |]. apply Hmem. auto.
Qed.

(** X7. With a session active, a fresh uuid and a state document of the
    shape the managers write, [RecordAction] returns the new id, and
    [GetActionById] then returns the action as recorded: it belongs to the
    current session, has the given type, the start time read from the clock,
    no end time, status STARTED and no result.  The parameters read back are
    the dict that was passed, except that an empty dict reads back as [None]
    (it is stored as NULL).  The action is in the list of pending actions of
    the session. *)
Theorem RecordAction_GetActionById (env : Env) (ActionType : string)
  (Params : option (list (string * JValue))) (sid : string) (w : World)
  (v : JValue) :
  self_SessionId w = Some sid -> sid <> "" ->
  is_Some (Sessions (Db w) !! sid) ->
  Actions (Db w) !! uuid_at env (Draws w) = None ->
  SessionManager.LoadSessionState w = (Ok v, w) ->
  mirror_well_formed v = true ->
  exists w' L,
    ActionTracker.RecordAction env ActionType Params w
    = (Ok (Some (uuid_at env (Draws w))), w')
    /\ ActionTracker.GetActionById (uuid_at env (Draws w)) w'
       = (Ok (Some (Action.Mk (uuid_at env (Draws w)) sid ActionType
                      (isoformat (clock_at env (Ticks w))) None "STARTED"
                      (match Params with
                       | Some (p :: d) => JDict (p :: d)
                       | _ => JNull
                       end)
                      JNull)), w')
    /\ ActionTracker.GetPendingActions (Some sid) w' = (Ok L, w')
    /\ uuid_at env (Draws w) ∈ PendingAction.ActionId <$> L.
Proof.
  intros Hsid Hne Hrow Hfresh Hload Hwf.
  destruct (RecordAction_store env ActionType Params sid w v Hsid Hne Hrow
      Hfresh
              Hload Hwf) as (w' & Hrec & Hact & _).
  assert (Hnew : Actions (Db w') !! uuid_at env (Draws w)
                 = Some (ActionRow.Mk sid ActionType
                           (isoformat (clock_at env (Ticks w))) None "STARTED"
                           (if truthy (params_value Params)
                            then Some (params_value Params) else None) None)).
  { rewrite Hact. apply lookup_insert_eq. }
  destruct (GetPendingActions_lists sid _ w' _ Hne Hnew eq_refl eq_refl)
    as (L & HL & Hin).
  exists w', L. split; [exact Hrec |]. split; [| split; assumption].
  rewrite (GetActionById_row _ _ _ Hnew). simpl.
  destruct Params as [[|p d]|]; reflexivity.
Qed.

(** ** Retrying an action *)

#[global] Instance extends_actions_preorder : PreOrder extends_actions.
Proof.
  split.
  - intros w. repeat split. reflexivity.
  - intros w1 w2 w3 (H1 & H2 & H3 & H4 & H5) (G1 & G2 & G3 & G4 & G5).
    repeat split; try congruence. etransitivity; eassumption.
Qed.

Lemma keeps_session_extends (w w' : World) :
  keeps_session w w' -> extends_actions w w'.
Proof.
  intros (H1 & H2 & H3 & H4 & H5). repeat split; try congruence.
  rewrite H3. reflexivity.
Qed.

Lemma stable_extends {A : Type} (m : M A) :
  stable keeps_session m -> stable extends_actions m.
Proof. intros H w. apply keeps_session_extends, H. Qed.

Lemma InsertWithId_action_extends (aid sid ty st status : string)
  (params : option JValue) :
  stable extends_actions
    (DatabaseManager.InsertWithId (IntoActions aid sid ty st status params)).
Proof.
  intros w. unfold DatabaseManager.InsertWithId, DatabaseManager.insert_row.
  case_bool_decide as Hd; [reflexivity |].
  case_bool_decide; [| reflexivity].
  simpl. repeat split. simpl. apply insert_subseteq.
  destruct (Actions (Db w) !! aid) eqn:E; [| reflexivity].
  exfalso. apply Hd. eauto.
Qed.

#[global] Hint Resolve InsertWithId_action_extends : stable.
#[global] Hint Extern 5 (stable extends_actions _) =>
  apply stable_extends; solve [auto with stable] : stable.

Lemma RecordAction_extends (env : Env) (ActionType : string)
  (Params : option (list (string * JValue))) :
  stable extends_actions (ActionTracker.RecordAction env ActionType Params).
Proof. unfold ActionTracker.RecordAction. stable_steps. Qed.

Lemma GetActionById_pure (ActionId : string) (w : World) :
  (ActionTracker.GetActionById ActionId w).2 = w.
Proof.
  unfold ActionTracker.GetActionById, try_except, bind,
    DatabaseManager.ExecuteQuery_ById, gets, ret.
  repeat case_match; simplify_eq; reflexivity.
Qed.

Lemma GetActionById_extends (ActionId : string) :
  stable extends_actions (ActionTracker.GetActionById ActionId).
Proof. intros w. rewrite GetActionById_pure. reflexivity. Qed.

#[global] Hint Resolve RecordAction_extends GetActionById_extends : stable.

Lemma RetryAction_extends (env : Env) (ActionId : string) :
  stable extends_actions (ActionTracker.RetryAction env ActionId).
Proof. unfold ActionTracker.RetryAction. stable_steps. Qed.

Lemma dict_set_truthy (k : string) (x : JValue) (d : list (string * JValue)) :
  truthy (JDict (dict_set k x d)) = true.
Proof. destruct d as [|[k' v'] d]; simpl; [| case_decide]; reflexivity. Qed.

(** X8. With a session active, a fresh uuid and a state document of the
    shape the managers write, [RetryAction] of an action whose parameters
    are a dict or empty returns the id of a new action: a row of the current
    session with the type of the original, status STARTED, and the
    parameters of the original with ["RetryOf"] set to the id of the
    original.  The original row, and every other row, is as it was. *)
Theorem RetryAction_new_action (env : Env) (ActionId sid : string) (w : World)
  (r : ActionRow.t) (v : JValue) :
  self_SessionId w = Some sid -> sid <> "" ->
  is_Some (Sessions (Db w) !! sid) ->
  Actions (Db w) !! ActionId = Some r ->
  (truthy (decode_cell (ActionRow.Params r)) = true ->
   exists d, ActionRow.Params r = Some (JDict d)) ->
  Actions (Db w) !! uuid_at env (Draws w) = None ->
  SessionManager.LoadSessionState w = (Ok v, w) ->
  mirror_well_formed v = true ->
  exists w',
    ActionTracker.RetryAction env ActionId w
    = (Ok (Some (uuid_at env (Draws w))), w')
    /\ Actions (Db w') !! uuid_at env (Draws w)
       = Some (ActionRow.Mk sid (ActionRow.ActionType r)
                 (isoformat (clock_at env (Ticks w))) None "STARTED"
                 (Some (JDict (dict_set "RetryOf" (JStr ActionId)
                                 (match ActionRow.Params r with
                                  | Some (JDict d) => d
                                  | _ => []
                                  end))))
                 None)
    /\ Actions (Db w') !! ActionId = Some r
    /\ (forall id, id <> uuid_at env (Draws w) ->
          Actions (Db w') !! id = Actions (Db w) !! id).
Proof.
  intros Hsid Hne Hrow Horig Hparams Hfresh Hload Hwf.
  set (d0 := match ActionRow.Params r with Some (JDict d) => d | _ => [] end).
  assert (Hp : (if truthy (decode_cell (ActionRow.Params r))
                then retry_params (decode_cell (ActionRow.Params r)) ActionId
                else Ok [("RetryOf", JStr ActionId)])
               = Ok (dict_set "RetryOf" (JStr ActionId) d0)).
  { subst d0. destruct (truthy (decode_cell (ActionRow.Params r))) eqn:Ht.
    - destruct (Hparams eq_refl) as (d & Hd). rewrite Hd. reflexivity.
    - destruct (ActionRow.Params r) as [[]|]; try reflexivity; simpl in Ht;
        try discriminate.
      destruct d; [reflexivity | discriminate]. }
  destruct (RecordAction_store env (ActionRow.ActionType r)
              (Some (dict_set "RetryOf" (JStr ActionId) d0)) sid w v Hsid Hne
              Hrow Hfresh Hload Hwf) as (w1 & Hrec & Hact & Hses & Hsid1 &
                  Hinv).
  simpl params_value in Hact. rewrite dict_set_truthy in Hact.
  unfold ActionTracker.RetryAction.
  match goal with
  | |- exists w', try_except ?body _ w = _ /\ ?Q =>
      cut (exists w', body w = (Ok (Some (uuid_at env (Draws w))), w') /\ Q)
  end.
  { intros (w' & Hb & HQ). exists w'. split; [| exact HQ].
    apply try_except_ok. exact Hb. }
  rewrite (bind_ok _ _ w w (Some sid)) by (unfold gets; rewrite Hsid;
      reflexivity).
  rewrite (str_truthy_nonempty sid Hne). cbv beta iota delta [negb].
  rewrite (bind_ok _ _ _ _ _ (GetActionById_row _ _ _ Horig)).
  cbv beta iota. simpl Action.Params. simpl Action.ActionType.
  rewrite Hp. eval_step (lift _).
  rewrite (bind_ok _ _ _ _ _ Hrec).
  match goal with
  | |- context [bind ?m _ w1] =>
      destruct (LogToDatabase_total env "INFO" "ActionTracker"
                  ("Action " +:+ ActionId +:+ " retried as "
                   +:+ default "None" (Some (uuid_at env (Draws w))))
                  (Some sid) None w1) as ([] & w2 & Hlog);
      pose proof (LogToDatabase_keeps_session env "INFO" "ActionTracker"
                    ("Action " +:+ ActionId +:+ " retried as "
                     +:+ default "None" (Some (uuid_at env (Draws w))))
                    (Some sid) None w1) as K
  end.
  rewrite Hlog in K. destruct K as (_ & _ & K3 & _).
  rewrite (bind_ok _ _ _ _ _ Hlog). unfold ret.
  exists w2. split; [reflexivity |]. simpl in K3. rewrite K3, Hact.
  split; [apply lookup_insert_eq |].
  split.
  - rewrite lookup_insert_ne; [exact Horig |]. congruence.
  - intros id Hid. rewrite lookup_insert_ne by congruence. reflexivity.
Qed.

(** X9. [RetryAction] of an id that is not in the store returns [None] and
    changes nothing; and whatever its argument and whatever it returns,
    [RetryAction] changes neither the current session nor any session row,
    and every action row that was in the store is still there unchanged. *)
Theorem RetryAction_keeps_rows (env : Env) (ActionId : string) (w : World) :
  (Actions (Db w) !! ActionId = None ->
   ActionTracker.RetryAction env ActionId w = (Ok None, w))
  /\ self_SessionId (ActionTracker.RetryAction env ActionId w).2
     = self_SessionId w
  /\ Sessions (Db (ActionTracker.RetryAction env ActionId w).2)
     = Sessions (Db w)
  /\ (forall id r,
        Actions (Db w) !! id = Some r ->
        Actions (Db (ActionTracker.RetryAction env ActionId w).2) !! id
        = Some r).
Proof.
  split.
  - intros Hnone.
    unfold ActionTracker.RetryAction, ActionTracker.GetActionById,
      DatabaseManager.ExecuteQuery_ById, try_except, bind, gets, ret.
    destruct (str_truthy (self_SessionId w)); simpl; rewrite ?Hnone;
        reflexivity.
  - destruct (RetryAction_extends env ActionId w) as (H1 & H2 & H3 & _).
    split; [exact H1 |]. split; [exact H2 |].
    intros id r. apply (proj1 (map_subseteq_spec _ _) H3).
Qed.

(** ** Terminal calls and the mirror of the actions *)

Lemma patch_actions_ok (l : list JValue) (ActionId EndTime Status : string)
  (Result : JValue) :
  forallb mirror_entry_well_formed l = true ->
  exists l', ActionTracker.patch_actions l ActionId EndTime Status Result = Ok
      l'.
Proof.
  induction l as [|a l IH]; simpl; [eauto |].
  intros H. apply andb_true_iff in H as [Ha Hl].
  destruct a as [| | | | |e]; try discriminate. simpl in Ha.
  apply bool_decide_eq_true_1 in Ha as [x Hx].
  simpl. rewrite Hx. simpl.
  destruct (py_eq_str x ActionId); simpl; [eauto |].
  destruct (IH Hl) as (l' & ->). simpl. eauto.
Qed.

Lemma mirror_patch_ok (d : list (string * JValue))
  (ActionId EndTime Status : string) (Result : JValue) :
  mirror_entries_well_formed (JDict d) = true ->
  is_Some (dict_get "Actions" d) ->
  exists State',
    ActionTracker.mirror_patch (JDict d) ActionId EndTime Status Result
    = Ok State'.
Proof.
  intros Hwf [actions Ha]. unfold ActionTracker.mirror_patch. simpl in *.
  rewrite Ha in *. simpl.
  destruct actions as [| | | |l|]; try discriminate.
  destruct (patch_actions_ok l ActionId EndTime Status Result Hwf) as (l' & ->).
  simpl. eauto.
Qed.

(** The part that [CompleteAction] and [CancelAction] share: for a state of
    the shape [RecordAction] writes it does not raise, and it keeps the
    session and the rows. *)
Lemma wp_patch_mirror (env : Env) (v : JValue)
  (ActionId EndTime Status : string) (Result : JValue)
  (Q : Outcome unit -> World -> Prop) (w : World) :
  mirror_entries_well_formed v = true ->
  (forall w1, keeps_session w w1 -> Q (Ok tt) w1) ->
  wp (do present <- (if truthy v
                     then lift (py_contains "Actions" v) else ret false);
      if present
      then
        do State <- lift (ActionTracker.mirror_patch v ActionId EndTime
                            Status Result);
        do _ <- SessionManager.SaveSessionState env State;
        ret tt
      else ret tt) Q w.
Proof.
  intros Hwf HQ.
  destruct (truthy v) eqn:Ht.
  - destruct v as [| | | | |d];
      try (unfold mirror_entries_well_formed in Hwf; rewrite Ht in Hwf;
           discriminate).
    apply wp_bind, wp_lift. simpl py_contains. cbv beta iota.
    case_bool_decide as Hc.
    + destruct (mirror_patch_ok d ActionId EndTime Status Result Hwf Hc)
        as (State' & ->).
      apply wp_bind, wp_lift. cbv beta iota.
      apply wp_bind.
      apply (wp_frame keeps_session);
        [apply SaveSessionState_total | apply SaveSessionState_keeps_session |].
      intros b w1 K. apply wp_ret. auto.
    + apply wp_ret. apply HQ. reflexivity.
  - apply wp_bind, wp_ret. cbv beta iota. apply wp_ret. apply HQ. reflexivity.
Qed.

(** X10. With a session active and a state document of the shape
    [RecordAction] writes, [CancelAction] of an action whose stored status
    is STARTED returns [True] and leaves the row with status CANCELED, the
    end time read from the clock and the fixed reason as its result; the
    other columns and the other rows are as before.  A second [CancelAction]
    of the same action returns [False] and changes nothing. *)
Theorem CancelAction_once (env : Env) (ActionId sid : string) (w : World)
  (r : ActionRow.t) (v : JValue) :
  self_SessionId w = Some sid -> sid <> "" ->
  Actions (Db w) !! ActionId = Some r ->
  ActionRow.Status r = "STARTED" ->
  SessionManager.LoadSessionState w = (Ok v, w) ->
  mirror_entries_well_formed v = true ->
  exists w',
    ActionTracker.CancelAction env ActionId w = (Ok true, w')
    /\ Actions (Db w')
       = <[ActionId :=
             ActionRow.Mk (ActionRow.SessionId r) (ActionRow.ActionType r)
               (ActionRow.StartTime r)
               (Some (isoformat (clock_at env (Ticks w)))) "CANCELED"
               (ActionRow.Params r)
               (Some (JDict [("Reason", JStr "Canceled by user")]))]>
           (Actions (Db w))
    /\ ActionTracker.CancelAction env ActionId w' = (Ok false, w').
Proof.
  intros Hsid Hne Hrow Hst Hload Hwf.
  set (row' := ActionRow.Mk (ActionRow.SessionId r) (ActionRow.ActionType r)
                 (ActionRow.StartTime r)
                 (Some (isoformat (clock_at env (Ticks w)))) "CANCELED"
                 (ActionRow.Params r)
                 (Some (JDict [("Reason", JStr "Canceled by user")]))).
  cut (wp (ActionTracker.CancelAction env ActionId)
         (fun o w' => o = Ok true
                      /\ Actions (Db w') = <[ActionId := row']> (Actions (Db
                          w)))
         w).
  { intros H. apply wp_elim in H as (o & w' & E & -> & Hact).
    exists w'. split; [exact E |]. split; [exact Hact |].
    apply CancelAction_rejects. intros r' Hr'.
    rewrite Hact, lookup_insert_eq in Hr'. injection Hr' as <-. discriminate. }
  unfold ActionTracker.CancelAction.
  apply wp_try_except, wp_bind, wp_gets. cbv beta iota.
  rewrite Hsid, (str_truthy_nonempty sid Hne). cbv beta iota delta [negb].
  apply wp_bind. unfold DatabaseManager.ExecuteQuery_Status. apply wp_gets.
  rewrite Hrow. cbv beta iota. rewrite Hst, String.eqb_refl.
  cbv beta iota delta [negb].
  apply wp_bind, wp_datetime_now. cbv beta iota.
  apply wp_bind. eapply wp_intro; [reflexivity |]. cbv beta iota.
  apply wp_bind, wp_LoadSessionState. intros v' Hv'.
  erewrite (LoadSessionState_same w) in Hv'; [| reflexivity | reflexivity |
      exact Hload].
  injection Hv' as <-. cbv beta iota.
  apply wp_assoc.
  apply wp_bind, wp_patch_mirror; [exact Hwf |].
  intros w1 K1. cbv beta iota.
  apply wp_bind.
  apply (wp_frame keeps_session);
    [apply LogToDatabase_total | apply LogToDatabase_keeps_session |].
  intros [] w2 K2. apply wp_ret.
  split; [reflexivity |].
  destruct K1 as (_ & _ & K1 & _), K2 as (_ & _ & K2 & _).
  rewrite K2, K1. simpl.
  apply map_eq. intros i. destruct (decide (i = ActionId)) as [-> | Hi].
  - rewrite lookup_alter_eq, lookup_insert_eq, Hrow. reflexivity.
  - rewrite lookup_alter_ne, lookup_insert_ne by congruence. reflexivity.
Qed.

(** X11. [CompleteAction] does not look at the number of rows its UPDATE
    matched: with a session active and a state document of the shape
    [RecordAction] writes, a call for an id that no row has returns [True],
    and the store has no more and no other action rows than before. *)
Theorem CompleteAction_unknown_id (env : Env) (ActionId Status sid : string)
  (Result : JValue) (w : World) (v : JValue) :
  self_SessionId w = Some sid -> sid <> "" ->
  Actions (Db w) !! ActionId = None ->
  SessionManager.LoadSessionState w = (Ok v, w) ->
  mirror_entries_well_formed v = true ->
  exists w',
    ActionTracker.CompleteAction env ActionId Result Status w = (Ok true, w')
    /\ Actions (Db w') = Actions (Db w)
    /\ ActionTracker.GetActionById ActionId w' = (Ok None, w').
Proof.
  intros Hsid Hne Hrow Hload Hwf.
  cut (wp (ActionTracker.CompleteAction env ActionId Result Status)
         (fun o w' => o = Ok true /\ Actions (Db w') = Actions (Db w)) w).
  { intros H. apply wp_elim in H as (o & w' & E & -> & Hact).
    exists w'. split; [exact E |]. split; [exact Hact |].
    unfold ActionTracker.GetActionById, DatabaseManager.ExecuteQuery_ById,
      try_except, bind, gets, ret.
    rewrite Hact, Hrow. reflexivity. }
  unfold ActionTracker.CompleteAction.
  apply wp_try_except, wp_bind, wp_gets. cbv beta iota.
  rewrite Hsid, (str_truthy_nonempty sid Hne). cbv beta iota delta [negb].
  apply wp_bind, wp_datetime_now. cbv beta iota.
  apply wp_bind. eapply wp_intro; [reflexivity |]. cbv beta iota.
  apply wp_bind. eapply wp_intro; [reflexivity |]. cbv beta iota.
  apply wp_bind, wp_LoadSessionState. intros v' Hv'.
  erewrite (LoadSessionState_same w) in Hv'; [| reflexivity | reflexivity |
      exact Hload].
  injection Hv' as <-. cbv beta iota.
  apply wp_assoc.
  apply wp_bind, wp_patch_mirror; [exact Hwf |].
  intros w1 K1. cbv beta iota.
  apply wp_bind.
  apply (wp_frame keeps_session);
    [apply LogToDatabase_total | apply LogToDatabase_keeps_session |].
  intros [] w2 K2. apply wp_ret.
  split; [reflexivity |].
  destruct K1 as (_ & _ & K1 & _), K2 as (_ & _ & K2 & _).
  rewrite K2, K1. simpl.
  apply map_eq. intros i. destruct (decide (i = ActionId)) as [-> | Hi].
  - rewrite lookup_alter_eq, Hrow. reflexivity.
  - rewrite lookup_alter_ne by congruence. reflexivity.
Qed.

Lemma dict_get_set_ne (k k' : string) (x : JValue) (d : list (string * JValue))
    :
  k <> k' -> dict_get k (dict_set k' x d) = dict_get k d.
Proof.
  intros Hne. induction d as [|[k0 v0] d IH]; simpl.
  - rewrite decide_False by assumption. reflexivity.
  - destruct (decide (k' = k0)) as [-> | H0]; simpl.
    + rewrite !decide_False by assumption. reflexivity.
    + destruct (decide (k = k0)); [reflexivity | exact IH].
Qed.

Lemma mirror_append_dict (d : list (string * JValue)) (Action : JValue) :
  mirror_well_formed (JDict d) = true ->
  exists d',
    ActionTracker.mirror_append (JDict d) Action = Ok (JDict d')
    /\ dict_get "Actions" d'
       = Some (JList (match dict_get "Actions" d with
                      | Some (JList l) => l
                      | _ => []
                      end ++ [Action]))
    /\ forall k, k <> "Actions" -> dict_get k d' = dict_get k d.
Proof.
  intros Hwf. unfold ActionTracker.mirror_append. simpl in *.
  destruct (dict_get "Actions" d) as [actions|] eqn:E.
  - destruct actions as [| | | |l|]; try discriminate.
    rewrite bool_decide_eq_true_2 by eauto. simpl. rewrite E. simpl.
    eexists. split; [reflexivity |].
    split; [apply dict_get_set_eq |].
    intros k Hk. apply dict_get_set_ne. exact Hk.
  - rewrite bool_decide_eq_false_2 by (intros [x Hx]; discriminate Hx).
    simpl. rewrite dict_get_set_eq. simpl.
    eexists. split; [reflexivity |].
    split; [apply dict_get_set_eq |].
    intros k Hk. rewrite !dict_get_set_ne by exact Hk. reflexivity.
Qed.

(** X12. With a session active, a fresh uuid and a state file that holds a
    non-empty dict whose ["Actions"] entry, if any, is a list,
    [RecordAction] returns the new id and rewrites the state file: the new
    document has the description of the action appended to the ["Actions"]
    list (which starts empty when the entry was missing), a new
    ["LastModified"], and every other entry as before. *)
Theorem RecordAction_mirror (env : Env) (ActionType : string)
  (Params : option (list (string * JValue))) (sid : string) (w : World)
  (d : list (string * JValue)) :
  self_SessionId w = Some sid -> sid <> "" ->
  is_Some (Sessions (Db w) !! sid) ->
  Actions (Db w) !! uuid_at env (Draws w) = None ->
  state_file Active sid w = Some (JsonDoc (JDict d)) -> d <> [] ->
  mirror_well_formed (JDict d) = true ->
  exists w' d',
    ActionTracker.RecordAction env ActionType Params w
    = (Ok (Some (uuid_at env (Draws w))), w')
    /\ SessionManager.LoadSessionState w' = (Ok (JDict d'), w')
    /\ dict_get "Actions" d'
       = Some (JList
                 (match dict_get "Actions" d with
                  | Some (JList l) => l
                  | _ => []
                  end
                  ++ [JDict [("ActionId", JStr (uuid_at env (Draws w)));
                             ("ActionType", JStr ActionType);
                             ("StartTime",
                              JStr (isoformat (clock_at env (Ticks w))));
                             ("Status", JStr "STARTED");
                             ("Params", params_value Params);
                             ("Result", JNull)]]))
    /\ dict_get "LastModified" d'
       = Some (JStr (isoformat (clock_at env (S (Ticks w)))))
    /\ (forall k, k <> "Actions" -> k <> "LastModified" ->
          dict_get k d' = dict_get k d).
Proof.
  intros Hsid Hne Hrow Hfresh Hfile Hd Hwf.
  set (entry := JDict [("ActionId", JStr (uuid_at env (Draws w)));
                       ("ActionType", JStr ActionType);
                       ("StartTime", JStr (isoformat (clock_at env (Ticks w))));
                       ("Status", JStr "STARTED");
                       ("Params", params_value Params);
                       ("Result", JNull)]).
  destruct (mirror_append_dict d entry Hwf) as (d1 & Happ & Hactions & Hother).
  set (d' := dict_set "LastModified"
               (JStr (isoformat (clock_at env (S (Ticks w))))) d1).
  cut (wp (ActionTracker.RecordAction env ActionType Params)
         (fun o w' => o = Ok (Some (uuid_at env (Draws w)))
                      /\ self_SessionId w' = Some sid
                      /\ state_file Active sid w' = Some (JsonDoc (JDict d')))
         w).
  { intros H. apply wp_elim in H as (o & w' & E & -> & Hsid' & Hfile').
    exists w', d'. split; [exact E |].
    split; [apply (LoadSessionState_reads w' sid); assumption |].
    subst d'. split.
    { rewrite dict_get_set_ne by discriminate. exact Hactions. }
    split; [apply dict_get_set_eq |].
    intros k Hk1 Hk2. rewrite dict_get_set_ne by exact Hk2. apply Hother, Hk1. }
  unfold ActionTracker.RecordAction.
  apply wp_try_except, wp_bind, wp_gets. cbv beta iota.
  rewrite Hsid, (str_truthy_nonempty sid Hne). cbv beta iota delta [negb].
  apply wp_bind, wp_uuid4. cbv beta iota.
  apply wp_bind, wp_datetime_now. cbv beta iota.
  apply wp_bind. eapply wp_intro.
  { unfold DatabaseManager.InsertWithId, DatabaseManager.insert_row. simpl.
    rewrite Hfresh.
    rewrite (bool_decide_eq_false_2 (is_Some None))
      by (intros [x Hx]; discriminate Hx).
    rewrite bool_decide_eq_true_2 by assumption. reflexivity. }
  cbv beta iota.
  apply wp_bind, wp_LoadSessionState. intros v' Hv'.
  erewrite (LoadSessionState_reads _ sid (JDict d)) in Hv';
    [| exact Hsid | exact Hne | exact Hfile].
  injection Hv' as <-. cbv beta iota.
  replace (truthy (JDict d)) with true by (destruct d; [congruence |
      reflexivity]).
  apply wp_bind, wp_bind, wp_lift.
  change (Ticks (set_Draws (S (Draws w)) w)) with (Ticks w).
  fold entry. rewrite Happ. cbv beta iota.
  apply wp_bind.
  match goal with
  | |- wp _ _ ?w2 =>
      destruct (SaveSessionState_writes env d1 sid w2) as (b & w3 & Hsave & Hf3
          & Hs3 & _);
      [exact Hsid | exact Hne | |]
  end.
  { unfold state_file in Hfile. simpl in *.
    destruct (ActiveSessionDir (Fs w) !! sid); [eauto | discriminate]. }
  eapply wp_intro; [exact Hsave |]. cbv beta iota.
  apply wp_ret, wp_bind.
  match goal with
  | |- wp (DatabaseManager.LogToDatabase ?e ?l ?c ?m ?s ?a) _ _ =>
      destruct (LogToDatabase_files e l c m s a w3) as (w4 & Hlog & Hf4 & Hs4 &
          _)
  end.
  eapply wp_intro; [exact Hlog |]. cbv beta iota.
  apply wp_ret. split; [reflexivity |].
  split; [congruence |].
  unfold state_file in *. rewrite Hf4. exact Hf3.
Qed.

(** ** Saving and loading the session state *)

(** X13. With a session current whose directory is under the active
    partition and whose row is in the store, and a fresh uuid,
    [SaveSessionState] of a dict returns [True]; afterwards
    [LoadSessionState] returns that dict with ["LastModified"] set to the
    time read from the clock, the store has exactly one more snapshot, and
    [GetSessionStateSnapshot] of the new snapshot id returns the same
    document with the session id and that time stamp. *)
Theorem SaveSessionState_round_trip (env : Env) (d : list (string * JValue))
  (id : string) (w : World) :
  self_SessionId w = Some id -> id <> "" ->
  is_Some (ActiveSessionDir (Fs w) !! id) ->
  is_Some (Sessions (Db w) !! id) ->
  StateSnapshots (Db w) !! uuid_at env (Draws w) = None ->
  exists w',
    SessionManager.SaveSessionState env (JDict d) w = (Ok true, w')
    /\ SessionManager.LoadSessionState w'
       = (Ok (JDict (dict_set "LastModified"
                       (JStr (isoformat (clock_at env (Ticks w)))) d)), w')
    /\ StateSnapshots (Db w')
       = <[uuid_at env (Draws w) :=
             SnapshotRow.Mk id (isoformat (clock_at env (Ticks w)))
               (JDict (dict_set "LastModified"
                         (JStr (isoformat (clock_at env (Ticks w)))) d))]>
           (StateSnapshots (Db w))
    /\ SessionManager.GetSessionStateSnapshot (uuid_at env (Draws w)) w'
       = (Ok (Some (Snapshot.Mk (uuid_at env (Draws w)) id
                      (isoformat (clock_at env (Ticks w)))
                      (JDict (dict_set "LastModified"
                                (JStr (isoformat (clock_at env (Ticks w))))
                                    d)))),
          w').
Proof.
  intros Hs Hne [dir Hdir] Hrow Hfresh.
  eexists. split.
  { unfold SessionManager.SaveSessionState, try_except.
    rewrite (bind_ok _ _ w w (Some id)) by (unfold gets; rewrite Hs;
        reflexivity).
    rewrite (str_truthy_nonempty id Hne). cbv beta iota delta [negb].
    eval_step (datetime_now env).
    cbn [py_setitem]. eval_step (lift _).
    erewrite (bind_ok (write_state_file _ _ _)).
    2:{ unfold write_state_file. simpl. rewrite Hdir. reflexivity. }
    eval_step (uuid4 env).
    erewrite (bind_ok (DatabaseManager.InsertWithId _)).
    2:{ unfold DatabaseManager.InsertWithId, DatabaseManager.insert_row. simpl.
        rewrite Hfresh.
        rewrite (bool_decide_eq_false_2 (is_Some None))
          by (intros [x Hx]; discriminate Hx).
        rewrite bool_decide_eq_true_2 by assumption. reflexivity. }
    reflexivity. }
  split.
  { apply (LoadSessionState_reads _ id); [exact Hs | exact Hne |].
    unfold state_file. simpl. rewrite lookup_insert_eq. reflexivity. }
  split; [reflexivity |].
  unfold SessionManager.GetSessionStateSnapshot,
    DatabaseManager.ExecuteQuery_SnapshotById, try_except, bind, gets, ret.
  simpl. rewrite lookup_insert_eq. reflexivity.
Qed.

(** X14. [SaveSessionState] returns [False] and leaves the files and the
    store as they are when there is no current session (then nothing at all
    changes), when the state is not a dict, and when the directory of the
    current session is not under the active partition. *)
Theorem SaveSessionState_refuses (env : Env) (State : JValue) (w : World) :
  (str_truthy (self_SessionId w) = false ->
   SessionManager.SaveSessionState env State w = (Ok false, w))
  /\ ((forall d, State <> JDict d) ->
      exists w',
        SessionManager.SaveSessionState env State w = (Ok false, w')
        /\ Fs w' = Fs w /\ Db w' = Db w /\ self_SessionId w' = self_SessionId w)
  /\ (forall id,
        self_SessionId w = Some id ->
        ActiveSessionDir (Fs w) !! id = None ->
        exists w',
          SessionManager.SaveSessionState env State w = (Ok false, w')
          /\ Fs w' = Fs w /\ Db w' = Db w /\ self_SessionId w' = self_SessionId
              w).
Proof.
  split; [| split].
  - intros H. unfold SessionManager.SaveSessionState, try_except, bind, gets,
      ret.
    rewrite H. reflexivity.
  - intros Hnd.
    unfold SessionManager.SaveSessionState, try_except, bind, gets, ret, lift,
      datetime_now.
    destruct (str_truthy (self_SessionId w)); simpl; [| eauto].
    destruct State; simpl; eauto. destruct (Hnd d). reflexivity.
  - intros id Hs Hdir.
    unfold SessionManager.SaveSessionState, try_except, bind, gets, ret, lift,
      datetime_now, write_state_file.
    rewrite Hs.
    destruct (str_truthy (Some id)) eqn:Ht; simpl; [| eauto].
    destruct id as [|a id]; [discriminate |].
    destruct State; simpl; eauto. rewrite Hdir. simpl. eauto.
Qed.

Lemma InsertWithId_snapshot_rejected (nid sid ts : string) (data : JValue)
  (w : World) :
  Sessions (Db w) !! sid = None \/ is_Some (StateSnapshots (Db w) !! nid) ->
  exists e,
    DatabaseManager.InsertWithId (IntoStateSnapshots nid sid ts data) w
    = (Raise e, w).
Proof.
  intros Hrej.
  unfold DatabaseManager.InsertWithId, DatabaseManager.insert_row.
  case_bool_decide as Ht; [eauto |].
  destruct Hrej as [Hrow | Htaken]; [| contradiction].
  rewrite Hrow.
  rewrite (bool_decide_eq_false_2 (is_Some None))
    by (intros [x Hx]; discriminate Hx).
  eauto.
Qed.

(** X15. The state file is written before the snapshot is inserted: when the
    store rejects the snapshot (the session has no row, or the uuid drawn is
    already a snapshot id), [SaveSessionState] of a dict returns [False],
    the store is as before, and the state file nevertheless holds the new
    document. *)
Theorem SaveSessionState_file_before_snapshot (env : Env)
  (d : list (string * JValue)) (id : string) (w : World) :
  self_SessionId w = Some id -> id <> "" ->
  is_Some (ActiveSessionDir (Fs w) !! id) ->
  Sessions (Db w) !! id = None
  \/ is_Some (StateSnapshots (Db w) !! uuid_at env (Draws w)) ->
  exists w',
    SessionManager.SaveSessionState env (JDict d) w = (Ok false, w')
    /\ Db w' = Db w
    /\ SessionManager.LoadSessionState w'
       = (Ok (JDict (dict_set "LastModified"
                       (JStr (isoformat (clock_at env (Ticks w)))) d)), w').
Proof.
  intros Hs Hne [dir Hdir] Hrej.
  cut (wp (SessionManager.SaveSessionState env (JDict d))
         (fun o w' =>
            o = Ok false /\ Db w' = Db w /\ self_SessionId w' = Some id
            /\ state_file Active id w'
               = Some (JsonDoc (JDict (dict_set "LastModified"
                                         (JStr (isoformat (clock_at env (Ticks
                                             w))))
                                         d)))) w).
  { intros H. apply wp_elim in H as (o & w' & E & -> & Hdb & Hs' & Hfile).
    exists w'. split; [exact E |]. split; [exact Hdb |].
    apply (LoadSessionState_reads _ id); assumption. }
  unfold SessionManager.SaveSessionState.
  apply wp_try_except, wp_bind, wp_gets. cbv beta iota.
  rewrite Hs, (str_truthy_nonempty id Hne). cbv beta iota delta [negb].
  apply wp_bind, wp_datetime_now. cbv beta iota.
  apply wp_bind, wp_lift. cbn [py_setitem]. cbv beta iota.
  apply wp_bind. eapply wp_intro.
  { unfold write_state_file. simpl. rewrite Hdir. reflexivity. }
  cbv beta iota.
  apply wp_bind, wp_uuid4. cbv beta iota.
  apply wp_bind.
  match goal with
  | |- wp (DatabaseManager.InsertWithId ?r) _ ?w2 =>
      destruct (InsertWithId_snapshot_rejected (uuid_at env (Draws w)) id
                  (isoformat (clock_at env (Ticks w)))
                  (JDict (dict_set "LastModified"
                            (JStr (isoformat (clock_at env (Ticks w)))) d))
                  w2 Hrej) as (e & He)
  end.
  eapply wp_intro; [exact He |]. cbv beta iota.
  apply wp_ret. split; [reflexivity |]. split; [reflexivity |].
  split; [exact Hs |].
  unfold state_file. simpl. rewrite lookup_insert_eq. reflexivity.
Qed.

(** ** The life of a session *)

Lemma wp_LogToDatabase (env : Env) (lvl comp msg : string)
  (sid : option string) (data : option JValue)
  (Q : Outcome unit -> World -> Prop) (w : World) :
  (forall w', Fs w' = Fs w -> self_SessionId w' = self_SessionId w ->
              Sessions (Db w') = Sessions (Db w) ->
              Actions (Db w') = Actions (Db w) ->
              SessionRelationships (Db w') = SessionRelationships (Db w) ->
              Q (Ok tt) w') ->
  wp (DatabaseManager.LogToDatabase env lvl comp msg sid data) Q w.
Proof.
  intros HQ. unfold DatabaseManager.LogToDatabase.
  apply wp_try_except, wp_bind, wp_datetime_now. cbv beta iota.
  eapply wp_intro; [reflexivity |]. apply HQ; reflexivity.
Qed.

Lemma EndSession_moves (env : Env) (Summary : option string) (w : World)
  (id : string) (d : Dir) :
  self_SessionId w = Some id -> id <> "" ->
  ActiveSessionDir (Fs w) !! id = Some d ->
  CompletedSessionDir (Fs w) !! id = None ->
  wp (SessionManager.EndSession env Summary)
    (fun o w' =>
       o = Ok true
       /\ self_SessionId w' = None
       /\ LockFile (Fs w') = None
       /\ ActiveSessionDir (Fs w') = delete id (ActiveSessionDir (Fs w))
       /\ CompletedSessionDir (Fs w')
          = <[id := MkDir
                      match state_json d with
                      | Some (JsonDoc v) =>
                          match SessionManager.end_state v
                                  (isoformat (clock_at env (Ticks w))) Summary
                          with
                          | Ok v' => Some (JsonDoc v')
                          | Raise _ => Some (JsonDoc v)
                          end
                      | other => other
                      end
                      (subdirs d)]> (CompletedSessionDir (Fs w))
       /\ CrashSessionDir (Fs w') = CrashSessionDir (Fs w)
       /\ Sessions (Db w')
          = alter (fun r => SessionRow.Mk (SessionRow.StartTime r)
                              (Some (isoformat (clock_at env (Ticks w))))
                              "COMPLETED"
                              (if str_truthy Summary then Summary
                               else SessionRow.Summary r))
              id (Sessions (Db w))
       /\ Actions (Db w') = Actions (Db w)) w.
Proof.
  intros Hs Hne Hact Hcomp.
  unfold SessionManager.EndSession.
  apply wp_bind, wp_gets. cbv beta iota.
  rewrite Hs, (str_truthy_nonempty id Hne). cbv beta iota delta [negb].
  apply wp_try_except, wp_bind, wp_datetime_now. cbv beta iota.
  apply wp_bind. eapply wp_intro; [reflexivity |]. cbv beta iota.
  apply wp_bind, wp_gets. cbv beta iota.
  assert (Hfile : forall w0, ActiveSessionDir (Fs w0) = ActiveSessionDir (Fs w)
      ->
                    state_file Active (default "" (Some id)) w0 = state_json d).
  { intros w0 H0. unfold state_file. simpl. rewrite H0, Hact. reflexivity. }
  rewrite Hfile by reflexivity.
  set (EndTime := isoformat (clock_at env (Ticks w))).
  set (file' := match state_json d with
                | Some (JsonDoc v) =>
                    match SessionManager.end_state v EndTime Summary with
                    | Ok v' => Some (JsonDoc v')
                    | Raise _ => Some (JsonDoc v)
                    end
                | other => other
                end).
  set (summary' := fun r : SessionRow.t =>
                     SessionRow.Mk (SessionRow.StartTime r) (Some EndTime)
                       "COMPLETED"
                       (if str_truthy Summary then Summary
                        else SessionRow.Summary r)).
  apply wp_bind.
  match goal with
  | |- wp ?m _ ?w2 =>
      apply (wp_consequence m
               (fun o w3 =>
                  o = Ok tt
                  /\ ActiveSessionDir (Fs w3)
                     = <[id := MkDir file' (subdirs d)]> (ActiveSessionDir (Fs
                         w))
                  /\ CompletedSessionDir (Fs w3) = CompletedSessionDir (Fs w)
                  /\ CrashSessionDir (Fs w3) = CrashSessionDir (Fs w)
                  /\ Db w3 = Db w2 /\ self_SessionId w3 = Some id))
  end.
  { subst file'. destruct (state_json d) as [[v|raw]|] eqn:Hj.
    - apply wp_try_except, wp_bind, wp_lift. simpl json_load. cbv beta iota.
      apply wp_bind, wp_lift.
      destruct (SessionManager.end_state v EndTime Summary) as [v'|e] eqn:He.
      + cbv beta iota. eapply wp_intro.
        { unfold write_state_file. simpl. rewrite Hact. reflexivity. }
        simpl. repeat split; auto.
      + cbv beta iota. apply wp_ret. simpl. repeat split; auto.
        rewrite insert_id; [reflexivity |].
        rewrite Hact. destruct d. simpl in *. congruence.
    - apply wp_try_except, wp_bind, wp_lift. simpl json_load. cbv beta iota.
      apply wp_ret. simpl. repeat split; auto.
      rewrite insert_id; [reflexivity |].
      rewrite Hact. destruct d. simpl in *. congruence.
    - apply wp_ret. simpl. repeat split; auto.
      rewrite insert_id; [reflexivity |].
      rewrite Hact. destruct d. simpl in *. congruence. }
  intros o w3 (-> & Ha3 & Hc3 & Hr3 & Hd3 & Hs3).
  apply wp_bind, wp_gets. cbv beta iota.
  unfold dir_exists, part. rewrite Ha3. simpl default.
  rewrite lookup_insert_eq.
  rewrite bool_decide_eq_true_2 by eauto.
  apply wp_bind. eapply wp_intro.
  { unfold shutil_move, part. rewrite Ha3, Hc3, lookup_insert_eq, Hcomp.
    reflexivity. }
  cbv beta iota.
  apply wp_bind, wp_modify. cbv beta iota.
  apply wp_bind, wp_LogToDatabase. intros w4 Hf4 Hs4 Hses4 Hact4 _.
  cbv beta iota.
  apply wp_bind, wp_modify. cbv beta iota. apply wp_ret.
  split; [reflexivity |]. split; [reflexivity |].
  simpl. rewrite Hf4, Hses4, Hact4. simpl.
  rewrite Ha3, Hc3, Hr3, Hd3. simpl.
  rewrite delete_insert_eq.
  repeat split.
  subst summary'. destruct Summary as [[|a s]|]; reflexivity.
Qed.

Lemma wp_SaveSessionState_dict (env : Env) (d : list (string * JValue))
  (id : string) (dir : Dir) (Q : Outcome bool -> World -> Prop) (w : World) :
  self_SessionId w = Some id -> id <> "" ->
  ActiveSessionDir (Fs w) !! id = Some dir ->
  (forall b w',
     self_SessionId w' = Some id ->
     Sessions (Db w') = Sessions (Db w) ->
     Actions (Db w') = Actions (Db w) ->
     SessionRelationships (Db w') = SessionRelationships (Db w) ->
     Fs w'
     = set_part Active
         (insert id
            (MkDir (Some (JsonDoc
                            (JDict (dict_set "LastModified"
                                      (JStr (isoformat (clock_at env (Ticks
                                          w))))
                                      d))))
               (subdirs dir))) (Fs w) ->
     Q (Ok b) w') ->
  wp (SessionManager.SaveSessionState env (JDict d)) Q w.
Proof.
  intros Hs Hne Hdir HQ.
  unfold SessionManager.SaveSessionState.
  apply wp_try_except, wp_bind, wp_gets. cbv beta iota.
  rewrite Hs, (str_truthy_nonempty id Hne). cbv beta iota delta [negb].
  apply wp_bind, wp_datetime_now. cbv beta iota.
  apply wp_bind, wp_lift. cbn [py_setitem]. cbv beta iota.
  apply wp_bind. eapply wp_intro.
  { unfold write_state_file. simpl. rewrite Hdir. reflexivity. }
  cbv beta iota.
  apply wp_bind, wp_uuid4. cbv beta iota.
  apply wp_bind. unfold wp.
  match goal with
  | |- context [DatabaseManager.InsertWithId ?r ?w2] =>
      unfold DatabaseManager.InsertWithId, DatabaseManager.insert_row;
      repeat case_bool_decide; simpl; apply HQ; reflexivity || exact Hs
  end.
Qed.

Lemma StartSession_starts (env : Env) (w : World) :
  Sessions (Db w) !! started_id env w = None ->
  started_id env w <> "" ->
  let w1 := after_ending env "Ended to start new session" w in
  let id := started_id env w in
  let StartTime := isoformat (clock_at env (S (Ticks w1))) in
  wp (SessionManager.StartSession env)
    (fun o w' =>
       o = Ok id
       /\ self_SessionId w' = Some id
       /\ Sessions (Db w')
          = <[id := SessionRow.Mk StartTime None "ACTIVE" None]> (Sessions (Db
              w1))
       /\ Actions (Db w') = Actions (Db w)
       /\ LockFile (Fs w') = Some id
       /\ ActiveSessionDir (Fs w')
          = <[id := MkDir
                      (Some (JsonDoc
                               (JDict [("SessionId", JStr id);
                                       ("StartTime", JStr StartTime);
                                       ("Messages", JList []);
                                       ("Context", JDict []);
                                       ("LastModified",
                                        JStr (isoformat
                                                (clock_at env (S (S (Ticks
                                                    w1))))))])))
                      (subdirs (default empty_dir
                                  (ActiveSessionDir (Fs w1) !! id)))]>
              (ActiveSessionDir (Fs w1))
       /\ CompletedSessionDir (Fs w') = CompletedSessionDir (Fs w1)
       /\ CrashSessionDir (Fs w') = CrashSessionDir (Fs w)) w.
Proof.
  intros Hfresh Hne w1 id StartTime.
  destruct (ending_step env "Ended to start new session" w) as (Hend & Hkeep).
  fold w1 in Hend, Hkeep.
  unfold SessionManager.StartSession.
  apply wp_bind, wp_gets. cbv beta iota.
  apply wp_bind. eapply wp_intro; [exact Hend |]. cbv beta iota.
  apply wp_bind, wp_datetime_now. cbv beta iota.
  change (strftime (clock_at env (Ticks w1))) with id.
  apply wp_bind, wp_modify. cbv beta iota.
  apply wp_bind, wp_datetime_now. cbv beta iota.
  apply wp_bind. eapply wp_intro.
  { apply InsertWithId_session_fresh. simpl.
    apply (keeps_store_lookup w w1 id Hkeep). exact Hfresh. }
  cbv beta iota.
  apply wp_bind, wp_modify. cbv beta iota.
  apply wp_bind. eapply wp_intro; [apply CreateLockFile_writes; reflexivity |].
  cbv beta iota.
  apply wp_bind.
  unfold SessionManager.initial_state.
  eapply (wp_SaveSessionState_dict env _ id
            (default empty_dir
               (Some (default empty_dir (ActiveSessionDir (Fs w1) !! id)))));
    [reflexivity | exact Hne | |].
  { simpl. destruct (ActiveSessionDir (Fs w1) !! id) eqn:E; simpl.
    - rewrite E. reflexivity.
    - rewrite lookup_insert_eq. reflexivity. }
  intros b w5 Hs5 Hses5 Hact5 _ Hfs5. cbv beta iota.
  apply wp_bind, wp_LogToDatabase. intros w6 Hf6 Hs6 Hses6 Hact6 _.
  cbv beta iota. apply wp_ret.
  destruct Hkeep as (_ & Hka & Hkc & _).
  split; [reflexivity |]. split; [congruence |].
  split; [rewrite Hses6, Hses5; reflexivity |].
  split; [rewrite Hact6, Hact5; simpl; exact Hka |].
  rewrite Hf6, Hfs5. simpl.
  split; [reflexivity |].
  split.
  { destruct (ActiveSessionDir (Fs w1) !! id) eqn:E; simpl;
      rewrite ?insert_insert_eq; reflexivity. }
  split; [reflexivity | exact Hkc].
Qed.

(** X16. When the id [StartSession] allocates is not empty and not yet a
    session id of the store, [StartSession] returns it and afterwards: it is
    the current session; its row has status ACTIVE, the start time read from
    the clock, no end time and no summary; the lock file holds the id; and
    [LoadSessionState] returns the initial document, with no messages and an
    empty context. *)
Theorem StartSession_fresh (env : Env) (w : World) :
  Sessions (Db w) !! started_id env w = None ->
  started_id env w <> "" ->
  exists w',
    SessionManager.StartSession env w = (Ok (started_id env w), w')
    /\ self_SessionId w' = Some (started_id env w)
    /\ Sessions (Db w') !! started_id env w
       = Some (SessionRow.Mk (started_StartTime env w) None "ACTIVE" None)
    /\ LockFile (Fs w') = Some (started_id env w)
    /\ SessionManager.LoadSessionState w'
       = (Ok (JDict [("SessionId", JStr (started_id env w));
                     ("StartTime", JStr (started_StartTime env w));
                     ("Messages", JList []); ("Context", JDict []);
                     ("LastModified", JStr (started_LastModified env w))]), w')
    /\ Actions (Db w') = Actions (Db w)
    /\ CrashSessionDir (Fs w') = CrashSessionDir (Fs w).
Proof.
  intros Hfresh Hne.
  pose proof (StartSession_starts env w Hfresh Hne) as H. cbv zeta in H.
  apply wp_elim in H
    as (o & w' & E & -> & Hs & Hses & Hact & Hlock & Hdir & _ & Hcr).
  exists w'. split; [exact E |]. split; [exact Hs |].
  split; [rewrite Hses; apply lookup_insert_eq |].
  split; [exact Hlock |].
  split; [| split; assumption].
  apply (LoadSessionState_reads w' (started_id env w)); [exact Hs | exact Hne
      |].
  unfold state_file, part. rewrite Hdir, lookup_insert_eq. reflexivity.
Qed.

(** X17. With a non-empty current session whose directory is under the
    active partition and none of that name under the completed partition,
    [EndSession] returns [True] and afterwards: there is no current session
    and no lock file; the directory is under the completed partition and no
    longer under the active one; its state file, when it held a dict, holds
    that dict with the end time, status COMPLETED, the last-modified time
    and, when given, the summary, and is otherwise (absent, not JSON, not a
    dict) as it was; the row of the session, if there is one, has the end
    time, status COMPLETED and the summary when one is given; the other
    directories and rows, the crashed partition and the actions are as
    before. *)
Theorem EndSession_completes (env : Env) (Summary : option string) (w : World)
  (id : string) (d : Dir) :
  self_SessionId w = Some id -> id <> "" ->
  ActiveSessionDir (Fs w) !! id = Some d ->
  CompletedSessionDir (Fs w) !! id = None ->
  exists w',
    SessionManager.EndSession env Summary w = (Ok true, w')
    /\ self_SessionId w' = None
    /\ LockFile (Fs w') = None
    /\ ActiveSessionDir (Fs w') = delete id (ActiveSessionDir (Fs w))
    /\ CompletedSessionDir (Fs w')
       = <[id := MkDir
                   match state_json d with
                   | Some (JsonDoc v) =>
                       match SessionManager.end_state v
                               (isoformat (clock_at env (Ticks w))) Summary
                       with
                       | Ok v' => Some (JsonDoc v')
                       | Raise _ => Some (JsonDoc v)
                       end
                   | other => other
                   end
                   (subdirs d)]> (CompletedSessionDir (Fs w))
    /\ CrashSessionDir (Fs w') = CrashSessionDir (Fs w)
    /\ Sessions (Db w')
       = alter (fun r => SessionRow.Mk (SessionRow.StartTime r)
                           (Some (isoformat (clock_at env (Ticks w))))
                           "COMPLETED"
                           (if str_truthy Summary then Summary
                            else SessionRow.Summary r))
           id (Sessions (Db w))
    /\ Actions (Db w') = Actions (Db w).
Proof.
  intros Hs Hne Hact Hcomp.
  pose proof (EndSession_moves env Summary w id d Hs Hne Hact Hcomp) as H.
  apply wp_elim in H as (o & w' & E & -> & H).
  exists w'. split; [exact E | exact H].
Qed.

(** X18. From a world with no current session, when the id allocated is not
    empty, not a session id of the store and not a directory of the
    completed partition: [StartSession] followed by [EndSession] leaves no
    directory of that id under the active partition and one under the
    completed partition, whose state file holds the initial document with
    the end time, status COMPLETED and, when given, the summary; the row of
    the session is COMPLETED; there is no lock file and no current session;
    and a manager constructed afterwards finds nothing to recover. *)
Theorem StartSession_EndSession (env : Env) (Summary : option string)
  (w : World) :
  str_truthy (self_SessionId w) = false ->
  Sessions (Db w) !! started_id env w = None ->
  started_id env w <> "" ->
  CompletedSessionDir (Fs w) !! started_id env w = None ->
  exists w1 w2 dir,
    SessionManager.StartSession env w = (Ok (started_id env w), w1)
    /\ SessionManager.EndSession env Summary w1 = (Ok true, w2)
    /\ ActiveSessionDir (Fs w2) !! started_id env w = None
    /\ CompletedSessionDir (Fs w2) !! started_id env w = Some dir
    /\ state_json dir
       = Some (JsonDoc
                 (JDict ([("SessionId", JStr (started_id env w));
                          ("StartTime", JStr (started_StartTime env w));
                          ("Messages", JList []); ("Context", JDict []);
                          ("LastModified",
                           JStr (isoformat (clock_at env (Ticks w1))));
                          ("EndTime", JStr (isoformat (clock_at env (Ticks
                              w1))));
                          ("Status", JStr "COMPLETED")]
                         ++ match Summary with
                            | Some (String a s) =>
                                [("Summary", JStr (String a s))]
                            | _ => []
                            end)))
    /\ Sessions (Db w2) !! started_id env w
       = Some (SessionRow.Mk (started_StartTime env w)
                 (Some (isoformat (clock_at env (Ticks w1)))) "COMPLETED"
                 (if str_truthy Summary then Summary else None))
    /\ LockFile (Fs w2) = None
    /\ self_SessionId w2 = None
    /\ SessionManager.init w2 = (Ok tt, w2).
Proof.
  intros Hnone Hfresh Hne Hcomp.
  pose proof (StartSession_starts env w Hfresh Hne) as H. cbv zeta in H.
  unfold after_ending in H. rewrite Hnone in H.
  apply wp_elim in H
    as (o & w1 & E1 & -> & Hs1 & Hses1 & _ & _ & Hdir1 & Hcomp1 & _).
  match type of Hdir1 with
  | _ = <[_ := ?dir]> _ => set (d1 := dir) in *
  end.
  assert (Hact1 : ActiveSessionDir (Fs w1) !! started_id env w = Some d1).
  { rewrite Hdir1. apply lookup_insert_eq. }
  assert (Hcomp1' : CompletedSessionDir (Fs w1) !! started_id env w = None).
  { rewrite Hcomp1. exact Hcomp. }
  pose proof (EndSession_moves env Summary w1 _ d1 Hs1 Hne Hact1 Hcomp1') as H.
  apply wp_elim in H
    as (o & w2 & E2 & -> & Hs2 & Hlock2 & Ha2 & Hc2 & _ & Hses2 & _).
  eexists w1, w2, _. split; [exact E1 |]. split; [exact E2 |].
  split; [rewrite Ha2; apply lookup_delete_eq |].
  split; [rewrite Hc2; apply lookup_insert_eq |].
  split.
  { unfold started_StartTime, after_ending. rewrite Hnone.
    subst d1. simpl. destruct Summary as [[|a s]|]; reflexivity. }
  split.
  { rewrite Hses2, lookup_alter_eq, Hses1, lookup_insert_eq.
    unfold started_StartTime, after_ending. rewrite Hnone. reflexivity. }
  split; [exact Hlock2 |]. split; [exact Hs2 |].
  unfold SessionManager.init, SessionManager.EnsureDirectoriesExist,
    SessionManager.CheckForCrashedSessions, bind, modify, gets, ret.
  simpl. rewrite Hlock2. destruct w2. simpl in *. subst. reflexivity.
Qed.

(** X19. [CleanExit] with a current session only deletes the lock file.  A
    manager constructed afterwards therefore finds nothing to recover: the
    session is not reclassified, its row and its directory are as the
    exiting process left them, and [ResumeSession] of it returns [None]
    unless a directory of that name is under the crashed partition.  With no
    current session [CleanExit] does nothing, a lock file included. *)
Theorem CleanExit_no_recovery (env : Env) (w : World) :
  (forall id,
     self_SessionId w = Some id -> id <> "" ->
     SessionManager.CleanExit w = (Ok tt, set_Fs (set_LockFile None) w)
     /\ SessionManager.init (SessionManager.CleanExit w).2
        = (Ok tt, set_SessionId None (set_Fs (set_LockFile None) w))
     /\ (CrashSessionDir (Fs w) !! id = None ->
         SessionManager.ResumeSession env id
           (SessionManager.init (SessionManager.CleanExit w).2).2
         = (Ok None, (SessionManager.init (SessionManager.CleanExit w).2).2)))
  /\ (str_truthy (self_SessionId w) = false ->
      SessionManager.CleanExit w = (Ok tt, w)).
Proof.
  split.
  - intros id Hs Hne.
    assert (E : SessionManager.CleanExit w
                = (Ok tt, set_Fs (set_LockFile None) w)).
    { unfold SessionManager.CleanExit, bind, gets, modify.
      rewrite Hs, (str_truthy_nonempty id Hne). reflexivity. }
    rewrite E. simpl. split; [reflexivity |].
    split; [reflexivity |].
    intros Hcr.
    unfold SessionManager.ResumeSession, bind, gets, ret, dir_exists.
    simpl. rewrite Hcr. reflexivity.
  - intros Hnone. unfold SessionManager.CleanExit, bind, gets, ret.
    rewrite Hnone. reflexivity.
Qed.

(** ** Resuming from a readable state file *)

Lemma ResumeSession_clones (env : Env) (SessionId : string) (w : World)
  (d : Dir) (s : list (string * JValue)) (original : JValue) :
  CrashSessionDir (Fs w) !! SessionId = Some d ->
  state_json d = Some (JsonDoc (JDict s)) ->
  dict_get "SessionId" s = Some original ->
  is_Some (Sessions (Db w) !! SessionId) ->
  Sessions (Db w) !! resumed_id env SessionId w = None ->
  let w1 := after_ending env "Ended to resume crashed session" w in
  let id := resumed_id env SessionId w in
  wp (SessionManager.ResumeSession env SessionId)
    (fun o w' =>
       o = Ok (Some id)
       /\ self_SessionId w' = Some id
       /\ state_file Active id w'
          = Some (JsonDoc
                    (JDict
                       (dict_set "LastModified"
                          (JStr (resumed_LastModified env w))
                          (dict_set "LastModified"
                             (JStr (resumed_StartTime env w))
                             (dict_set "ResumedFrom" (JStr SessionId)
                                (dict_set "StartTime"
                                   (JStr (resumed_StartTime env w))
                                   (dict_set "SessionId" (JStr id)
                                      (dict_set "OriginalSessionId" original
                                         s))))))))
       /\ Sessions (Db w')
          = <[id := SessionRow.Mk (resumed_StartTime env w) None "ACTIVE" None]>
              (Sessions (Db w1))
       /\ SessionRelationships (Db w')
          = SessionRelationships (Db w1)
            ++ [RelationRow.Mk SessionId id "RESUME"]
       /\ LockFile (Fs w') = Some id
       /\ CrashSessionDir (Fs w') = CrashSessionDir (Fs w)
       /\ Actions (Db w') = Actions (Db w)) w.
Proof.
  intros Hcr Hstate Horig Hrow Hfresh w1 id.
  destruct (ending_step env "Ended to resume crashed session" w)
    as (Hend & Hkeep).
  fold w1 in Hend, Hkeep.
  assert (Hne : id <> "").
  { apply append_nonempty. discriminate. }
  unfold SessionManager.ResumeSession.
  apply wp_bind, wp_gets. cbv beta iota.
  unfold dir_exists at 1, part. rewrite Hcr.
  rewrite bool_decide_eq_true_2 by eauto. cbv beta iota delta [negb].
  apply wp_bind, wp_gets. cbv beta iota.
  apply wp_bind. eapply wp_intro; [exact Hend |]. cbv beta iota.
  apply wp_bind, wp_datetime_now. cbv beta iota.
  change (SessionId +:+ "_resumed_" +:+ strftime (clock_at env (Ticks w1)))
    with id.
  apply wp_bind, wp_modify. cbv beta iota.
  apply wp_bind, wp_datetime_now. cbv beta iota.
  apply wp_bind. eapply wp_intro.
  { apply InsertWithId_session_fresh. simpl.
    apply (keeps_store_lookup w w1 id Hkeep). exact Hfresh. }
  cbv beta iota.
  apply wp_bind. eapply wp_intro.
  { apply InsertWithId_relationship; simpl.
    - apply lookup_insert_is_Some'. right.
      apply (keeps_store_is_Some w w1 _ Hkeep). exact Hrow.
    - rewrite lookup_insert_eq. eauto. }
  cbv beta iota.
  apply wp_bind, wp_modify. cbv beta iota.
  apply wp_bind. eapply wp_intro; [apply CreateLockFile_writes; reflexivity |].
  cbv beta iota.
  apply wp_bind, wp_gets. cbv beta iota.
  destruct Hkeep as (_ & Hka & Hkc & _).
  replace (state_file Crashed SessionId _) with (Some (JsonDoc (JDict s))).
  2:{ unfold state_file. simpl. rewrite Hkc, Hcr. symmetry. exact Hstate. }
  apply wp_bind, wp_try_except, wp_bind, wp_lift. simpl json_load.
  cbv beta iota.
  apply wp_bind, wp_lift. unfold SessionManager.resumed_state.
  rewrite Horig. cbv beta iota.
  apply wp_bind.
  eapply (wp_SaveSessionState_dict env _ id
            (default empty_dir
               (Some (default empty_dir (ActiveSessionDir (Fs w1) !! id)))));
    [reflexivity | exact Hne | |].
  { simpl. destruct (ActiveSessionDir (Fs w1) !! id) eqn:E; simpl.
    - rewrite E. reflexivity.
    - rewrite lookup_insert_eq. reflexivity. }
  intros b w5 Hs5 Hses5 Hact5 Hrel5 Hfs5. cbv beta iota.
  apply wp_ret. cbv beta iota.
  apply wp_bind, wp_LogToDatabase. intros w6 Hf6 Hs6 Hses6 Hact6 Hrel6.
  cbv beta iota. apply wp_ret.
  split; [reflexivity |]. split; [congruence |].
  split.
  { unfold state_file. rewrite Hf6, Hfs5. simpl.
    rewrite lookup_insert_eq. reflexivity. }
  split; [rewrite Hses6, Hses5; reflexivity |].
  split; [rewrite Hrel6, Hrel5; reflexivity |].
  rewrite Hf6, Hfs5, Hact6, Hact5. simpl.
  split; [reflexivity |]. split; [exact Hkc | exact Hka].
Qed.


(** ** What the session lifecycle leaves alone *)

#[global] Instance keeps_actions_preorder : PreOrder keeps_actions.
Proof.
  split.
  - intros w. repeat split.
  - intros w1 w2 w3 (H1 & H2 & H3) (G1 & G2 & G3).
    repeat split; congruence.
Qed.

Lemma keeps_store_actions (w w' : World) : keeps_store w w' -> keeps_actions w
    w'.
Proof. intros (H1 & H2 & H3 & H4). repeat split; congruence. Qed.

Lemma stable_keeps_actions {A : Type} (m : M A) :
  stable keeps_store m -> stable keeps_actions m.
Proof. intros H w. apply keeps_store_actions, H. Qed.

Lemma InsertWithId_session_keeps_actions (id st status : string) :
  stable keeps_actions (DatabaseManager.InsertWithId (IntoSessions id st
      status)).
Proof. stable_prim. Qed.

Lemma InsertWithId_relationship_keeps_actions (parent child ty : string) :
  stable keeps_actions
    (DatabaseManager.InsertWithId (IntoSessionRelationships parent child ty)).
Proof. stable_prim. Qed.

#[global] Hint Resolve InsertWithId_session_keeps_actions
  InsertWithId_relationship_keeps_actions : stable.
#[global] Hint Extern 6 (stable keeps_actions _) =>
  apply stable_keeps_actions; solve [auto with stable] : stable.

Lemma StartSession_keeps_actions (env : Env) :
  stable keeps_actions (SessionManager.StartSession env).
Proof. unfold SessionManager.StartSession. stable_steps. Qed.

Lemma ResumeSession_keeps_actions (env : Env) (SessionId : string) :
  stable keeps_actions (SessionManager.ResumeSession env SessionId).
Proof. unfold SessionManager.ResumeSession. stable_steps. Qed.

(** X21. Whatever they return or raise, [StartSession], [ResumeSession] and
    [EndSession] change no action row, nothing under the crashed partition
    and make no call of a supervised function.  Hence the pending actions of
    a session, a crashed one included, are the same after as before: resuming
    a crashed session does not lose the work it had in flight, and the
    crashed session can be resumed again. *)
Theorem lifecycle_keeps_actions (env : Env) (SessionId : string)
  (Summary : option string) (w : World) :
  keeps_actions w (SessionManager.StartSession env w).2
  /\ keeps_actions w (SessionManager.ResumeSession env SessionId w).2
  /\ keeps_actions w (SessionManager.EndSession env Summary w).2
  /\ (forall w' sid,
        keeps_actions w w' -> sid <> "" ->
        (ActionTracker.GetPendingActions (Some sid) w').1
        = (ActionTracker.GetPendingActions (Some sid) w).1)
  /\ (forall w',
        keeps_actions w w' ->
        dir_exists Crashed SessionId w' = dir_exists Crashed SessionId w).
Proof.
  split; [apply StartSession_keeps_actions |].
  split; [apply ResumeSession_keeps_actions |].
  split; [apply keeps_store_actions, EndSession_keeps_store |].
  split.
  - intros w' sid (Ha & _ & _) Hsid.
    unfold ActionTracker.GetPendingActions, try_except, bind, gets, ret,
      DatabaseManager.ExecuteQuery_Pending.
    rewrite (str_truthy_nonempty sid Hsid). simpl. rewrite Ha. reflexivity.
  - intros w' (_ & Hc & _). unfold dir_exists, part. rewrite Hc. reflexivity.
Qed.

(** ** From the crash to the list of resumable sessions *)

(** X22. Let the lock file name a session that has a row in the store and a
    directory under the active partition, and none under the crashed
    partition.  After the construction of the manager the session is in the
    list [GetCrashedSessions] returns, with its row unchanged but for the
    status, and its directory is where [ResumeSession] looks for it. *)
Theorem init_lists_crashed (w : World) (content : string) (d : Dir)
  (r : SessionRow.t) :
  LockFile (Fs w) = Some content ->
  ActiveSessionDir (Fs w) !! strip content = Some d ->
  CrashSessionDir (Fs w) !! strip content = None ->
  Sessions (Db w) !! strip content = Some r ->
  exists w' L,
    SessionManager.init w = (Ok tt, w')
    /\ SessionManager.GetCrashedSessions w' = (Ok L, w')
    /\ (strip content, SessionRow.set_Status "CRASHED" r) ∈ L
    /\ dir_exists Crashed (strip content) w' = true
    /\ state_file Crashed (strip content) w' = state_json d.
Proof.
  intros Hlock Hact Hcr Hrow.
  pose proof (CheckForCrashedSessions_found (set_SessionId None w) content d
                Hlock Hact Hcr) as Hscan.
  eexists _, _. split.
  { unfold SessionManager.init, SessionManager.EnsureDirectoriesExist.
    eval_step (modify _). eval_step (ret tt). exact Hscan. }
  split; [reflexivity |].
  split.
  { rewrite merge_sort_Permutation, list_elem_of_filter, elem_of_map_to_list.
    simpl. split; [reflexivity |].
    rewrite lookup_alter_eq, Hrow. reflexivity. }
  split.
  { unfold dir_exists. simpl. rewrite lookup_insert_eq.
    apply bool_decide_eq_true_2. eauto. }
  unfold state_file. simpl. rewrite lookup_insert_eq. reflexivity.
Qed.

(** ** The facade and its copy of the session id *)

#[global] Instance keeps_current_preorder : PreOrder keeps_current.
Proof.
  split.
  - intros w. reflexivity.
  - intros w1 w2 w3 H1 H2. unfold keeps_current in *. congruence.
Qed.

Lemma stable_keeps_current {A : Type} (m : M A) :
  stable keeps_session m -> stable keeps_current m.
Proof. intros H w. destruct (H w) as (H1 & _). exact H1. Qed.

Lemma InsertWithId_keeps_current (r : InsertRow) :
  stable keeps_current (DatabaseManager.InsertWithId r).
Proof.
  intros w. unfold DatabaseManager.InsertWithId.
  destruct (DatabaseManager.insert_row r (Db w)); reflexivity.
Qed.

Lemma Update_keeps_current (u : UpdateStmt) :
  stable keeps_current (DatabaseManager.Update u).
Proof. intros w. reflexivity. Qed.

Lemma shutil_move_keeps_current (src dst : Partition) (name : string) :
  stable keeps_current (shutil_move src dst name).
Proof.
  intros w. unfold shutil_move. repeat case_match; reflexivity.
Qed.

Lemma set_Fs_keeps_current (f : FileSystem -> FileSystem) :
  stable keeps_current (modify (set_Fs f)).
Proof. intros w. reflexivity. Qed.

#[global] Hint Resolve InsertWithId_keeps_current Update_keeps_current
  shutil_move_keeps_current set_Fs_keeps_current : stable.
#[global] Hint Extern 7 (stable keeps_current _) =>
  apply stable_keeps_current; solve [auto with stable] : stable.

Lemma wp_bind_stable {A B : Type} (R : relation World) (m : M A) (k : A -> M B)
  (Q : Outcome B -> World -> Prop) (w : World) :
  stable R m ->
  (forall a w1, R w w1 -> wp (k a) Q w1) ->
  (forall e w1, R w w1 -> Q (Raise e) w1) ->
  wp (bind m k) Q w.
Proof.
  intros Hs Hk He. apply wp_bind. unfold wp. specialize (Hs w).
  destruct (m w) as [[a|e] w1]; simpl in *; auto. apply Hk. exact Hs.
Qed.

Ltac wp_current :=
  repeat first
    [ apply wp_ret
    | apply (wp_bind_stable keeps_current);
      [ solve [stable_steps]
      | let a := fresh "a" in
        let w1 := fresh "w" in
        let K := fresh "K" in
        intros a w1 K; unfold keeps_current in K; cbv beta iota
      | let e := fresh "e" in
        let w1 := fresh "w" in
        let K := fresh "K" in
        intros e w1 K; unfold keeps_current in K; cbv beta iota ] ].

Lemma StartSession_current (env : Env) (w w' : World) (id : string) :
  SessionManager.StartSession env w = (Ok id, w') ->
  self_SessionId w' = Some id.
Proof.
  intros E.
  cut (wp (SessionManager.StartSession env)
         (fun o w' => forall id, o = Ok id -> self_SessionId w' = Some id) w).
  { unfold wp. rewrite E. simpl. auto. }
  unfold SessionManager.StartSession.
  apply wp_bind, wp_gets. cbv beta iota.
  apply wp_bind.
  destruct (ending_step env "Ended to start new session" w) as (Hend & _).
  eapply wp_intro; [exact Hend |]. cbv beta iota.
  apply wp_bind, wp_datetime_now. cbv beta iota.
  apply wp_bind, wp_modify. cbv beta iota.
  wp_current; try discriminate.
  intros id' [= <-]. simpl in *. congruence.
Qed.

Lemma ResumeSession_current (env : Env) (SessionId : string) (w w' : World)
  (id : string) :
  SessionManager.ResumeSession env SessionId w = (Ok (Some id), w') ->
  self_SessionId w' = Some id.
Proof.
  intros E.
  cut (wp (SessionManager.ResumeSession env SessionId)
         (fun o w' => forall id, o = Ok (Some id) -> self_SessionId w' = Some
             id)
         w).
  { unfold wp. rewrite E. simpl. auto. }
  unfold SessionManager.ResumeSession.
  apply wp_bind, wp_gets. cbv beta iota.
  destruct (negb (dir_exists Crashed SessionId w)).
  { apply wp_ret. discriminate. }
  apply wp_bind, wp_gets. cbv beta iota.
  apply wp_bind.
  destruct (ending_step env "Ended to resume crashed session" w) as (Hend & _).
  eapply wp_intro; [exact Hend |]. cbv beta iota.
  apply wp_bind, wp_datetime_now. cbv beta iota.
  apply wp_bind, wp_modify. cbv beta iota.
  wp_current; try discriminate.
  intros id' [= <-]. simpl in *. congruence.
Qed.

Lemma EndSession_false_keeps (env : Env) (Summary : option string)
  (w w' : World) :
  SessionManager.EndSession env Summary w = (Ok false, w') ->
  self_SessionId w' = self_SessionId w.
Proof.
  intros E.
  cut (wp (SessionManager.EndSession env Summary)
         (fun o w' => o = Ok false -> self_SessionId w' = self_SessionId w) w).
  { unfold wp. rewrite E. simpl. auto. }
  unfold SessionManager.EndSession.
  apply wp_bind, wp_gets. cbv beta iota.
  destruct (negb (str_truthy (self_SessionId w))).
  { apply wp_ret. reflexivity. }
  apply wp_try_except.
  wp_current; try (intros _; simpl in *; congruence).
  apply wp_bind, wp_modify. cbv beta iota. apply wp_ret. discriminate.
Qed.

(** X23. Let the [SessionId] attribute of the facade agree with the one of
    its session manager.  They still agree after [EndSession], whatever it
    returns, after a [StartSession] that returns, and after a
    [ResumeSession] that returns an id; the attribute then is that id.  They
    part after [ResumeSession] of a session id (a single path component)
    that has no directory under the crashed partition: the call changes
    nothing in the world, so a session that was current stays current for
    the session manager and the action log, while the facade's attribute
    becomes [None]. *)
Theorem StateManager_SessionId_agreement (env : Env) (SessionId : string)
  (Summary : option string) (attr : option string) (w : World) :
  attr = self_SessionId w ->
  (forall id attr' w',
     StateManager.StartSession env attr w = (Ok (id, attr'), w') ->
     attr' = Some id /\ self_SessionId w' = attr')
  /\ (forall id attr' w',
        StateManager.ResumeSession env SessionId attr w
        = (Ok (Some id, attr'), w') ->
        attr' = Some id /\ self_SessionId w' = attr')
  /\ (forall Result attr' w',
        StateManager.EndSession env Summary attr w = (Ok (Result, attr'), w') ->
        self_SessionId w' = attr')
  /\ (path_component SessionId = true ->
      CrashSessionDir (Fs w) !! SessionId = None ->
      StateManager.ResumeSession env SessionId attr w = (Ok (None, None), w)).
Proof.
  intros Hagree. split; [| split; [| split]].
  - intros id attr' w' H. unfold StateManager.StartSession in H.
    apply bind_inv_ok in H as (id0 & w1 & Hstart & H).
    injection H as <- <- <-.
    split; [reflexivity |]. eapply StartSession_current. exact Hstart.
  - intros id attr' w' H. unfold StateManager.ResumeSession in H.
    apply bind_inv_ok in H as (r & w1 & Hres & H).
    injection H as -> <- <-.
    split; [reflexivity |]. eapply ResumeSession_current. exact Hres.
  - intros Result attr' w' H. unfold StateManager.EndSession in H.
    apply bind_inv_ok in H as (r & w1 & Hend & H).
    injection H as <- <- <-. destruct r.
    + eapply EndSession_true_clears. exact Hend.
    + rewrite Hagree. eapply EndSession_false_keeps. exact Hend.
  - intros _ Hcr.
    unfold StateManager.ResumeSession, SessionManager.ResumeSession, bind, gets,
      ret, dir_exists.
    simpl. rewrite Hcr. reflexivity.
Qed.

(** ** Transactions *)

Lemma statement_in_transaction {A : Type}
  (stmt : Database -> Outcome (A * Database)) (c : Connection.t) :
  Connection.in_transaction c = true ->
  Connection.committed (Connection.statement stmt c).2 = Connection.committed c
  /\ Connection.in_transaction (Connection.statement stmt c).2 = true.
Proof.
  intros H. unfold Connection.statement. rewrite H.
  destruct (stmt (Connection.visible c)) as [[a d]|e]; simpl; auto.
Qed.

Lemma after_call_in_transaction (c : Connection.t) (s : Connection.Call) :
  Connection.in_transaction c = true ->
  Connection.committed (Connection.after_call c s) = Connection.committed c
  /\ Connection.in_transaction (Connection.after_call c s) = true.
Proof.
  intros H.
  destruct s as [r|u|[status id]];
    unfold Connection.after_call, Connection.InsertWithId, Connection.Update,
      Connection.ExecuteNonQuery;
    apply statement_in_transaction; exact H.
Qed.

Lemma after_calls_in_transaction (l : list Connection.Call) (c : Connection.t) :
  Connection.in_transaction c = true ->
  Connection.committed (Connection.after_calls c l) = Connection.committed c
  /\ Connection.in_transaction (Connection.after_calls c l) = true.
Proof.
  revert c. induction l as [|s l IH]; intros c H; simpl; [auto |].
  destruct (after_call_in_transaction c s H) as (H1 & H2).
  destruct (IH _ H2) as (H3 & H4).
  unfold Connection.after_calls in *. split; congruence.
Qed.

(** X24. All or nothing.  After [BeginTransaction], whatever statements are
    called and whichever of them fail, the committed rows stay those of the
    beginning: a process killed before the end of the transaction leaves
    none of its changes.  [RollbackTransaction] then makes the connection
    see the rows of the beginning again and closes the transaction. *)
Theorem transaction_rollback (c : Connection.t) (l : list Connection.Call) :
  Connection.committed
    (Connection.after_calls (Connection.BeginTransaction c).2 l)
  = Connection.committed c
  /\ Connection.RollbackTransaction
       (Connection.after_calls (Connection.BeginTransaction c).2 l)
     = (Ok tt, Connection.Mk (Connection.committed c) (Connection.committed c)
                 false).
Proof.
  destruct (after_calls_in_transaction l (Connection.BeginTransaction c).2
              eq_refl) as (H1 & H2).
  split; [exact H1 |].
  unfold Connection.RollbackTransaction. rewrite H2, H1. reflexivity.
Qed.

Lemma statement_autocommit {A : Type}
  (stmt : Database -> Outcome (A * Database)) (c c' : Connection.t) :
  autocommit c -> Connection.in_transaction c' = true ->
  Connection.visible c' = Connection.visible c ->
  autocommit (Connection.statement stmt c).2
  /\ Connection.visible (Connection.statement stmt c').2
     = Connection.visible (Connection.statement stmt c).2
  /\ (Connection.statement stmt c').1 = (Connection.statement stmt c).1.
Proof.
  intros (Hf & Hv) Hf' Hv'. unfold Connection.statement.
  rewrite Hf, Hf', Hv'.
  destruct (stmt (Connection.visible c)) as [[a d]|e]; simpl.
  - repeat split.
  - repeat split; [exact Hf | congruence].
Qed.

Lemma after_call_autocommit (c c' : Connection.t) (s : Connection.Call) :
  autocommit c -> Connection.in_transaction c' = true ->
  Connection.visible c' = Connection.visible c ->
  autocommit (Connection.after_call c s)
  /\ Connection.visible (Connection.after_call c' s)
     = Connection.visible (Connection.after_call c s).
Proof.
  intros Hc Hf' Hv'.
  destruct s as [r|u|[status id]];
    unfold Connection.after_call, Connection.InsertWithId, Connection.Update,
      Connection.ExecuteNonQuery;
    match goal with
    | |- context [Connection.statement ?stmt c] =>
        destruct (statement_autocommit stmt c c' Hc Hf' Hv') as (H1 & H2 & _)
    end; auto.
Qed.

Lemma after_calls_autocommit (l : list Connection.Call) (c c' : Connection.t) :
  autocommit c -> Connection.in_transaction c' = true ->
  Connection.visible c' = Connection.visible c ->
  autocommit (Connection.after_calls c l)
  /\ Connection.visible (Connection.after_calls c' l)
     = Connection.visible (Connection.after_calls c l).
Proof.
  revert c c'. induction l as [|s l IH]; intros c c' Hc Hf' Hv'; simpl; [auto
      |].
  destruct (after_call_autocommit c c' s Hc Hf' Hv') as (H1 & H2).
  destruct (after_call_in_transaction c' s Hf') as (_ & H3).
  apply IH; assumption.
Qed.

(** X25. From a connection with nothing open: outside a transaction every
    call leaves its effect committed.  And a transaction that is committed
    has the effect of the same calls made outside a transaction: a
    statement that fails inside it is skipped and does not undo the
    statements before it, which are committed with those after it. *)
Theorem transaction_commit (c : Connection.t) (l : list Connection.Call) :
  autocommit c ->
  autocommit (Connection.after_calls c l)
  /\ Connection.CommitTransaction
       (Connection.after_calls (Connection.BeginTransaction c).2 l)
     = (Ok tt, Connection.after_calls c l).
Proof.
  intros Hc.
  destruct (after_calls_autocommit l c (Connection.BeginTransaction c).2 Hc
              eq_refl eq_refl) as (H1 & H2).
  destruct (after_calls_in_transaction l (Connection.BeginTransaction c).2
              eq_refl) as (_ & H3).
  split; [exact H1 |].
  unfold Connection.CommitTransaction. rewrite H3, H2.
  destruct H1 as (Hf & Hv).
  destruct (Connection.after_calls c l) as [cm vs fl]. simpl in *.
  subst. reflexivity.
Qed.

(** Outside a transaction the statement methods act on the committed rows
    as the methods of the managers act on [Db]. *)
Lemma autocommit_InsertWithId (r : InsertRow) (c : Connection.t) (w : World) :
  autocommit c -> Connection.committed c = Db w ->
  (Connection.InsertWithId r c).1 = (DatabaseManager.InsertWithId r w).1
  /\ Connection.committed (Connection.InsertWithId r c).2
     = Db (DatabaseManager.InsertWithId r w).2.
Proof.
  intros (Hf & Hv) Hdb.
  unfold Connection.InsertWithId, Connection.statement,
    DatabaseManager.InsertWithId.
  rewrite Hf, Hv, Hdb.
  destruct (DatabaseManager.insert_row r (Db w)); simpl; auto.
Qed.

(** ** Messages *)

Lemma messages_append_dict (d : list (string * JValue)) (Message : JValue) :
  messages_well_formed (JDict d) = true ->
  exists d',
    Messages.messages_append (JDict d) Message = Ok (JDict d')
    /\ dict_get "Messages" d'
       = Some (JList (match dict_get "Messages" d with
                      | Some (JList l) => l
                      | _ => []
                      end ++ [Message]))
    /\ forall k, k <> "Messages" -> dict_get k d' = dict_get k d.
Proof.
  intros Hwf. unfold Messages.messages_append. simpl in *.
  destruct (dict_get "Messages" d) as [messages|] eqn:E.
  - destruct messages as [| | | |l|]; try discriminate.
    rewrite bool_decide_eq_true_2 by eauto. simpl. rewrite E. simpl.
    eexists. split; [reflexivity |].
    split; [apply dict_get_set_eq |].
    intros k Hk. apply dict_get_set_ne. exact Hk.
  - rewrite bool_decide_eq_false_2 by (intros [x Hx]; discriminate Hx).
    simpl. rewrite dict_get_set_eq. simpl.
    eexists. split; [reflexivity |].
    split; [apply dict_get_set_eq |].
    intros k Hk. rewrite !dict_get_set_ne by exact Hk. reflexivity.
Qed.

Lemma length_filter_insert {A : Type} (P : string * A -> Prop)
  `{!forall x, Decision (P x)} (m : gmap string A) (k : string) (v : A) :
  m !! k = None -> P (k, v) ->
  length (filter P (map_to_list (<[k := v]> m)))
  = S (length (filter P (map_to_list m))).
Proof.
  intros Hk HP. rewrite (map_to_list_insert m k v Hk).
  rewrite filter_cons, decide_True by exact HP. reflexivity.
Qed.

(** The part of [RecordMessage] that appends the message to the state
    file. *)
Lemma wp_append_message (env : Env) (Message : JValue) (sid : string)
  (d : list (string * JValue)) (w : World) :
  self_SessionId w = Some sid -> sid <> "" ->
  state_file Active sid w = Some (JsonDoc (JDict d)) -> d <> [] ->
  messages_well_formed (JDict d) = true ->
  wp (do State <- SessionManager.LoadSessionState;
      if truthy State
      then
        do State <- lift (Messages.messages_append State Message);
        do _ <- SessionManager.SaveSessionState env State;
        ret tt
      else ret tt)
    (fun o w' =>
       o = Ok tt
       /\ self_SessionId w' = Some sid
       /\ Sessions (Db w') = Sessions (Db w)
       /\ SessionRelationships (Db w') = SessionRelationships (Db w)
       /\ exists d',
            state_file Active sid w' = Some (JsonDoc (JDict d'))
            /\ dict_get "Messages" d'
               = Some (JList (match dict_get "Messages" d with
                              | Some (JList l) => l
                              | _ => []
                              end ++ [Message]))
            /\ forall k, k <> "Messages" -> k <> "LastModified" ->
                         dict_get k d' = dict_get k d) w.
Proof.
  intros Hs Hne Hfile Hd Hwf.
  destruct (messages_append_dict d Message Hwf) as (d1 & Happ & Hm & Hother).
  apply wp_bind, wp_LoadSessionState. intros v Hv.
  rewrite (LoadSessionState_reads w sid (JDict d) Hs Hne Hfile) in Hv.
  injection Hv as <-. cbv beta iota.
  replace (truthy (JDict d)) with true by (destruct d; [congruence |
      reflexivity]).
  apply wp_bind, wp_lift. rewrite Happ. cbv beta iota.
  apply wp_bind.
  assert (Hdir : exists dir, ActiveSessionDir (Fs w) !! sid = Some dir).
  { unfold state_file in Hfile. simpl in Hfile.
    destruct (ActiveSessionDir (Fs w) !! sid); [eauto | discriminate]. }
  destruct Hdir as (dir & Hdir).
  apply (wp_SaveSessionState_dict env d1 sid dir _ w Hs Hne Hdir).
  intros b w' Hs' Hses' _ Hrel' Hfs'. cbv beta iota. apply wp_ret.
  split; [reflexivity |]. split; [exact Hs' |]. split; [exact Hses' |].
  split; [exact Hrel' |].
  eexists. split.
  { unfold state_file. rewrite Hfs'. simpl. rewrite lookup_insert_eq.
    reflexivity. }
  split.
  { rewrite dict_get_set_ne by discriminate. exact Hm. }
  intros k Hk1 Hk2. rewrite dict_get_set_ne by exact Hk2. apply Hother, Hk1.
Qed.

(** X26. With a session active that has its row, a fresh uuid and a state
    file that holds a non-empty dict whose ["Messages"] entry, if any, is a
    list, [RecordMessage] returns the new message id and afterwards: the
    store has the message, for the current session and with the time read
    from the clock; the state file holds the former document with the
    message appended to ["Messages"] and a new ["LastModified"];
    [GetSessionMessages] of the session without a limit lists the message;
    and the message count [GetSessionInfo] reports has grown by one. *)
Theorem RecordMessage_records (env : Env) (Source Content sid : string)
  (s : Messages.Store) (d : list (string * JValue)) :
  let w := Messages.world s in
  let MessageId := uuid_at env (Draws w) in
  let Timestamp := isoformat (clock_at env (Ticks w)) in
  self_SessionId w = Some sid -> sid <> "" ->
  is_Some (Sessions (Db w) !! sid) ->
  Messages.Conversations s !! MessageId = None ->
  state_file Active sid w = Some (JsonDoc (JDict d)) -> d <> [] ->
  messages_well_formed (JDict d) = true ->
  exists s' d' L info info',
    Messages.RecordMessage env Source Content s = (Ok (Some MessageId), s')
    /\ Messages.Conversations s'
       = <[MessageId := MessageRow.Mk sid Timestamp Source Content]>
           (Messages.Conversations s)
    /\ SessionManager.LoadSessionState (Messages.world s')
       = (Ok (JDict d'), Messages.world s')
    /\ dict_get "Messages" d'
       = Some (JList
                 (match dict_get "Messages" d with
                  | Some (JList l) => l
                  | _ => []
                  end
                  ++ [JDict [("MessageId", JStr MessageId);
                             ("Timestamp", JStr Timestamp);
                             ("Source", JStr Source);
                             ("Content", JStr Content)]]))
    /\ (forall k, k <> "Messages" -> k <> "LastModified" ->
          dict_get k d' = dict_get k d)
    /\ Messages.GetSessionMessages (Some sid) (-1) s' = (Ok L, s')
    /\ Message.Mk MessageId Timestamp Source Content ∈ L
    /\ Messages.GetSessionInfo (Some sid) s = (Ok (Some info), s)
    /\ Messages.GetSessionInfo (Some sid) s' = (Ok (Some info'), s')
    /\ SessionInfo.MessageCount info' = S (SessionInfo.MessageCount info).
Proof.
  destruct s as [w C]. cbv zeta. simpl Messages.world.
  simpl Messages.Conversations.
  set (MessageId := uuid_at env (Draws w)).
  set (Timestamp := isoformat (clock_at env (Ticks w))).
  intros Hs Hne [row Hrow] Hfresh Hfile Hd Hwf.
  set (Message := JDict [("MessageId", JStr MessageId);
                         ("Timestamp", JStr Timestamp);
                         ("Source", JStr Source); ("Content", JStr Content)]).
  set (w2 := set_Ticks (S (Ticks w)) (set_Draws (S (Draws w)) w)).
  pose proof (wp_append_message env Message sid d w2 Hs Hne Hfile Hd Hwf) as H.
  apply wp_elim in H
    as (o & w' & E & -> & Hs' & Hses' & Hrel' & d' & Hfile' & Hm & Hother).
  exists (Messages.MkStore w'
            (<[MessageId := MessageRow.Mk sid Timestamp Source Content]> C)),
                d'.
  eexists _, _, _.
  split.
  { unfold Messages.RecordMessage, Messages.try_except_ms, Messages.bind_ms,
      Messages.in_world, Messages.ret_ms, Messages.InsertWithId_Conversations,
      gets, uuid4, datetime_now.
    simpl. rewrite Hs, (str_truthy_nonempty sid Hne). simpl.
    fold MessageId. rewrite Hfresh.
    rewrite (bool_decide_eq_false_2 (is_Some None))
      by (intros [x Hx]; discriminate Hx).
    rewrite Hrow. rewrite bool_decide_eq_true_2 by eauto.
    simpl. fold Timestamp Message w2. rewrite E. reflexivity. }
  split; [reflexivity |].
  split; [apply (LoadSessionState_reads w' sid _ Hs' Hne Hfile') |].
  split; [exact Hm |]. split; [exact Hother |].
  split.
  { unfold Messages.GetSessionMessages, Messages.try_except_ms,
      Messages.bind_ms,
      Messages.in_world, Messages.ret_ms, Messages.ExecuteQuery_Messages, gets.
    rewrite (str_truthy_nonempty sid Hne). simpl. reflexivity. }
  split.
  { apply list_elem_of_fmap.
    exists (MessageId, MessageRow.Mk sid Timestamp Source Content).
    split; [reflexivity |].
    unfold sql_limit. simpl.
    rewrite merge_sort_Permutation, list_elem_of_filter, elem_of_map_to_list.
    split; [reflexivity | apply lookup_insert_eq]. }
  split.
  { unfold Messages.GetSessionInfo, Messages.try_except_ms, Messages.bind_ms,
      Messages.in_world, Messages.ret_ms, Messages.ExecuteQuery_Session,
      Messages.ExecuteQuery_MessageCount, Messages.ExecuteQuery_ResumedFrom,
      gets.
    rewrite (str_truthy_nonempty sid Hne). simpl. rewrite Hrow.
    reflexivity. }
  split.
  { unfold Messages.GetSessionInfo, Messages.try_except_ms, Messages.bind_ms,
      Messages.in_world, Messages.ret_ms, Messages.ExecuteQuery_Session,
      Messages.ExecuteQuery_MessageCount, Messages.ExecuteQuery_ResumedFrom,
      gets.
    rewrite (str_truthy_nonempty sid Hne). simpl.
    rewrite Hses'. simpl. rewrite Hrow. reflexivity. }
  simpl. apply length_filter_insert; [exact Hfresh | reflexivity].
Qed.

(** X27. With no current session [RecordMessage] returns [None], and
    [GetSessionMessages] and [GetSessionInfo] called without a session id
    return the empty list and [None]; nothing changes.  [GetSessionInfo] of
    an id that has no row returns [None] as well. *)
Theorem Messages_no_session (env : Env) (Source Content : string) (Limit : Z)
  (s : Messages.Store) :
  str_truthy (self_SessionId (Messages.world s)) = false ->
  Messages.RecordMessage env Source Content s = (Ok None, s)
  /\ Messages.GetSessionMessages None Limit s = (Ok [], s)
  /\ Messages.GetSessionInfo None s = (Ok None, s)
  /\ (forall id, Sessions (Db (Messages.world s)) !! id = None ->
        Messages.GetSessionInfo (Some id) s = (Ok None, s)).
Proof.
  intros H. destruct s as [w C]. simpl in H.
  unfold Messages.RecordMessage, Messages.GetSessionMessages,
    Messages.GetSessionInfo, Messages.try_except_ms, Messages.bind_ms,
    Messages.in_world, Messages.ret_ms, Messages.ExecuteQuery_Session, gets.
  simpl. rewrite H. simpl.
  repeat split.
  intros id Hid. destruct id as [|a id]; simpl; [reflexivity |].
  rewrite Hid. reflexivity.
Qed.

(** ** When the store rejects a row *)

(** X28. When the store rejects the action row (the current session has no
    row, or the uuid drawn is already an action id), [RecordAction] returns
    [None]; it has read the clock and drawn a uuid, and changed nothing
    else.  [ExecuteAction] then returns its failure triple without an action
    id and does not call the function. *)
Theorem ExecuteAction_record_rejected (env : Env) (ActionType : string)
  (fn : ActionFunction) (Params : option (list (string * JValue)))
  (sid : string) (w : World) :
  self_SessionId w = Some sid -> sid <> "" ->
  Sessions (Db w) !! sid = None
  \/ is_Some (Actions (Db w) !! uuid_at env (Draws w)) ->
  ActionTracker.RecordAction env ActionType Params w
  = (Ok None, set_Ticks (S (Ticks w)) (set_Draws (S (Draws w)) w))
  /\ ActionTracker.ExecuteAction env ActionType fn Params w
     = (Ok (false, JDict [("Error", JStr "Failed to record action")], None),
        set_Ticks (S (Ticks w)) (set_Draws (S (Draws w)) w)).
Proof.
  intros Hs Hne Hrej.
  assert (Hrec : ActionTracker.RecordAction env ActionType Params w
                 = (Ok None, set_Ticks (S (Ticks w)) (set_Draws (S (Draws w))
                     w))).
  { unfold ActionTracker.RecordAction.
    assert (Hins : forall params,
              exists e,
                DatabaseManager.InsertWithId
                  (IntoActions (uuid_at env (Draws w)) sid ActionType
                     (isoformat (clock_at env (Ticks w))) "STARTED" params)
                  (set_Ticks (S (Ticks w)) (set_Draws (S (Draws w)) w))
                = (Raise e, set_Ticks (S (Ticks w)) (set_Draws (S (Draws w))
                    w))).
    { intros params.
      unfold DatabaseManager.InsertWithId, DatabaseManager.insert_row. simpl.
      case_bool_decide as Ht; [eauto |].
      destruct Hrej as [Hrow | Htaken]; [| contradiction].
      rewrite Hrow.
      rewrite (bool_decide_eq_false_2 (is_Some None))
        by (intros [x Hx]; discriminate Hx).
      eauto. }
    destruct (Hins (if truthy (params_value Params)
                    then Some (params_value Params) else None)) as (e & He).
    erewrite try_except_raise; [reflexivity |].
    rewrite (bind_ok _ _ w w (Some sid))
      by (unfold gets; rewrite Hs; reflexivity).
    rewrite (str_truthy_nonempty sid Hne). cbv beta iota delta [negb].
    eval_step (uuid4 env). eval_step (datetime_now env).
    simpl default.
    rewrite (bind_raise _ _ _ _ _ He). reflexivity. }
  split; [exact Hrec |].
  unfold ActionTracker.ExecuteAction.
  apply try_except_ok. rewrite (bind_ok _ _ _ _ _ Hrec). reflexivity.
Qed.

(** X29. A collision of ids leaves the manager on the id that was taken.
    When the id [StartSession] allocates is already a session id of the
    store, the call raises the error of the store after it has ended the
    session that was current, if any, and made the id the current session:
    no row, directory or lock file is created, and the manager is left with
    the id of the session that already has the row.  The same holds for
    [ResumeSession] of a session that has its directory under the crashed
    partition, when the new id is taken. *)
Theorem collision_leaves_taken_id (env : Env) (SessionId : string) (w : World) :
  (is_Some (Sessions (Db w) !! started_id env w) ->
   SessionManager.StartSession env w
   = (Raise (IntegrityError "UNIQUE constraint failed: Sessions.SessionId"),
      let w1 := after_ending env "Ended to start new session" w in
      set_Ticks (S (S (Ticks w1))) (set_SessionId (Some (started_id env w))
          w1)))
  /\ (is_Some (CrashSessionDir (Fs w) !! SessionId) ->
      is_Some (Sessions (Db w) !! resumed_id env SessionId w) ->
      SessionManager.ResumeSession env SessionId w
      = (Raise (IntegrityError "UNIQUE constraint failed: Sessions.SessionId"),
         let w1 := after_ending env "Ended to resume crashed session" w in
         set_Ticks (S (S (Ticks w1)))
           (set_SessionId (Some (resumed_id env SessionId w)) w1))).
Proof.
  split.
  - intros Htaken.
    destruct (ending_step env "Ended to start new session" w) as (Hend & Hkeep).
    unfold SessionManager.StartSession.
    eval_step (gets self_SessionId).
    rewrite (bind_ok _ _ _ _ _ Hend).
    eval_step (datetime_now env). eval_step (modify _).
    eval_step (datetime_now env).
    erewrite bind_raise; [reflexivity |].
    apply InsertWithId_session_taken. simpl.
    apply (keeps_store_is_Some w _ _ Hkeep). exact Htaken.
  - intros Hcr Htaken.
    destruct (ending_step env "Ended to resume crashed session" w)
      as (Hend & Hkeep).
    unfold SessionManager.ResumeSession.
    rewrite (bind_ok _ _ w w true)
      by (unfold gets, dir_exists, part; rewrite bool_decide_eq_true_2 by exact
          Hcr;
          reflexivity).
    cbv beta iota delta [negb].
    eval_step (gets self_SessionId).
    rewrite (bind_ok _ _ _ _ _ Hend).
    eval_step (datetime_now env). eval_step (modify _).
    eval_step (datetime_now env).
    erewrite bind_raise; [reflexivity |].
    apply InsertWithId_session_taken. simpl.
    apply (keeps_store_is_Some w _ _ Hkeep). exact Htaken.
Qed.

(** ** The relationship a resume records *)

#[global] Instance keeps_relationships_preorder : PreOrder keeps_relationships.
Proof.
  split.
  - intros w. reflexivity.
  - intros w1 w2 w3 H1 H2. unfold keeps_relationships in *. congruence.
Qed.

Ltac relationships_prim :=
  intros w; unfold keeps_relationships, DatabaseManager.InsertWithId,
    DatabaseManager.insert_row, DatabaseManager.Update, datetime_now, uuid4,
    write_state_file, makedirs, modify, shutil_move;
  simpl; repeat case_match; simplify_eq; reflexivity.

Lemma datetime_now_keeps_relationships (env : Env) :
  stable keeps_relationships (datetime_now env).
Proof. relationships_prim. Qed.

Lemma uuid4_keeps_relationships (env : Env) :
  stable keeps_relationships (uuid4 env).
Proof. relationships_prim. Qed.

Lemma InsertWithId_snapshot_keeps_relationships (nid sid ts : string)
  (data : JValue) :
  stable keeps_relationships
    (DatabaseManager.InsertWithId (IntoStateSnapshots nid sid ts data)).
Proof. relationships_prim. Qed.

Lemma InsertWithId_log_keeps_relationships (ts lvl comp msg : string)
  (sid : option string) (data : option JValue) :
  stable keeps_relationships
    (DatabaseManager.InsertWithId (IntoSystemLogs ts lvl comp msg sid data)).
Proof. relationships_prim. Qed.

Lemma Update_keeps_relationships (u : UpdateStmt) :
  stable keeps_relationships (DatabaseManager.Update u).
Proof. intros w. destruct u; reflexivity. Qed.

Lemma write_state_file_keeps_relationships (p : Partition) (name : string)
  (v : JValue) :
  stable keeps_relationships (write_state_file p name v).
Proof. relationships_prim. Qed.

Lemma shutil_move_keeps_relationships (src dst : Partition) (name : string) :
  stable keeps_relationships (shutil_move src dst name).
Proof. relationships_prim. Qed.

Lemma set_Fs_keeps_relationships (f : FileSystem -> FileSystem) :
  stable keeps_relationships (modify (set_Fs f)).
Proof. intros w. reflexivity. Qed.

Lemma set_SessionId_keeps_relationships (o : option string) :
  stable keeps_relationships (modify (set_SessionId o)).
Proof. intros w. reflexivity. Qed.

#[global] Hint Resolve datetime_now_keeps_relationships
  uuid4_keeps_relationships InsertWithId_snapshot_keeps_relationships
  InsertWithId_log_keeps_relationships Update_keeps_relationships
  write_state_file_keeps_relationships shutil_move_keeps_relationships
  set_Fs_keeps_relationships set_SessionId_keeps_relationships : stable.

Lemma SaveSessionState_keeps_relationships (env : Env) (State : JValue) :
  stable keeps_relationships (SessionManager.SaveSessionState env State).
Proof. unfold SessionManager.SaveSessionState. stable_steps. Qed.

Lemma LogToDatabase_keeps_relationships (env : Env) (lvl comp msg : string)
  (sid : option string) (data : option JValue) :
  stable keeps_relationships
    (DatabaseManager.LogToDatabase env lvl comp msg sid data).
Proof. unfold DatabaseManager.LogToDatabase. stable_steps. Qed.

#[global] Hint Resolve SaveSessionState_keeps_relationships
  LogToDatabase_keeps_relationships : stable.

Lemma EndSession_keeps_relationships (env : Env) (Summary : option string) :
  stable keeps_relationships (SessionManager.EndSession env Summary).
Proof. unfold SessionManager.EndSession. stable_steps. Qed.

Lemma filter_none {A : Type} (P Q : A -> Prop)
  `{!forall x, Decision (P x), !forall x, Decision (Q x)} (l : list A) :
  (forall x, x ∈ l -> ~ P x) -> filter (fun x => P x /\ Q x) l = [].
Proof.
  intros Hl. induction l as [|x l IH]; [reflexivity |].
  rewrite filter_cons, decide_False.
  - apply IH. intros y Hy. apply Hl. right. exact Hy.
  - intros [HP _]. apply (Hl x); [left | exact HP].
Qed.

Lemma total_try_except_handler {A : Type} (m : M A) (h : Exn -> M A) :
  (forall e, total (h e)) -> total (try_except m h).
Proof.
  intros Hh w. unfold try_except.
  destruct (m w) as [[a|e] w1]; [eauto | apply Hh].
Qed.

Lemma wp_frame2 {A : Type} (R1 R2 : relation World) (m : M A)
  (Q : Outcome A -> World -> Prop) (w : World) :
  total m -> stable R1 m -> stable R2 m ->
  (forall a w1, R1 w w1 -> R2 w w1 -> Q (Ok a) w1) ->
  wp m Q w.
Proof.
  intros Ht H1 H2 HQ. unfold wp. specialize (H1 w). specialize (H2 w).
  destruct (Ht w) as (a & w1 & E). rewrite E in *. apply HQ; assumption.
Qed.

Lemma ResumeSession_relationship (env : Env) (SessionId : string) (w : World) :
  is_Some (CrashSessionDir (Fs w) !! SessionId) ->
  is_Some (Sessions (Db w) !! SessionId) ->
  Sessions (Db w) !! resumed_id env SessionId w = None ->
  wp (SessionManager.ResumeSession env SessionId)
    (fun o w' =>
       o = Ok (Some (resumed_id env SessionId w))
       /\ Sessions (Db w') !! resumed_id env SessionId w
          = Some (SessionRow.Mk (resumed_StartTime env w) None "ACTIVE" None)
       /\ SessionRelationships (Db w')
          = SessionRelationships (Db w)
            ++ [RelationRow.Mk SessionId (resumed_id env SessionId w) "RESUME"])
    w.
Proof.
  intros Hcr Hrow Hfresh.
  destruct (ending_step env "Ended to resume crashed session" w)
    as (Hend & Hkeep).
  assert (Hrel1 : SessionRelationships
                    (Db (after_ending env "Ended to resume crashed session" w))
                  = SessionRelationships (Db w)).
  { unfold after_ending. destruct (str_truthy (self_SessionId w)); [|
      reflexivity].
    apply EndSession_keeps_relationships. }
  set (w1 := after_ending env "Ended to resume crashed session" w) in *.
  set (id := resumed_id env SessionId w).
  unfold SessionManager.ResumeSession.
  apply wp_bind, wp_gets. cbv beta iota.
  unfold dir_exists at 1, part.
  rewrite bool_decide_eq_true_2 by exact Hcr. cbv beta iota delta [negb].
  apply wp_bind, wp_gets. cbv beta iota.
  apply wp_bind. eapply wp_intro; [exact Hend |]. cbv beta iota.
  apply wp_bind, wp_datetime_now. cbv beta iota.
  change (SessionId +:+ "_resumed_" +:+ strftime (clock_at env (Ticks w1)))
    with id.
  apply wp_bind, wp_modify. cbv beta iota.
  apply wp_bind, wp_datetime_now. cbv beta iota.
  apply wp_bind. eapply wp_intro.
  { apply InsertWithId_session_fresh. simpl.
    apply (keeps_store_lookup w w1 id Hkeep). exact Hfresh. }
  cbv beta iota.
  apply wp_bind. eapply wp_intro.
  { apply InsertWithId_relationship; simpl.
    - apply lookup_insert_is_Some'. right.
      apply (keeps_store_is_Some w w1 _ Hkeep). exact Hrow.
    - rewrite lookup_insert_eq. eauto. }
  cbv beta iota.
  apply wp_bind, wp_modify. cbv beta iota.
  apply wp_bind. eapply wp_intro; [apply CreateLockFile_writes; reflexivity |].
  cbv beta iota.
  apply wp_bind, wp_gets. cbv beta iota.
  match goal with
  | |- context [state_file Crashed SessionId ?W] =>
      generalize (state_file Crashed SessionId W); intros file
  end.
  apply wp_bind.
  apply (wp_frame2 keeps_session keeps_relationships).
  { destruct file.
    - apply total_try_except_handler. intros e.
      apply total_bind; [apply SaveSessionState_total | intros; apply
          total_ret].
    - apply total_bind; [apply SaveSessionState_total | intros; apply
        total_ret]. }
  { stable_steps. }
  { stable_steps. }
  intros [] w5 K5 R5. cbv beta iota.
  apply wp_bind.
  apply (wp_frame2 keeps_session keeps_relationships);
    [apply LogToDatabase_total | apply LogToDatabase_keeps_session
    | apply LogToDatabase_keeps_relationships |].
  intros [] w6 K6 R6. apply wp_ret.
  destruct K5 as (_ & K5 & _), K6 as (_ & K6 & _).
  unfold keeps_relationships in *.
  split; [reflexivity |].
  split.
  - rewrite K6, K5. simpl. apply lookup_insert_eq.
  - rewrite R6, R5. simpl. rewrite Hrel1. reflexivity.
Qed.


(** * The further properties at concrete worlds *)

Lemma action_listings_recent_witness :
  (exists rows,
     ActionTracker.GetSessionActions (Some "20250318190000") 5 w_recorded
     = (Ok (ActionTracker.session_action_of <$> rows), w_recorded)
     /\ (forall id r, (id, r) ∈ rows ->
           Actions (Db w_recorded) !! id = Some r /\ ActionRow.SessionId r =
               "20250318190000")
     /\ NoDup rows.*1
     /\ StronglySorted (newest_first ActionRow.StartTime) rows
     /\ length rows
        = (if Z.ltb 5 0
           then length (DatabaseManager.session_actions "20250318190000" (Db
               w_recorded))
           else Nat.min (Z.to_nat 5)
                  (length (DatabaseManager.session_actions "20250318190000" (Db
                      w_recorded))))
     /\ (forall id r x,
           Actions (Db w_recorded) !! id = Some r -> ActionRow.SessionId r =
               "20250318190000" ->
           (id, r) ∉ rows -> x ∈ rows ->
           String.leb (ActionRow.StartTime r) (ActionRow.StartTime x.2) = true))
  /\ (exists rows,
        ActionTracker.GetActionsByType "BUILD" 5 w_recorded
        = (Ok (ActionTracker.action_of <$> rows), w_recorded)
        /\ (forall id r, (id, r) ∈ rows ->
              Actions (Db w_recorded) !! id = Some r /\ ActionRow.ActionType r
                  = "BUILD")
        /\ NoDup rows.*1
        /\ StronglySorted (newest_first ActionRow.StartTime) rows
        /\ (forall id r x,
              Actions (Db w_recorded) !! id = Some r -> ActionRow.ActionType r
                  = "BUILD" ->
              (id, r) ∉ rows -> x ∈ rows ->
              String.leb (ActionRow.StartTime r) (ActionRow.StartTime x.2) =
                  true)).
Proof.
  apply (action_listings_recent "20250318190000" "BUILD" 5 w_recorded).
  - by_compute.
  - lia.
Defined.

Lemma GetSessionStateSnapshots_recent_witness :
  exists L,
    SessionManager.GetSessionStateSnapshots (Some "20250318190000") (-1)
        w_recorded = (Ok L, w_recorded)
    /\ (forall s, s ∈ L ->
          exists r, StateSnapshots (Db w_recorded) !! SnapshotInfo.SnapshotId s
              = Some r
                    /\ SnapshotRow.SessionId r = "20250318190000"
                    /\ SnapshotInfo.SessionId s = "20250318190000"
                    /\ SnapshotInfo.Timestamp s = SnapshotRow.Timestamp r)
    /\ NoDup (SnapshotInfo.SnapshotId <$> L)
    /\ StronglySorted
         (fun s t => String.leb (SnapshotInfo.Timestamp t)
                       (SnapshotInfo.Timestamp s) = true) L
    /\ (forall id r s,
          StateSnapshots (Db w_recorded) !! id = Some r ->
              SnapshotRow.SessionId r = "20250318190000" ->
          id ∉ SnapshotInfo.SnapshotId <$> L -> s ∈ L ->
          String.leb (SnapshotRow.Timestamp r) (SnapshotInfo.Timestamp s) =
              true)
    /\ (((-1) < 0)%Z ->
        forall id r,
          StateSnapshots (Db w_recorded) !! id = Some r ->
              SnapshotRow.SessionId r = "20250318190000" ->
          id ∈ SnapshotInfo.SnapshotId <$> L).
Proof.
  apply (GetSessionStateSnapshots_recent "20250318190000" (-1) w_recorded).
  - by_compute.
  - lia.
Defined.

Lemma GetActionStats_consistent_witness :
  exists st,
    ActionTracker.GetActionStats (Some "20250318190000") w_completed = (Ok
        (Some st), w_completed)
    /\ ActionStats.TotalCount st
       = length (DatabaseManager.session_actions "20250318190000" (Db
           w_completed))
    /\ (forall s,
          default 0 (ActionStats.StatusCounts st !! s)
          = length (filter (fun r => ActionRow.Status r = s)
                      (DatabaseManager.session_actions "20250318190000" (Db
                          w_completed))))
    /\ (forall ty,
          default 0 (ActionStats.TypeCounts st !! ty)
          = length (filter (fun r => ActionRow.ActionType r = ty)
                      (DatabaseManager.session_actions "20250318190000" (Db
                          w_completed))))
    /\ (forall s, ActionStats.StatusCounts st !! s <> Some 0)
    /\ (forall ty, ActionStats.TypeCounts st !! ty <> Some 0)
    /\ sum_counts (ActionStats.StatusCounts st) = ActionStats.TotalCount st
    /\ sum_counts (ActionStats.TypeCounts st) = ActionStats.TotalCount st
    /\ (forall L,
          ActionTracker.GetPendingActions (Some "20250318190000") w_completed =
              (Ok L, w_completed) ->
          default 0 (ActionStats.StatusCounts st !! "STARTED") = length L).
Proof.
  apply (GetActionStats_consistent "20250318190000" w_completed).
  - by_compute.
Defined.

Lemma ActionTracker_no_session_witness :
  ActionTracker.CompleteAction env_example "uuid-1" (JNum 7) "COMPLETED"
      w_empty = (Ok false, w_empty)
  /\ ActionTracker.CancelAction env_example "uuid-1" w_empty = (Ok false,
      w_empty)
  /\ ActionTracker.RetryAction env_example "uuid-1" w_empty = (Ok None, w_empty)
  /\ ActionTracker.GetPendingActions None w_empty = (Ok [], w_empty)
  /\ ActionTracker.GetSessionActions None 5 w_empty = (Ok [], w_empty)
  /\ ActionTracker.GetActionStats None w_empty = (Ok None, w_empty).
Proof.
  apply (ActionTracker_no_session env_example "uuid-1" "COMPLETED" (JNum 7) 5
      w_empty).
  - reflexivity.
Defined.

Lemma RecordAction_GetActionById_witness :
  exists w' L,
    ActionTracker.RecordAction env_example "BUILD" (Some [("target", JStr
        "x")]) w_started
    = (Ok (Some (uuid_at env_example (Draws w_started))), w')
    /\ ActionTracker.GetActionById (uuid_at env_example (Draws w_started)) w'
       = (Ok (Some (Action.Mk (uuid_at env_example (Draws w_started))
           "20250318190000" "BUILD"
                      (isoformat (clock_at env_example (Ticks w_started))) None
                          "STARTED"
                      (match (Some [("target", JStr "x")]) with
                       | Some (p :: d) => JDict (p :: d)
                       | _ => JNull
                       end)
                      JNull)), w')
    /\ ActionTracker.GetPendingActions (Some "20250318190000") w' = (Ok L, w')
    /\ uuid_at env_example (Draws w_started) ∈ PendingAction.ActionId <$> L.
Proof.
  apply (RecordAction_GetActionById env_example "BUILD" (Some [("target", JStr
      "x")]) "20250318190000" w_started state_started).
  - vm_compute. reflexivity.
  - by_compute.
  - vm_compute. eauto.
  - vm_compute. reflexivity.
  - vm_compute. reflexivity.
  - vm_compute. reflexivity.
Defined.

Lemma RetryAction_new_action_witness :
  exists w',
    ActionTracker.RetryAction env_example "uuid-1" w_completed
    = (Ok (Some (uuid_at env_example (Draws w_completed))), w')
    /\ Actions (Db w') !! uuid_at env_example (Draws w_completed)
       = Some (ActionRow.Mk "20250318190000" (ActionRow.ActionType r_completed)
                 (isoformat (clock_at env_example (Ticks w_completed))) None
                     "STARTED"
                 (Some (JDict (dict_set "RetryOf" (JStr "uuid-1")
                                 (match ActionRow.Params r_completed with
                                  | Some (JDict d) => d
                                  | _ => []
                                  end))))
                 None)
    /\ Actions (Db w') !! "uuid-1" = Some r_completed
    /\ (forall id, id <> uuid_at env_example (Draws w_completed) ->
          Actions (Db w') !! id = Actions (Db w_completed) !! id).
Proof.
  apply (RetryAction_new_action env_example "uuid-1" "20250318190000"
      w_completed r_completed state_completed).
  - vm_compute. reflexivity.
  - by_compute.
  - vm_compute. eauto.
  - vm_compute. reflexivity.
  - intros _. eexists. reflexivity.
  - vm_compute. reflexivity.
  - vm_compute. reflexivity.
  - vm_compute. reflexivity.
Defined.

Lemma CancelAction_once_witness :
  exists w',
    ActionTracker.CancelAction env_example "uuid-1" w_recorded = (Ok true, w')
    /\ Actions (Db w')
       = <["uuid-1" :=
             ActionRow.Mk (ActionRow.SessionId r_recorded)
                 (ActionRow.ActionType r_recorded)
               (ActionRow.StartTime r_recorded)
               (Some (isoformat (clock_at env_example (Ticks w_recorded))))
                   "CANCELED"
               (ActionRow.Params r_recorded)
               (Some (JDict [("Reason", JStr "Canceled by user")]))]>
           (Actions (Db w_recorded))
    /\ ActionTracker.CancelAction env_example "uuid-1" w' = (Ok false, w').
Proof.
  apply (CancelAction_once env_example "uuid-1" "20250318190000" w_recorded
      r_recorded state_recorded).
  - vm_compute. reflexivity.
  - by_compute.
  - vm_compute. reflexivity.
  - reflexivity.
  - vm_compute. reflexivity.
  - vm_compute. reflexivity.
Defined.

Lemma CompleteAction_unknown_id_witness :
  exists w',
    ActionTracker.CompleteAction env_example "no-such-action" (JNum 7)
        "COMPLETED" w_started = (Ok true, w')
    /\ Actions (Db w') = Actions (Db w_started)
    /\ ActionTracker.GetActionById "no-such-action" w' = (Ok None, w').
Proof.
  apply (CompleteAction_unknown_id env_example "no-such-action" "COMPLETED"
      "20250318190000" (JNum 7) w_started state_started).
  - vm_compute. reflexivity.
  - by_compute.
  - vm_compute. reflexivity.
  - vm_compute. reflexivity.
  - vm_compute. reflexivity.
Defined.

Lemma RecordAction_mirror_witness :
  exists w' d',
    ActionTracker.RecordAction env_example "BUILD" (Some [("target", JStr
        "x")]) w_started
    = (Ok (Some (uuid_at env_example (Draws w_started))), w')
    /\ SessionManager.LoadSessionState w' = (Ok (JDict d'), w')
    /\ dict_get "Actions" d'
       = Some (JList
                 (match dict_get "Actions" dict_started with
                  | Some (JList l) => l
                  | _ => []
                  end
                  ++ [JDict [("ActionId", JStr (uuid_at env_example (Draws
                      w_started)));
                             ("ActionType", JStr "BUILD");
                             ("StartTime",
                              JStr (isoformat (clock_at env_example (Ticks
                                  w_started))));
                             ("Status", JStr "STARTED");
                             ("Params", params_value (Some [("target", JStr
                                 "x")]));
                             ("Result", JNull)]]))
    /\ dict_get "LastModified" d'
       = Some (JStr (isoformat (clock_at env_example (S (Ticks w_started)))))
    /\ (forall k, k <> "Actions" -> k <> "LastModified" ->
          dict_get k d' = dict_get k dict_started).
Proof.
  apply (RecordAction_mirror env_example "BUILD" (Some [("target", JStr "x")])
      "20250318190000" w_started dict_started).
  - vm_compute. reflexivity.
  - by_compute.
  - vm_compute. eauto.
  - vm_compute. reflexivity.
  - vm_compute. reflexivity.
  - by_compute.
  - vm_compute. reflexivity.
Defined.

Lemma SaveSessionState_round_trip_witness :
  exists w',
    SessionManager.SaveSessionState env_example (JDict [("Note", JStr
        "saved")]) w_started = (Ok true, w')
    /\ SessionManager.LoadSessionState w'
       = (Ok (JDict (dict_set "LastModified"
                       (JStr (isoformat (clock_at env_example (Ticks
                           w_started)))) [("Note", JStr "saved")])), w')
    /\ StateSnapshots (Db w')
       = <[uuid_at env_example (Draws w_started) :=
             SnapshotRow.Mk "20250318190000" (isoformat (clock_at env_example
                 (Ticks w_started)))
               (JDict (dict_set "LastModified"
                         (JStr (isoformat (clock_at env_example (Ticks
                             w_started)))) [("Note", JStr "saved")]))]>
           (StateSnapshots (Db w_started))
    /\ SessionManager.GetSessionStateSnapshot (uuid_at env_example (Draws
        w_started)) w'
       = (Ok (Some (Snapshot.Mk (uuid_at env_example (Draws w_started))
           "20250318190000"
                      (isoformat (clock_at env_example (Ticks w_started)))
                      (JDict (dict_set "LastModified"
                                (JStr (isoformat (clock_at env_example (Ticks
                                    w_started)))) [("Note", JStr "saved")])))),
          w').
Proof.
  apply (SaveSessionState_round_trip env_example [("Note", JStr "saved")]
      "20250318190000" w_started).
  - vm_compute. reflexivity.
  - by_compute.
  - vm_compute. eauto.
  - vm_compute. eauto.
  - vm_compute. reflexivity.
Defined.

Lemma SaveSessionState_file_before_snapshot_witness :
  exists w',
    SessionManager.SaveSessionState env_example (JDict [("Note", JStr
        "saved")]) w_no_row = (Ok false, w')
    /\ Db w' = Db w_no_row
    /\ SessionManager.LoadSessionState w'
       = (Ok (JDict (dict_set "LastModified"
                       (JStr (isoformat (clock_at env_example (Ticks
                           w_no_row)))) [("Note", JStr "saved")])), w').
Proof.
  apply (SaveSessionState_file_before_snapshot env_example [("Note", JStr
      "saved")] "20250318190000" w_no_row).
  - vm_compute. reflexivity.
  - by_compute.
  - vm_compute. eauto.
  - left. vm_compute. reflexivity.
Defined.

Lemma StartSession_fresh_witness :
  exists w',
    SessionManager.StartSession env_example w_empty = (Ok (started_id
        env_example w_empty), w')
    /\ self_SessionId w' = Some (started_id env_example w_empty)
    /\ Sessions (Db w') !! started_id env_example w_empty
       = Some (SessionRow.Mk (started_StartTime env_example w_empty) None
           "ACTIVE" None)
    /\ LockFile (Fs w') = Some (started_id env_example w_empty)
    /\ SessionManager.LoadSessionState w'
       = (Ok (JDict [("SessionId", JStr (started_id env_example w_empty));
                     ("StartTime", JStr (started_StartTime env_example
                         w_empty));
                     ("Messages", JList []); ("Context", JDict []);
                     ("LastModified", JStr (started_LastModified env_example
                         w_empty))]), w')
    /\ Actions (Db w') = Actions (Db w_empty)
    /\ CrashSessionDir (Fs w') = CrashSessionDir (Fs w_empty).
Proof.
  apply (StartSession_fresh env_example w_empty).
  - vm_compute. reflexivity.
  - by_compute.
Defined.

Lemma EndSession_completes_witness :
  exists w',
    SessionManager.EndSession env_example (Some "done") w_started = (Ok true,
        w')
    /\ self_SessionId w' = None
    /\ LockFile (Fs w') = None
    /\ ActiveSessionDir (Fs w') = delete "20250318190000" (ActiveSessionDir (Fs
        w_started))
    /\ CompletedSessionDir (Fs w')
       = <["20250318190000" := MkDir
                   match state_json d_started with
                   | Some (JsonDoc v) =>
                       match SessionManager.end_state v
                               (isoformat (clock_at env_example (Ticks
                                   w_started))) (Some "done")
                       with
                       | Ok v' => Some (JsonDoc v')
                       | Raise _ => Some (JsonDoc v)
                       end
                   | other => other
                   end
                   (subdirs d_started)]> (CompletedSessionDir (Fs w_started))
    /\ CrashSessionDir (Fs w') = CrashSessionDir (Fs w_started)
    /\ Sessions (Db w')
       = alter (fun r => SessionRow.Mk (SessionRow.StartTime r)
                           (Some (isoformat (clock_at env_example (Ticks
                               w_started))))
                           "COMPLETED"
                           (if str_truthy (Some "done") then (Some "done")
                            else SessionRow.Summary r))
           "20250318190000" (Sessions (Db w_started))
    /\ Actions (Db w') = Actions (Db w_started).
Proof.
  apply (EndSession_completes env_example (Some "done") w_started
      "20250318190000" d_started).
  - vm_compute. reflexivity.
  - by_compute.
  - vm_compute. reflexivity.
  - vm_compute. reflexivity.
Defined.

Lemma StartSession_EndSession_witness :
  exists w1 w2 dir,
    SessionManager.StartSession env_example w_empty = (Ok (started_id
        env_example w_empty), w1)
    /\ SessionManager.EndSession env_example (Some "done") w1 = (Ok true, w2)
    /\ ActiveSessionDir (Fs w2) !! started_id env_example w_empty = None
    /\ CompletedSessionDir (Fs w2) !! started_id env_example w_empty = Some dir
    /\ state_json dir
       = Some (JsonDoc
                 (JDict ([("SessionId", JStr (started_id env_example w_empty));
                          ("StartTime", JStr (started_StartTime env_example
                              w_empty));
                          ("Messages", JList []); ("Context", JDict []);
                          ("LastModified",
                           JStr (isoformat (clock_at env_example (Ticks w1))));
                          ("EndTime", JStr (isoformat (clock_at env_example
                              (Ticks w1))));
                          ("Status", JStr "COMPLETED")]
                         ++ match (Some "done") with
                            | Some (String a s) =>
                                [("Summary", JStr (String a s))]
                            | _ => []
                            end)))
    /\ Sessions (Db w2) !! started_id env_example w_empty
       = Some (SessionRow.Mk (started_StartTime env_example w_empty)
                 (Some (isoformat (clock_at env_example (Ticks w1))))
                     "COMPLETED"
                 (if str_truthy (Some "done") then (Some "done") else None))
    /\ LockFile (Fs w2) = None
    /\ self_SessionId w2 = None
    /\ SessionManager.init w2 = (Ok tt, w2).
Proof.
  apply (StartSession_EndSession env_example (Some "done") w_empty).
  - reflexivity.
  - vm_compute. reflexivity.
  - by_compute.
  - vm_compute. reflexivity.
Defined.


Lemma init_lists_crashed_witness :
  exists w' L,
    SessionManager.init w_killed = (Ok tt, w')
    /\ SessionManager.GetCrashedSessions w' = (Ok L, w')
    /\ (strip "20250318190000", SessionRow.set_Status "CRASHED" r_started) ∈ L
    /\ dir_exists Crashed (strip "20250318190000") w' = true
    /\ state_file Crashed (strip "20250318190000") w' = state_json d_started.
Proof.
  apply (init_lists_crashed w_killed "20250318190000" d_started r_started).
  - vm_compute. reflexivity.
  - vm_compute. reflexivity.
  - vm_compute. reflexivity.
  - vm_compute. reflexivity.
Defined.

Lemma StateManager_SessionId_agreement_witness :
  (StateManager.StartSession env_example None w_empty
   = (Ok ("20250318190000", Some "20250318190000"), w_started)
   /\ self_SessionId w_started = Some "20250318190000")
  /\ (StateManager.ResumeSession env_example "20250318190000" None w_recovered
      = (Ok (Some "20250318190000_resumed_20250318190000",
             Some "20250318190000_resumed_20250318190000"), w_resumed)
      /\ self_SessionId w_resumed
         = Some "20250318190000_resumed_20250318190000")
  /\ (StateManager.EndSession env_example (Some "done")
        (Some "20250318190000") w_started
      = (Ok (true, None),
         snd (SessionManager.EndSession env_example (Some "done") w_started))
      /\ self_SessionId
           (snd (SessionManager.EndSession env_example (Some "done") w_started))
         = None)
  /\ StateManager.ResumeSession env_example "20250318190000"
       (Some "20250318190000") w_started
     = (Ok (None, None), w_started).
Proof.
  assert (H1 : StateManager.StartSession env_example None w_empty
               = (Ok ("20250318190000", Some "20250318190000"), w_started))
    by (vm_compute; reflexivity).
  assert (H2 : StateManager.ResumeSession env_example "20250318190000" None
                 w_recovered
               = (Ok (Some "20250318190000_resumed_20250318190000",
                      Some "20250318190000_resumed_20250318190000"),
                  w_resumed))
    by (vm_compute; reflexivity).
  assert (H3 : StateManager.EndSession env_example (Some "done")
                 (Some "20250318190000") w_started
               = (Ok (true, None),
                  snd (SessionManager.EndSession env_example (Some "done")
                         w_started)))
    by (vm_compute; reflexivity).
  split; [| split; [| split]].
  - split; [exact H1 |].
    apply (proj1 (StateManager_SessionId_agreement env_example
                    "20250318190000" None None w_empty eq_refl)
             "20250318190000" (Some "20250318190000") w_started H1).
  - split; [exact H2 |].
    apply (proj1 (proj2 (StateManager_SessionId_agreement env_example
                           "20250318190000" None None w_recovered eq_refl))
             "20250318190000_resumed_20250318190000"
             (Some "20250318190000_resumed_20250318190000") w_resumed H2).
  - split; [exact H3 |].
    apply (proj1 (proj2 (proj2 (StateManager_SessionId_agreement env_example
                                  "20250318190000" (Some "done")
                                  (Some "20250318190000") w_started
                                  ltac:(vm_compute; reflexivity))))
             true None _ H3).
  - apply (proj2 (proj2 (proj2 (StateManager_SessionId_agreement env_example
                                  "20250318190000" None
                                  (Some "20250318190000") w_started
                                  ltac:(vm_compute; reflexivity)))));
      vm_compute; reflexivity.
Defined.

Lemma transaction_commit_witness :
  autocommit (Connection.after_calls c_started calls_example)
  /\ Connection.CommitTransaction
       (Connection.after_calls (Connection.BeginTransaction c_started).2
           calls_example)
     = (Ok tt, Connection.after_calls c_started calls_example).
Proof.
  apply (transaction_commit c_started calls_example).
  - split; reflexivity.
Defined.

Lemma Messages_no_session_witness :
  Messages.RecordMessage env_example "User" "Hello" (Messages.MkStore w_empty
      ∅) = (Ok None, (Messages.MkStore w_empty ∅))
  /\ Messages.GetSessionMessages None 5 (Messages.MkStore w_empty ∅) = (Ok [],
      (Messages.MkStore w_empty ∅))
  /\ Messages.GetSessionInfo None (Messages.MkStore w_empty ∅) = (Ok None,
      (Messages.MkStore w_empty ∅))
  /\ (forall id, Sessions (Db (Messages.world (Messages.MkStore w_empty ∅))) !!
      id = None ->
        Messages.GetSessionInfo (Some id) (Messages.MkStore w_empty ∅) = (Ok
            None, (Messages.MkStore w_empty ∅))).
Proof.
  apply (Messages_no_session env_example "User" "Hello" 5 (Messages.MkStore
      w_empty ∅)).
  - reflexivity.
Defined.

Lemma ExecuteAction_record_rejected_witness :
  ActionTracker.RecordAction env_example "BUILD" None w_no_row
  = (Ok None, set_Ticks (S (Ticks w_no_row)) (set_Draws (S (Draws w_no_row))
      w_no_row))
  /\ ActionTracker.ExecuteAction env_example "BUILD" fn_seven None w_no_row
     = (Ok (false, JDict [("Error", JStr "Failed to record action")], None),
        set_Ticks (S (Ticks w_no_row)) (set_Draws (S (Draws w_no_row))
            w_no_row)).
Proof.
  apply (ExecuteAction_record_rejected env_example "BUILD" fn_seven None
      "20250318190000" w_no_row).
  - vm_compute. reflexivity.
  - by_compute.
  - left. vm_compute. reflexivity.
Defined.


Lemma RecordMessage_records_witness :
  let w := Messages.world s_started in
  let MessageId := uuid_at env_example (Draws w) in
  let Timestamp := isoformat (clock_at env_example (Ticks w)) in
  exists s' d' L info info',
    Messages.RecordMessage env_example "User" "Hello" s_started = (Ok (Some
        MessageId), s')
    /\ Messages.Conversations s'
       = <[MessageId := MessageRow.Mk "20250318190000" Timestamp "User"
           "Hello"]>
           (Messages.Conversations s_started)
    /\ SessionManager.LoadSessionState (Messages.world s')
       = (Ok (JDict d'), Messages.world s')
    /\ dict_get "Messages" d'
       = Some (JList
                 (match dict_get "Messages" dict_started with
                  | Some (JList l) => l
                  | _ => []
                  end
                  ++ [JDict [("MessageId", JStr MessageId);
                             ("Timestamp", JStr Timestamp);
                             ("Source", JStr "User");
                             ("Content", JStr "Hello")]]))
    /\ (forall k, k <> "Messages" -> k <> "LastModified" ->
          dict_get k d' = dict_get k dict_started)
    /\ Messages.GetSessionMessages (Some "20250318190000") (-1) s' = (Ok L, s')
    /\ Message.Mk MessageId Timestamp "User" "Hello" ∈ L
    /\ Messages.GetSessionInfo (Some "20250318190000") s_started = (Ok (Some
        info), s_started)
    /\ Messages.GetSessionInfo (Some "20250318190000") s' = (Ok (Some info'),
        s')
    /\ SessionInfo.MessageCount info' = S (SessionInfo.MessageCount info).
Proof.
  apply (RecordMessage_records env_example "User" "Hello" "20250318190000"
      s_started
           dict_started).
  - vm_compute. reflexivity.
  - by_compute.
  - vm_compute. eauto.
  - vm_compute. reflexivity.
  - vm_compute. reflexivity.
  - by_compute.
  - vm_compute. reflexivity.
Defined.

Lemma SaveSessionState_refuses_witness :
  SessionManager.SaveSessionState env_example (JDict []) w_empty
  = (Ok false, w_empty)
  /\ (exists w',
        SessionManager.SaveSessionState env_example (JStr "state") w_started
        = (Ok false, w')
        /\ Fs w' = Fs w_started /\ Db w' = Db w_started
        /\ self_SessionId w' = self_SessionId w_started)
  /\ (exists w',
        SessionManager.SaveSessionState env_example (JDict []) w_no_directory
        = (Ok false, w')
        /\ Fs w' = Fs w_no_directory /\ Db w' = Db w_no_directory
        /\ self_SessionId w' = self_SessionId w_no_directory).
Proof.
  split; [| split].
  - apply (proj1 (SaveSessionState_refuses env_example (JDict []) w_empty)).
    reflexivity.
  - apply (proj1 (proj2 (SaveSessionState_refuses env_example (JStr "state")
                           w_started))).
    intros d. discriminate.
  - apply (proj2 (proj2 (SaveSessionState_refuses env_example (JDict [])
                           w_no_directory)) "20250318190000").
    + vm_compute. reflexivity.
    + vm_compute. reflexivity.
Defined.

Lemma CleanExit_no_recovery_witness :
  (SessionManager.CleanExit w_started
   = (Ok tt, set_Fs (set_LockFile None) w_started)
   /\ SessionManager.init (SessionManager.CleanExit w_started).2
      = (Ok tt, set_SessionId None (set_Fs (set_LockFile None) w_started))
   /\ (CrashSessionDir (Fs w_started) !! "20250318190000" = None ->
       SessionManager.ResumeSession env_example "20250318190000"
         (SessionManager.init (SessionManager.CleanExit w_started).2).2
       = (Ok None, (SessionManager.init (SessionManager.CleanExit
           w_started).2).2)))
  /\ SessionManager.CleanExit w_killed = (Ok tt, w_killed).
Proof.
  split.
  - apply (proj1 (CleanExit_no_recovery env_example w_started)
      "20250318190000").
    + vm_compute. reflexivity.
    + by_compute.
  - apply (proj2 (CleanExit_no_recovery env_example w_killed)). reflexivity.
Defined.

Lemma RetryAction_keeps_rows_witness :
  ActionTracker.RetryAction env_example "no-such-action" w_recorded
  = (Ok None, w_recorded)
  /\ Actions (Db (ActionTracker.RetryAction env_example "uuid-1" w_completed).2)
     !! "uuid-1"
     = Some r_completed.
Proof.
  split.
  - apply (proj1 (RetryAction_keeps_rows env_example "no-such-action"
      w_recorded)).
    vm_compute. reflexivity.
  - apply (proj2 (proj2 (proj2 (RetryAction_keeps_rows env_example "uuid-1"
                                  w_completed)))).
    vm_compute. reflexivity.
Defined.

Lemma collision_leaves_taken_id_witness :
  SessionManager.StartSession env_example w_started
  = (Raise (IntegrityError "UNIQUE constraint failed: Sessions.SessionId"),
     let w1 := after_ending env_example "Ended to start new session" w_started
         in
     set_Ticks (S (S (Ticks w1)))
       (set_SessionId (Some (started_id env_example w_started)) w1))
  /\ SessionManager.ResumeSession env_example "20250318190000" w_resumed
     = (Raise (IntegrityError "UNIQUE constraint failed: Sessions.SessionId"),
        let w1 := after_ending env_example "Ended to resume crashed session"
                    w_resumed in
        set_Ticks (S (S (Ticks w1)))
          (set_SessionId
             (Some (resumed_id env_example "20250318190000" w_resumed)) w1)).
Proof.
  split.
  - apply (proj1 (collision_leaves_taken_id env_example "20250318190000"
                    w_started)).
    vm_compute. eauto.
  - apply (proj2 (collision_leaves_taken_id env_example "20250318190000"
                    w_resumed)).
    + vm_compute. eauto.
    + vm_compute. eauto.
Defined.

Lemma lifecycle_keeps_actions_witness :
  (ActionTracker.GetPendingActions (Some "20250318190000")
     (SessionManager.ResumeSession env_example "20250318190000"
         w_recovered).2).1
  = (ActionTracker.GetPendingActions (Some "20250318190000") w_recovered).1.
Proof.
  apply (proj1 (proj2 (proj2 (proj2
           (lifecycle_keeps_actions env_example "20250318190000" None
              w_recovered))))).
  - apply (proj1 (proj2 (lifecycle_keeps_actions env_example "20250318190000"
                           None w_recovered))).
  - by_compute.
Defined.
